(** * Quick Timer: the scheduling coordinator, embedded and verified

    A shallow embedding of [QuickTimerCoordinator]
    (custom_components/quick_timer/__init__.py): fire-time computation,
    schedule / cancel / firing / recovery / shutdown, over an explicit
    state holding the coordinator's tables and the observable side of the
    Home Assistant host (service calls, bus events, pending timers).

    Conventions.
    - Python [str] values are Rocq [string]s; only ASCII characters are
      given a meaning by [int] below.
    - A Python [dict] is an insertion-ordered association list.
    - An aware [datetime] is the number of microseconds on the local wall
      clock, counted from the start of day 0 of the proleptic calendar, so
      that dividing by a day gives [toordinal()].  [dt_util.now()] and
      every value derived from it by [replace] or by adding a [timedelta]
      share one [tzinfo], and Python compares and subtracts such values on
      their wall-clock fields.  Dates stay inside the range of [datetime].
    - A coroutine is a function from the state to an outcome (returned
      value or raised exception) and the next state. *)

From Stdlib Require Import ZArith List String Ascii Bool Lia DecimalString.
Import ListNotations.

Local Open Scope string_scope.
Local Open Scope list_scope.

(** ** Python built-ins used by the coordinator *)

Module Py.

(** *** dict with string keys (insertion ordered) *)

Section Dict.
Context {V : Type}.

Definition dict := list (string * V).

(** [d.get(k)] *)
Fixpoint get (k : string) (d : dict) : option V :=
  match d with
  | [] => None
  | (k', v) :: r => if String.eqb k k' then Some v else get k r
  end.

(** [k in d] *)
Definition has (k : string) (d : dict) : bool :=
  match get k d with Some _ => true | None => false end.

(** [d[k] = v]: an existing key keeps its position *)
Fixpoint set (k : string) (v : V) (d : dict) : dict :=
  match d with
  | [] => [(k, v)]
  | (k', v') :: r =>
      if String.eqb k k' then (k, v) :: r else (k', v') :: set k v r
  end.

(** [del d[k]] / [d.pop(k, None)] *)
Fixpoint del (k : string) (d : dict) : dict :=
  match d with
  | [] => []
  | (k', v) :: r =>
      if String.eqb k k' then del k r else (k', v) :: del k r
  end.

(** [list(d.keys())] *)
Definition keys (d : dict) : list string := map fst d.
End Dict.

Arguments dict : clear implicits.

(** *** str *)

(** [s.split(sep)] for a one-character separator *)
Fixpoint split (sep : ascii) (s : string) : list string :=
  match s with
  | EmptyString => [EmptyString]
  | String c r =>
      if Ascii.eqb c sep then EmptyString :: split sep r
      else match split sep r with
           | [] => [String c EmptyString]
           | h :: t => String c h :: t
           end
  end.

(** [sep in s] *)
Fixpoint contains (sep : ascii) (s : string) : bool :=
  match s with
  | EmptyString => false
  | String c r => Ascii.eqb c sep || contains sep r
  end.

(** [s.split(sep, 1)] when [sep in s]: the text before the first
    separator and the text after it *)
Fixpoint split1 (sep : ascii) (s : string) : string * string :=
  match s with
  | EmptyString => (EmptyString, EmptyString)
  | String c r =>
      if Ascii.eqb c sep then (EmptyString, r)
      else let (a, b) := split1 sep r in (String c a, b)
  end.

(** truthiness of a string and of a list *)
Definition truthy_str (s : string) : bool :=
  match s with EmptyString => false | _ => true end.

Definition truthy_list {A} (l : list A) : bool :=
  match l with [] => false | _ => true end.

(** [str(n)] for a non-negative counter *)
Definition str_of_nat (n : nat) : string :=
  NilZero.string_of_uint (Nat.to_uint n).

(** *** int(str) *)

Definition is_space (c : ascii) : bool :=
  let n := nat_of_ascii c in
  ((9 <=? n)%nat && (n <=? 13)%nat) || (n =? 32)%nat.

Definition is_digit (c : ascii) : bool :=
  let n := nat_of_ascii c in (48 <=? n)%nat && (n <=? 57)%nat.

Definition digit_value (c : ascii) : Z := Z.of_nat (nat_of_ascii c - 48).

Fixpoint lstrip (s : string) : string :=
  match s with
  | String c r => if is_space c then lstrip r else s
  | EmptyString => EmptyString
  end.

Fixpoint rstrip (s : string) : string :=
  match s with
  | EmptyString => EmptyString
  | String c r =>
      match rstrip r with
      | EmptyString => if is_space c then EmptyString else String c EmptyString
      | r' => String c r'
      end
  end.

Definition strip (s : string) : string := rstrip (lstrip s).

(** the interpreter's limit on decimal digits in one conversion *)
Definition MAX_STR_DIGITS : nat := 4300.

(** digits with single underscores between them; [n] counts the digits
    read and [after_digit] says whether the previous character was one *)
Fixpoint digits (s : string) (acc : Z) (n : nat) (after_digit : bool)
  : option Z :=
  match s with
  | EmptyString =>
      if after_digit && (n <=? MAX_STR_DIGITS)%nat then Some acc else None
  | String c r =>
      if is_digit c then digits r (acc * 10 + digit_value c)%Z (S n) true
      else if Ascii.eqb c "_" && after_digit then digits r acc n false
      else None
  end.

(** [int(s)]; [None] stands for [ValueError] *)
Definition int (s : string) : option Z :=
  match strip s with
  | String "+" r => digits r 0%Z 0 false
  | String "-" r => option_map Z.opp (digits r 0%Z 0 false)
  | t => digits t 0%Z 0 false
  end.

End Py.

(** ** datetime on the wall clock *)

Definition datetime := Z.

Definition US_PER_SECOND : Z := 1000000.
Definition US_PER_DAY : Z := 86400 * US_PER_SECOND.

(** [timedelta(seconds=n)] and [timedelta(days=n)] *)
Definition timedelta_seconds (n : Z) : Z := (n * US_PER_SECOND)%Z.
Definition timedelta_days (n : Z) : Z := (n * US_PER_DAY)%Z.

(** the date of [d] at 00:00:00.000000, and the time of day of [d] *)
Definition midnight (d : datetime) : datetime := (US_PER_DAY * (d / US_PER_DAY))%Z.
Definition time_of_day (d : datetime) : Z := (d mod US_PER_DAY)%Z.

(** [int(delta.total_seconds())]: truncation towards zero *)
Definition total_seconds_int (delta : Z) : Z := Z.quot delta US_PER_SECOND.

(** exceptions the modelled code can meet; [ServiceError] stands for any
    exception raised by the host (a service call or a cancel handle) *)
Inductive Exn :=
| ValueError | IndexError | OverflowError | TypeError | AttributeError
| ServiceError.

(** arguments of [datetime.replace] are converted to C ints first *)
Definition fits_c_int (z : Z) : bool :=
  ((- 2 ^ 31 <=? z) && (z <=? 2 ^ 31 - 1))%Z.

Definition in_range (lo hi z : Z) : bool := ((lo <=? z) && (z <=? hi))%Z.

(** [now.replace(hour=h, minute=m, second=s, microsecond=0)] *)
Definition replace_time (now : datetime) (h m s : Z) : Exn + datetime :=
  if negb (fits_c_int h && fits_c_int m && fits_c_int s) then inl OverflowError
  else if in_range 0 23 h && in_range 0 59 m && in_range 0 59 s
       then inr (midnight now + timedelta_seconds ((h * 60 + m) * 60 + s))%Z
       else inl ValueError.

(** ** Constants of const.py *)

(** Modelled from the spec: const.py is not among the sources; the spec
    gives the time mode as the enum {RELATIVE, ABSOLUTE} and the units as
    seconds, minutes and hours, and the service schema admits no other
    value. *)
Inductive TimeMode := TIME_MODE_RELATIVE | TIME_MODE_ABSOLUTE.
Inductive Unit := UNIT_SECONDS | UNIT_MINUTES | UNIT_HOURS.

Definition TimeMode_eqb (a b : TimeMode) : bool :=
  match a, b with
  | TIME_MODE_RELATIVE, TIME_MODE_RELATIVE => true
  | TIME_MODE_ABSOLUTE, TIME_MODE_ABSOLUTE => true
  | _, _ => false
  end.

Definition Unit_eqb (a b : Unit) : bool :=
  match a, b with
  | UNIT_SECONDS, UNIT_SECONDS => true
  | UNIT_MINUTES, UNIT_MINUTES => true
  | UNIT_HOURS, UNIT_HOURS => true
  | _, _ => false
  end.

(** ** Fire-time computation *)

Definition convert_to_seconds (delay : Z) (unit : Unit) : Z :=
  if Unit_eqb unit UNIT_SECONDS then delay
  else if Unit_eqb unit UNIT_HOURS then (delay * 3600)%Z
  else (delay * 60)%Z.

(** The body of the [try] block of [async_schedule_action]: the scheduled
    time and [delay_seconds], or the exception raised on the way. *)
Definition parse_at_time (now : datetime) (at_time : string)
  : Exn + (datetime * Z) :=
  let parts := Py.split ":" at_time in
  match Py.int (nth 0 parts EmptyString) with
  | None => inl ValueError
  | Some hours =>
      match nth_error parts 1 with
      | None => inl IndexError
      | Some p1 =>
          match Py.int p1 with
          | None => inl ValueError
          | Some minutes =>
              match (if (2 <? List.length parts)%nat
                     then Py.int (nth 2 parts EmptyString) else Some 0%Z) with
              | None => inl ValueError
              | Some seconds =>
                  match replace_time now hours minutes seconds with
                  | inl e => inl e
                  | inr scheduled_time =>
                      let scheduled_time :=
                        if (scheduled_time <=? now)%Z
                        then (scheduled_time + timedelta_days 1)%Z
                        else scheduled_time in
                      inr (scheduled_time,
                           total_seconds_int (scheduled_time - now))
                  end
              end
          end
      end
  end.

(** ** Data model *)

(** [target] and [data] of an action: mappings the coordinator only
    routes.  An action whose [target] or [data] is no mapping is outside
    this model. *)
Definition mapping := Py.dict string.

(** A value as a service call delivers it under a key of an action
    definition: the schema of [finish_actions] and [start_actions] is
    [[dict]], which leaves the values of the keys unchecked.  A float
    behaves as [PInt] wherever the coordinator looks at a value: true
    unless zero, and not a container. *)
#[warnings="-register-all"]
Inductive PyVal :=
| PNone
| PBool (b : bool)
| PInt (z : Z)
| PStr (s : string)
| PList (l : list PyVal)
| PDict (d : list (string * PyVal)).

(** [bool(v)] *)
Definition truthy (v : PyVal) : bool :=
  match v with
  | PNone => false
  | PBool b => b
  | PInt z => negb (z =? 0)%Z
  | PStr s => Py.truthy_str s
  | PList l => Py.truthy_list l
  | PDict d => Py.truthy_list d
  end.

Definition is_str (v : PyVal) : bool :=
  match v with PStr _ => true | _ => false end.

(** [v == sub] for a string [sub] *)
Definition eq_str (sub : string) (v : PyVal) : bool :=
  match v with PStr s => String.eqb s sub | _ => false end.

(** [c in v] for a one-character string [c]: a character of a string, an
    element of a list, a key of a dict; [None] is the [TypeError] of a
    value that is no container *)
Definition py_in (c : ascii) (v : PyVal) : option bool :=
  match v with
  | PStr s => Some (Py.contains c s)
  | PList l => Some (existsb (eq_str (String c EmptyString)) l)
  | PDict d => Some (Py.has (String c EmptyString) d)
  | PNone | PBool _ | PInt _ => None
  end.

(** An action definition [{"service": ..., "target": ..., "data": ...}];
    [None] is an absent key.  The docstring of
    [_execute_action_definition] gives the service as a string
    ["domain.service"]; nothing checks it before the function runs, so
    the field holds any value. *)
Record Action := mkAction {
  act_service : option PyVal;
  act_target : option mapping;
  act_data : option mapping
}.

(** A stored task record.  The keys that [async_restore_tasks] and
    [async_cancel_action] read with [.get] may be absent. *)
Record Task := mkTask {
  scheduled_time : option string;
  end_time : option string;
  delay_seconds : Z;
  start_actions : list Action;
  finish_actions : option (list Action);
  notify : option bool;
  notify_ha : option bool;
  notify_mobile : option bool;
  notify_devices : option (list string);
  at_time : option string;
  time_mode : TimeMode;
  task_label : option string
}.

(** The values captured by [_create_finish_actions_callback] *)
Record FinishCallback := mkCallback {
  cb_task_id : string;
  cb_finish_actions : list Action;
  cb_notify : bool;
  cb_notify_ha : bool;
  cb_notify_mobile : bool;
  cb_notify_devices : option (list string);
  cb_task_label : option string
}.

(** What reaches the host's service registry.  [MobileNotification] is one
    run of [_send_mobile_notification], whose walk over the device and
    entity registries is the host's. *)
Inductive HostCall :=
| ServiceCall (domain service_name : string) (data target : option mapping)
| PersistentNotification (title message : string)
| MobileNotification (title message : string) (device_ids : option (list string)).

(** Events fired on the bus *)
Inductive Event :=
| TaskStarted (task_id : string) (start finish : list Action)
              (scheduled_time end_time : string) (delay_seconds : Z)
| TaskCompleted (task_id : string) (finish : list Action)
                (success_count error_count : nat)
| TaskCancelled (task_id reason : string).

Record HistoryEntry := mkHistory {
  h_delay : Z;
  h_unit : Unit;
  h_time_mode : TimeMode;
  h_at_time : option string;
  h_start_actions : list Action;
  h_finish_actions : list Action
}.

Record Sensor := mkSensor {
  active_tasks : Py.dict Task;
  sensor_preferences : Py.dict (list HistoryEntry)
}.

(** The coordinator's tables and the observable state of the host *)
Record World := mkWorld {
  store : Py.dict Task;                          (* QuickTimerStore *)
  preferences : Py.dict (list HistoryEntry);     (* QuickTimerPreferencesStore *)
  scheduled_tasks : Py.dict nat;                 (* task_id -> cancel handle *)
  state_listeners : Py.dict nat;                 (* no code path fills it *)
  sensor : option Sensor;
  calls : list HostCall;                         (* oldest first *)
  events : list Event;                           (* oldest first *)
  timers : list (nat * (datetime * FinishCallback));  (* armed in the event loop *)
  next_handle : nat;
  unsubscribed : list nat                        (* cancel handles invoked *)
}.

Definition with_store x w :=
  mkWorld x (preferences w) (scheduled_tasks w) (state_listeners w) (sensor w)
          (calls w) (events w) (timers w) (next_handle w) (unsubscribed w).
Definition with_preferences x w :=
  mkWorld (store w) x (scheduled_tasks w) (state_listeners w) (sensor w)
          (calls w) (events w) (timers w) (next_handle w) (unsubscribed w).
Definition with_scheduled_tasks x w :=
  mkWorld (store w) (preferences w) x (state_listeners w) (sensor w)
          (calls w) (events w) (timers w) (next_handle w) (unsubscribed w).
Definition with_state_listeners x w :=
  mkWorld (store w) (preferences w) (scheduled_tasks w) x (sensor w)
          (calls w) (events w) (timers w) (next_handle w) (unsubscribed w).
Definition with_sensor x w :=
  mkWorld (store w) (preferences w) (scheduled_tasks w) (state_listeners w) x
          (calls w) (events w) (timers w) (next_handle w) (unsubscribed w).
Definition with_calls x w :=
  mkWorld (store w) (preferences w) (scheduled_tasks w) (state_listeners w)
          (sensor w) x (events w) (timers w) (next_handle w) (unsubscribed w).
Definition with_events x w :=
  mkWorld (store w) (preferences w) (scheduled_tasks w) (state_listeners w)
          (sensor w) (calls w) x (timers w) (next_handle w) (unsubscribed w).
Definition with_timers x w :=
  mkWorld (store w) (preferences w) (scheduled_tasks w) (state_listeners w)
          (sensor w) (calls w) (events w) x (next_handle w) (unsubscribed w).
Definition with_next_handle x w :=
  mkWorld (store w) (preferences w) (scheduled_tasks w) (state_listeners w)
          (sensor w) (calls w) (events w) (timers w) x (unsubscribed w).
Definition with_unsubscribed x w :=
  mkWorld (store w) (preferences w) (scheduled_tasks w) (state_listeners w)
          (sensor w) (calls w) (events w) (timers w) (next_handle w) x.

(** ** Coroutines: state and exceptions *)

Inductive Outcome (A : Type) :=
| Returned (a : A)
| Raised (e : Exn).
Arguments Returned {A} a.
Arguments Raised {A} e.

(** ** The host and the libraries, as far as the coordinator depends on them *)

(** What [dt_util.parse_datetime] reads from a timestamp: a datetime that
    carries a UTC offset, given as the same instant on the wall clock of
    [dt_util.now()], or one that carries none when the string has none.
    Python orders two datetimes only when both are of the same kind;
    [dt_util.now()] is of the first. *)
Inductive Parsed :=
| Aware (d : datetime)
| Naive (d : datetime).

Record Env := mkEnv {
  (** does [hass.services.async_call] raise, given the calls made so far *)
  svc_raises : list HostCall -> HostCall -> bool;
  (** does invoking this cancel handle raise *)
  unsub_raises : nat -> bool;
  (** [datetime.isoformat] *)
  isoformat : datetime -> string;
  (** [dt_util.parse_datetime]: [None] for a string that is no
      timestamp; the library may raise for one that is well formed and
      names no valid date or time *)
  parse_datetime : string -> Outcome (option Parsed);
  (** the length cap of a history log in store.py *)
  history_cap : nat
}.

Definition M (A : Type) : Type := World -> Outcome A * World.

Definition ret {A} (a : A) : M A := fun w => (Returned a, w).

Definition raise {A} (e : Exn) : M A := fun w => (Raised e, w).

Definition bind {A B} (m : M A) (k : A -> M B) : M B :=
  fun w =>
    match m w with
    | (Returned a, w') => k a w'
    | (Raised e, w') => (Raised e, w')
    end.

(** [try: m  except Exception as e: h e] *)
Definition try_except {A} (m : M A) (h : Exn -> M A) : M A :=
  fun w =>
    match m w with
    | (Raised e, w') => h e w'
    | r => r
    end.

Definition modify (f : World -> World) : M unit := fun w => (Returned tt, f w).

Notation "x <- m ;; k" := (bind m (fun x => k))
  (at level 61, m at next level, right associativity).
Notation "m ;;; k" := (bind m (fun _ => k))
  (at level 61, right associativity).

(** [for x in l: body x] *)
Fixpoint for_each {A} (l : list A) (body : A -> M unit) : M unit :=
  match l with
  | [] => ret tt
  | x :: r => body x ;;; for_each r body
  end.

Definition or_default {A} (o : option A) (d : A) : A :=
  match o with Some a => a | None => d end.

(** ** The coordinator *)

Section Coordinator.

Variable E : Env.

(** *** Host primitives *)

(** [hass.services.async_call]: the call is recorded, then succeeds or
    raises as the host decides *)
Definition async_call (c : HostCall) : M unit :=
  fun w =>
    let w' := with_calls (calls w ++ [c]) w in
    if svc_raises E (calls w) c then (Raised ServiceError, w')
    else (Returned tt, w').

(** [hass.bus.async_fire] *)
Definition async_fire (e : Event) : M unit :=
  modify (fun w => with_events (events w ++ [e]) w).

(** [async_track_point_in_time]: arms a one-shot timer and returns its
    cancel handle *)
Definition async_track_point_in_time (cb : FinishCallback) (when : datetime)
  : M nat :=
  fun w =>
    let h := next_handle w in
    (Returned h,
     with_next_handle (S h) (with_timers (timers w ++ [(h, (when, cb))]) w)).

Definition disarm (h : nat) (ts : list (nat * (datetime * FinishCallback))) :=
  filter (fun t => negb (Nat.eqb (fst t) h)) ts.

(** invoking a cancel handle: a handle that raises leaves its timer
    armed *)
Definition unsub (h : nat) : M unit :=
  fun w =>
    let w' := with_unsubscribed (unsubscribed w ++ [h]) w in
    if unsub_raises E h then (Raised ServiceError, w')
    else (Returned tt, with_timers (disarm h (timers w')) w').

(** *** The two stores *)

(** Modelled from the spec: store.py is not among the sources.  The
    Durable Task Store is a mapping from task_id to task record with
    [exists], [load], [save] and [remove]; removing an absent id does
    nothing.  The spec lets a [save] or a [remove] fail and the failure
    reach the caller; the store here is one whose writes succeed, and
    what is proved of an operation that returns is about the runs in
    which they do. *)
Definition has_task (task_id : string) (w : World) : bool :=
  Py.has task_id (store w).

Definition get_task (task_id : string) (w : World) : option Task :=
  Py.get task_id (store w).

Definition async_add_task (task_id : string) (t : Task) : M unit :=
  modify (fun w => with_store (Py.set task_id t (store w)) w).

Definition async_remove_task (task_id : string) : M unit :=
  modify (fun w => with_store (Py.del task_id (store w)) w).

(** Modelled from the spec: store.py is not among the sources.  The
    history of a target is an ordered, most-recent-first, length-capped
    log of past invocations. *)
Definition async_add_to_history (target : string) (entry : HistoryEntry)
  : M unit :=
  modify (fun w =>
    let old := or_default (Py.get target (preferences w)) [] in
    with_preferences
      (Py.set target (firstn (history_cap E) (entry :: old)) (preferences w)) w).

(** *** Sensor updates *)

Definition _update_sensor : M unit :=
  modify (fun w =>
    match sensor w with
    | Some s => with_sensor (Some (mkSensor (store w) (sensor_preferences s))) w
    | None => w
    end).

Definition _update_preferences_sensor : M unit :=
  modify (fun w =>
    match sensor w with
    | Some s => with_sensor (Some (mkSensor (active_tasks s) (preferences w))) w
    | None => w
    end).

(** *** Actions *)

(** [x or None] for a mapping *)
Definition or_none (m : mapping) : option mapping :=
  if Py.truthy_list m then Some m else None.

(** [service = action_def.get("service")]; [if not service: return];
    then [if "." in service:], which raises [TypeError] when the value is
    no container, and [service.split(".", 1)], which only a string has *)
Definition _execute_action_definition (action_def : Action) : M unit :=
  match act_service action_def with
  | None => ret tt
  | Some service =>
      if negb (truthy service) then ret tt
      else
        let target := or_default (act_target action_def) [] in
        let data := or_default (act_data action_def) [] in
        match py_in "." service with
        | None => raise TypeError
        | Some true =>
            match service with
            | PStr s =>
                let (domain, service_name) := Py.split1 "." s in
                async_call (ServiceCall domain service_name
                                        (or_none data) (or_none target))
            | _ => raise AttributeError
            end
        | Some false => ret tt
        end
  end.

(** *** Notifications *)

(** One run of [_send_mobile_notification]; its body sits in a
    [try]/[except Exception], so it never raises. *)
Definition _send_mobile_notification (title message : string)
           (device_ids : option (list string)) : M unit :=
  modify (fun w =>
    with_calls (calls w ++ [MobileNotification title message device_ids]) w).

Definition truthy_devices (d : option (list string)) : bool :=
  match d with Some l => Py.truthy_list l | None => false end.

Definition _send_notification (title message : string)
           (notify_ha notify_mobile : bool)
           (notify_devices : option (list string)) : M unit :=
  (if notify_ha
   then try_except (async_call (PersistentNotification title message))
                   (fun _ => ret tt)
   else ret tt) ;;;
  if truthy_devices notify_devices
  then _send_mobile_notification title message notify_devices
  else if notify_mobile
       then _send_mobile_notification title message None
       else ret tt.

(** *** Cleanup *)

Definition _cleanup_task (task_id : string) : M unit :=
  modify (fun w =>
    if Py.has task_id (scheduled_tasks w)
    then with_scheduled_tasks (Py.del task_id (scheduled_tasks w)) w
    else w) ;;;
  (fun w =>
     match Py.get task_id (state_listeners w) with
     | Some h =>
         (unsub h ;;;
          modify (fun w => with_state_listeners
                             (Py.del task_id (state_listeners w)) w)) w
     | None => (Returned tt, w)
     end) ;;;
  async_remove_task task_id ;;;
  _update_sensor.

(** *** Firing *)

Definition display_name (task_label : option string) (task_id : string)
  : string :=
  match task_label with
  | Some l => if Py.truthy_str l then l else task_id
  | None => task_id
  end.

(** the [for] loop of [execute_finish_actions], threading
    [(success_count, error_count)] *)
Fixpoint run_finish_actions (actions : list Action) (counts : nat * nat)
  : M (nat * nat) :=
  match actions with
  | [] => ret counts
  | action_def :: rest =>
      counts' <- try_except
                   (_execute_action_definition action_def ;;;
                    ret (S (fst counts), snd counts))
                   (fun _ => ret (fst counts, S (snd counts))) ;;
      run_finish_actions rest counts'
  end.

Definition execute_finish_actions (cb : FinishCallback) : M unit :=
  counts <- run_finish_actions (cb_finish_actions cb) (0, 0) ;;
  let success_count := fst counts in
  let error_count := snd counts in
  async_fire (TaskCompleted (cb_task_id cb) (cb_finish_actions cb)
                            success_count error_count) ;;;
  (if cb_notify_ha cb || cb_notify_mobile cb
      || truthy_devices (cb_notify_devices cb)
   then
     let title := ("Timer Completed: "
                   ++ display_name (cb_task_label cb) (cb_task_id cb))%string in
     if (0 <? error_count)%nat
     then _send_notification title
            (Py.str_of_nat success_count ++ " actions succeeded, "
             ++ Py.str_of_nat error_count ++ " failed")%string
            (cb_notify_ha cb) (cb_notify_mobile cb) (cb_notify_devices cb)
     else _send_notification title
            ("All " ++ Py.str_of_nat success_count
             ++ " actions executed successfully")%string
            (cb_notify_ha cb) (cb_notify_mobile cb) (cb_notify_devices cb)
   else ret tt) ;;;
  _cleanup_task (cb_task_id cb).

(** the event loop running the callback of an armed timer when its time
    comes; the timer is one-shot *)
Definition timer_elapse (h : nat) : M unit :=
  fun w =>
    match find (fun t => Nat.eqb (fst t) h) (timers w) with
    | Some (_, (_, cb)) =>
        execute_finish_actions cb (with_timers (disarm h (timers w)) w)
    | None => (Returned tt, w)
    end.

(** *** Shutdown *)

(** [for k in list(table.keys()): try: table[k]() except Exception: pass] *)
Definition cancel_all (table : World -> Py.dict nat) : M unit :=
  fun w =>
    for_each (Py.keys (table w))
      (fun k w' =>
         match Py.get k (table w') with
         | Some h => try_except (unsub h) (fun _ => ret tt) w'
         | None => (Returned tt, w')
         end) w.

Definition async_shutdown : M unit :=
  cancel_all scheduled_tasks ;;;
  modify (with_scheduled_tasks []) ;;;
  cancel_all state_listeners ;;;
  modify (with_state_listeners []).

(** *** Cancel *)

Definition async_cancel_action (task_id : string) (silent : bool)
           (reason : string) : M bool :=
  fun w =>
    if negb (Py.has task_id (scheduled_tasks w)) && negb (has_task task_id w)
    then (Returned false, w)
    else
      ((match Py.get task_id (scheduled_tasks w) with
        | Some h => unsub h
        | None => ret tt
        end) ;;;
       (fun w1 =>
          let task := get_task task_id w1 in
          (_cleanup_task task_id ;;;
           async_fire (TaskCancelled task_id reason) ;;;
           (match task with
            | Some t =>
                if negb silent
                   && (or_default (notify_ha t) false
                       || or_default (notify_mobile t) false
                       || or_default (notify t) false
                       || truthy_devices (notify_devices t))
                then
                  _send_notification
                    ("Timer Cancelled: " ++ display_name (task_label t) task_id)%string
                    ("Scheduled task was cancelled (" ++ reason ++ ")")%string
                    (match notify_ha t with
                     | Some b => b
                     | None => or_default (notify t) false
                     end)
                    (or_default (notify_mobile t) false)
                    (notify_devices t)
                else ret tt
            | None => ret tt
            end) ;;;
           ret true) w1)) w.

(** *** Schedule *)

(** lines 194-217: the scheduled time and [delay_seconds] *)
Definition compute_fire_time (now : datetime) (delay : Z) (unit : Unit)
           (at_time : option string) (time_mode : TimeMode)
  : Exn + (datetime * Z) :=
  match (if TimeMode_eqb time_mode TIME_MODE_ABSOLUTE
         then match at_time with
              | Some s => if Py.truthy_str s then Some s else None
              | None => None
              end
         else None) with
  | Some s => parse_at_time now s
  | None =>
      let delay_seconds := convert_to_seconds delay unit in
      inr ((now + timedelta_seconds delay_seconds)%Z, delay_seconds)
  end.

(** [finish_actions[0].get("target", {}).get("entity_id", task_id)] *)
Definition primary_entity (first : Action) (task_id : string) : string :=
  or_default (Py.get "entity_id" (or_default (act_target first) [])) task_id.

Definition async_schedule_action
           (now : datetime)
           (task_id : string) (delay : Z) (unit : Unit)
           (finish_actions : list Action)
           (start_actions : option (list Action))
           (notify notify_ha notify_mobile : bool)
           (notify_devices : option (list string))
           (at_time : option string) (time_mode : TimeMode)
           (task_label : option string) : M Datatypes.unit :=
  async_cancel_action task_id true "user_request" ;;;
  match compute_fire_time now delay unit at_time time_mode with
  | inl ValueError => ret tt
  | inl e => raise e
  | inr (scheduled_time, delay_seconds) =>
      let scheduled_time_str := isoformat E now in
      let end_time_str := isoformat E scheduled_time in
      let start := or_default start_actions [] in
      for_each start
        (fun action_def =>
           try_except (_execute_action_definition action_def)
                      (fun _ => ret tt)) ;;;
      async_add_task task_id
        (mkTask (Some scheduled_time_str) (Some end_time_str) delay_seconds
                start (Some finish_actions)
                (Some notify) (Some notify_ha) (Some notify_mobile)
                (Some (or_default notify_devices []))
                at_time time_mode task_label) ;;;
      cancel_callback <-
        async_track_point_in_time
          (mkCallback task_id finish_actions notify notify_ha notify_mobile
                      notify_devices task_label)
          scheduled_time ;;
      modify (fun w => with_scheduled_tasks
                         (Py.set task_id cancel_callback (scheduled_tasks w)) w) ;;;
      async_fire (TaskStarted task_id start finish_actions
                              scheduled_time_str end_time_str delay_seconds) ;;;
      (match finish_actions with
       | first :: _ =>
           async_add_to_history (primary_entity first task_id)
             (mkHistory delay unit time_mode at_time start finish_actions) ;;;
           _update_preferences_sensor
       | [] => ret tt
       end) ;;;
      _update_sensor
  end.

(** *** Recovery *)

(** [task.get("end_time") or task.get("scheduled_time")] *)
Definition fire_time_str (task : Task) : option string :=
  match end_time task with
  | Some s => if Py.truthy_str s then Some s else scheduled_time task
  | None => scheduled_time task
  end.

(** [dt_util.parse_datetime(end_time_str) if end_time_str else None] *)
Definition fire_time (task : Task) : Outcome (option Parsed) :=
  match fire_time_str task with
  | Some s => if Py.truthy_str s then parse_datetime E s else Returned None
  | None => Returned None
  end.

Definition callback_of (task_id : string) (task : Task)
           (finish_actions : list Action) : FinishCallback :=
  mkCallback task_id finish_actions
             (or_default (notify task) false)
             (or_default (notify_ha task) false)
             (or_default (notify_mobile task) false)
             (notify_devices task)
             (task_label task).

(** the body of the loop of [async_restore_tasks].  Nothing in the loop
    catches an exception: one raised by [parse_datetime], or the
    [TypeError] of [scheduled_time <= now] for a [scheduled_time] without
    UTC offset, ends the recovery. *)
Definition restore_task (now : datetime) (item : string * Task) : M unit :=
  let (task_id, task) := item in
  match fire_time task with
  | Raised e => raise e
  | Returned None => async_remove_task task_id
  | Returned (Some scheduled_time) =>
      let finish_actions := or_default (finish_actions task) [] in
      if negb (Py.truthy_list finish_actions)
      then async_remove_task task_id
      else
        match scheduled_time with
        | Naive _ => raise TypeError
        | Aware scheduled_time =>
            if (scheduled_time <=? now)%Z
            then execute_finish_actions (callback_of task_id task finish_actions)
            else
              cancel_callback <-
                async_track_point_in_time
                  (callback_of task_id task finish_actions) scheduled_time ;;
              modify (fun w => with_scheduled_tasks
                                 (Py.set task_id cancel_callback
                                         (scheduled_tasks w)) w)
        end
  end.

Definition async_restore_tasks (now : datetime) : M unit :=
  (fun w => for_each (store w) (restore_task now) w) ;;;
  _update_sensor.

(** [QuickTimerCoordinator.__init__] over the stores and the host of [w] *)
Definition new_coordinator (w : World) : World :=
  with_sensor None (with_state_listeners [] (with_scheduled_tasks [] w)).

End Coordinator.

(** ** Reference hosts and states used by the examples *)

(** 2024-01-01 12:00:00 on the wall clock: day 738886 of the calendar *)
Definition noon : datetime := 63839793600000000%Z.

(** the timestamps the example hosts can print and read back *)
Definition known_times : list (datetime * string) :=
  [ (63839779200000000%Z, "2024-01-01T08:00:00+00:00");
    (noon,                "2024-01-01T12:00:00+00:00");
    (63839793610000000%Z, "2024-01-01T12:00:10+00:00");
    (63839822400000000%Z, "2024-01-01T20:00:00+00:00") ].

Definition format_known (d : datetime) : string :=
  match find (fun p => Z.eqb (fst p) d) known_times with
  | Some p => snd p
  | None => EmptyString
  end.

(** the same wall-clock times written without UTC offset *)
Definition known_local_times : list (datetime * string) :=
  [ (63839779200000000%Z, "2024-01-01T08:00:00");
    (63839822400000000%Z, "2024-01-01T20:00:00") ].

Definition parse_known (s : string) : Outcome (option Parsed) :=
  match find (fun p => String.eqb (snd p) s) known_times with
  | Some p => Returned (Some (Aware (fst p)))
  | None =>
      match find (fun p => String.eqb (snd p) s) known_local_times with
      | Some p => Returned (Some (Naive (fst p)))
      | None => Returned None
      end
  end.

(** a host on which no service call and no cancel handle raises *)
Definition quiet_host : Env :=
  mkEnv (fun _ _ => false) (fun _ => false) format_known parse_known 10.

(** a host on which exactly the calls to the [lock] domain raise *)
Definition lock_jammed_host : Env :=
  mkEnv (fun _ c => match c with
                    | ServiceCall d _ _ _ => String.eqb d "lock"
                    | _ => false
                    end)
        (fun _ => false) format_known parse_known 10.

(** a host on which the cancel handle number 0 raises *)
Definition stuck_handle_host : Env :=
  mkEnv (fun _ _ => false) (fun h => Nat.eqb h 0) format_known parse_known 10.

Definition empty_world : World := mkWorld [] [] [] [] None [] [] [] 0 [].

Definition action_on (service entity : string) : Action :=
  mkAction (Some (PStr service)) (Some [("entity_id", entity)]) None.

(** ["t1"] armed by [run_action(task_id="t1", delay=10, unit="seconds",
    finish_actions=[light.turn_off on light.kitchen])] *)
Definition armed_world : World :=
  snd (async_schedule_action quiet_host noon "t1" 10 UNIT_SECONDS
         [action_on "light.turn_off" "light.kitchen"] None
         false false false None None TIME_MODE_RELATIVE None empty_world).

(** a silent cancel of ["t1"] while it is armed *)
Definition silent_cancel_of_armed : Outcome bool * World :=
  async_cancel_action quiet_host "t1" true "user_request" armed_world.

(** ["t1"] scheduled again while armed, for the time of day ["25:00"] *)
Definition rejected_request : Outcome Datatypes.unit * World :=
  async_schedule_action quiet_host noon "t1" 10 UNIT_SECONDS
    [action_on "light.turn_off" "light.kitchen"] None
    false false false None (Some "25:00") TIME_MODE_ABSOLUTE None armed_world.

(** a batch whose first call goes to the [lock] domain *)
Definition unlock_then_light : list Action :=
  [action_on "lock.unlock" "lock.front"; action_on "light.turn_off" "light.kitchen"].

Definition two_step_callback : FinishCallback :=
  mkCallback "t3" unlock_then_light false false false None None.

(** a stored record as [async_add_task] writes it, with the given end
    time and finish actions *)
Definition stored_task (end_time : string) (finish_actions : list Action) : Task :=
  mkTask (Some "2024-01-01T08:00:00+00:00") (Some end_time) 0
         [] (Some finish_actions) (Some false) (Some false) (Some false)
         (Some []) None TIME_MODE_RELATIVE None.

Definition late_task : Task :=
  stored_task "2024-01-01T08:00:00+00:00"
              [action_on "light.turn_off" "light.kitchen"].

Definition junk_task : Task :=
  stored_task "yesterday" [action_on "light.turn_off" "light.kitchen"].

Definition idle_task : Task := stored_task "2024-01-01T20:00:00+00:00" [].

Definition evening_task : Task :=
  stored_task "2024-01-01T20:00:00+00:00"
              [action_on "switch.turn_on" "switch.heater"].

(** what a restart at noon finds on disk *)
Definition restart_world : World :=
  mkWorld [("late", late_task); ("junk", junk_task);
           ("idle", idle_task); ("evening", evening_task)]
          [] [] [] None [] [] [] 0 [].

(** ["t3"] scheduled with start actions whose first call raises *)
Definition jammed_start_world : World :=
  snd (async_schedule_action lock_jammed_host noon "t3" 10 UNIT_SECONDS
         [action_on "light.turn_off" "light.kitchen"] (Some unlock_then_light)
         false false false None None TIME_MODE_RELATIVE None empty_world).

(** the state after the recovery of that restart *)
Definition restarted_world : World :=
  snd (async_restore_tasks quiet_host noon (new_coordinator restart_world)).

(** a record whose end time was written without UTC offset *)
Definition offsetless_task : Task :=
  stored_task "2024-01-01T08:00:00"
              [action_on "light.turn_off" "light.kitchen"].

(** a store in which such a record precedes an overdue one *)
Definition offsetless_then_late : World :=
  mkWorld [("local", offsetless_task); ("late", late_task)]
          [] [] [] None [] [] [] 0 [].

(** a store in which such a record precedes an unreadable one *)
Definition offsetless_then_junk : World :=
  mkWorld [("local", offsetless_task); ("junk", junk_task)]
          [] [] [] None [] [] [] 0 [].



(** ** What the code is compared with *)

(** the host call [_execute_action_definition] makes for an action, if
    any *)
Definition attempt_of (a : Action) : option HostCall :=
  match act_service a with
  | Some (PStr service) =>
      if Py.truthy_str service && Py.contains "." service
      then Some (ServiceCall (fst (Py.split1 "." service))
                             (snd (Py.split1 "." service))
                             (or_none (or_default (act_data a) []))
                             (or_none (or_default (act_target a) [])))
      else None
  | _ => None
  end.

(** the exception [_execute_action_definition] raises before it reaches
    the host: a true service that is no string and is either no container
    ([TypeError]) or a container holding ["."] ([AttributeError]) *)
Definition service_error (a : Action) : option Exn :=
  match act_service a with
  | Some service =>
      if truthy service && negb (is_str service)
      then match py_in "." service with
           | None => Some TypeError
           | Some true => Some AttributeError
           | Some false => None
           end
      else None
  | None => None
  end.

Definition attempts (a : Action) : list HostCall :=
  match attempt_of a with Some c => [c] | None => [] end.

(** the calls of a whole batch, in order *)
Definition batch_calls (actions : list Action) : list HostCall :=
  flat_map attempts actions.

(** does running action [a] raise after the calls [hist]: before the
    host is reached, or in the invocation *)
Definition action_fails (E : Env) (hist : list HostCall) (a : Action) : bool :=
  match service_error a with
  | Some _ => true
  | None =>
      match attempt_of a with
      | Some c => svc_raises E hist c
      | None => false
      end
  end.

(** how many actions of a batch fail, and how many do not, when the batch
    starts after the calls [hist] *)
Fixpoint batch_failures (E : Env) (hist : list HostCall) (actions : list Action)
  : nat :=
  match actions with
  | [] => 0
  | a :: rest =>
      (if action_fails E hist a then 1 else 0)
      + batch_failures E (hist ++ attempts a) rest
  end.

Fixpoint batch_successes (E : Env) (hist : list HostCall) (actions : list Action)
  : nat :=
  match actions with
  | [] => 0
  | a :: rest =>
      (if action_fails E hist a then 0 else 1)
      + batch_successes E (hist ++ attempts a) rest
  end.

(** an action without a usable service name: the field is missing, or
    its string holds no ["."] *)
Definition malformed (a : Action) : Prop :=
  match act_service a with
  | None => True
  | Some (PStr service) => Py.contains "." service = false
  | Some _ => False
  end.

(** a stored record with a readable fire time and at least one finish
    action *)
Definition recoverable (E : Env) (t : Task) : Prop :=
  (exists p, fire_time E t = Returned (Some p))
  /\ or_default (finish_actions t) [] <> [].

(** the exception at which recovery stops when it reaches the record:
    one raised while the fire time is read, or the [TypeError] of
    comparing a fire time without UTC offset with the clock *)
Definition stops_recovery (E : Env) (t : Task) : option Exn :=
  match fire_time E t with
  | Raised e => Some e
  | Returned (Some (Naive _)) =>
      if Py.truthy_list (or_default (finish_actions t) [])
      then Some TypeError else None
  | Returned _ => None
  end.

(** recovery removes the record from the store: its fire time does not
    read as a timestamp, or it reads and there is nothing to run *)
Definition dropped (E : Env) (t : Task) : bool :=
  match fire_time E t with
  | Returned None => true
  | Returned (Some _) => negb (Py.truthy_list (or_default (finish_actions t) []))
  | Raised _ => false
  end.

(** the fire time of a record, when it is read and carries a UTC
    offset *)
Definition aware_fire_time (E : Env) (t : Task) : option datetime :=
  match fire_time E t with
  | Returned (Some (Aware ft)) => Some ft
  | _ => None
  end.

Definition is_completed_for (task_id : string) (e : Event) : bool :=
  match e with
  | TaskCompleted id _ _ _ => String.eqb id task_id
  | _ => false
  end.

Definition is_cancelled_for (task_id : string) (e : Event) : bool :=
  match e with
  | TaskCancelled id _ => String.eqb id task_id
  | _ => false
  end.


(** the seconds after midnight of a wall-clock time *)
Definition seconds_of (h m s : Z) : Z := ((h * 60 + m) * 60 + s)%Z.

(** the next occurrence of the time of day [h:m:sec] strictly after
    [now] *)
Definition next_occurrence (now : datetime) (h m sec : Z) : datetime :=
  let today := (midnight now + timedelta_seconds (seconds_of h m sec))%Z in
  if (today <=? now)%Z then (today + timedelta_days 1)%Z else today.

(** a field of a time of day written with two decimal digits *)
Definition two_digits (n : Z) : string :=
  String (ascii_of_nat (48 + Z.to_nat (n / 10)))
    (String (ascii_of_nat (48 + Z.to_nat (n mod 10))) EmptyString).

(** the time strings ["HH:MM"] and ["HH:MM:SS"] *)
Definition hhmm (h m : Z) : string :=
  (two_digits h ++ ":" ++ two_digits m)%string.

Definition hhmmss (h m sec : Z) : string :=
  (two_digits h ++ ":" ++ two_digits m ++ ":" ++ two_digits sec)%string.

(** the field [n] written with two digits holds no colon and reads back
    as [n] *)
Definition reads_back (n : Z) : bool :=
  negb (Py.contains ":" (two_digits n))
  && match Py.int (two_digits n) with
     | Some z => (z =? n)%Z
     | None => false
     end.

(** the delivery attempts of one [_send_notification] *)
Definition notification_calls (title message : string)
           (notify_ha notify_mobile : bool)
           (notify_devices : option (list string)) : list HostCall :=
  (if notify_ha then [PersistentNotification title message] else [])
  ++ (if truthy_devices notify_devices
      then [MobileNotification title message notify_devices]
      else if notify_mobile then [MobileNotification title message None]
           else []).

(** the state after [_update_sensor] *)
Definition sensor_refreshed (w : World) : World :=
  match sensor w with
  | Some s => with_sensor (Some (mkSensor (store w) (sensor_preferences s))) w
  | None => w
  end.

(** the state after a [_cleanup_task] that met no state listener *)
Definition cleaned (task_id : string) (w : World) : World :=
  sensor_refreshed
    (with_store (Py.del task_id (store w))
       (with_scheduled_tasks (Py.del task_id (scheduled_tasks w)) w)).

(** the summary notification of a finished batch *)
Definition completion_calls (cb : FinishCallback) (success_count error_count : nat)
  : list HostCall :=
  if cb_notify_ha cb || cb_notify_mobile cb || truthy_devices (cb_notify_devices cb)
  then notification_calls
         ("Timer Completed: " ++ display_name (cb_task_label cb) (cb_task_id cb))%string
         (if (0 <? error_count)%nat
          then (Py.str_of_nat success_count ++ " actions succeeded, "
                ++ Py.str_of_nat error_count ++ " failed")%string
          else ("All " ++ Py.str_of_nat success_count
                ++ " actions executed successfully")%string)
         (cb_notify_ha cb) (cb_notify_mobile cb) (cb_notify_devices cb)
  else [].

(** the state once the batch of [cb] has run from [w] and its event and
    notification are out, before the cleanup *)
Definition batch_done (E : Env) (cb : FinishCallback) (w : World) : World :=
  let s := batch_successes E (calls w) (cb_finish_actions cb) in
  let e := batch_failures E (calls w) (cb_finish_actions cb) in
  with_calls (calls w ++ batch_calls (cb_finish_actions cb)
              ++ completion_calls cb s e)
    (with_events (events w ++ [TaskCompleted (cb_task_id cb)
                                  (cb_finish_actions cb) s e]) w).

(** the state after the batch of [cb] has fired from [w], when no state
    listener is registered for its task *)
Definition fired (E : Env) (cb : FinishCallback) (w : World) : World :=
  cleaned (cb_task_id cb) (batch_done E cb w).

(** the timers left after the handles [hs] were invoked in turn *)
Definition disarm_all (E : Env) (hs : list nat)
           (ts : list (nat * (datetime * FinishCallback))) :=
  fold_left (fun ts h => if unsub_raises E h then ts else disarm h ts) hs ts.

(** the handles stored in [d] under the keys [ks] *)
Definition lookups (d : Py.dict nat) (ks : list string) : list nat :=
  flat_map (fun k => match Py.get k d with Some h => [h] | None => [] end) ks.

(** the handles [cancel_all] finds, in the order of the keys *)
Definition handles_of (d : Py.dict nat) : list nat := lookups d (Py.keys d).

(** the delivery attempts of a cancel that found the record [task] *)
Definition cancel_calls (silent : bool) (task : option Task)
           (task_id reason : string) : list HostCall :=
  match task with
  | Some t =>
      if negb silent
         && (or_default (notify_ha t) false || or_default (notify_mobile t) false
             || or_default (notify t) false || truthy_devices (notify_devices t))
      then notification_calls
             ("Timer Cancelled: " ++ display_name (task_label t) task_id)%string
             ("Scheduled task was cancelled (" ++ reason ++ ")")%string
             (match notify_ha t with
              | Some b => b
              | None => or_default (notify t) false
              end)
             (or_default (notify_mobile t) false)
             (notify_devices t)
      else []
  | None => []
  end.

(** the state after [_update_preferences_sensor] *)
Definition preferences_refreshed (w : World) : World :=
  match sensor w with
  | Some s => with_sensor (Some (mkSensor (active_tasks s) (preferences w))) w
  | None => w
  end.

(** the state in which [async_schedule_action] leaves [w] once the
    previous task is out of the way and the fire time [st] is known *)
Definition scheduled (E : Env) (now : datetime)
           (task_id : string) (delay : Z) (unit : Unit)
           (finish_actions : list Action) (start_actions : option (list Action))
           (notify notify_ha notify_mobile : bool)
           (notify_devices : option (list string))
           (at_time : option string) (time_mode : TimeMode)
           (task_label : option string)
           (st : datetime) (ds : Z) (w : World) : World :=
  let start := or_default start_actions [] in
  let task := mkTask (Some (isoformat E now)) (Some (isoformat E st)) ds
                     start (Some finish_actions)
                     (Some notify) (Some notify_ha) (Some notify_mobile)
                     (Some (or_default notify_devices []))
                     at_time time_mode task_label in
  let cb := mkCallback task_id finish_actions notify notify_ha notify_mobile
                       notify_devices task_label in
  let w1 := with_calls (calls w ++ batch_calls start) w in
  let w2 := with_store (Py.set task_id task (store w1)) w1 in
  let h := next_handle w2 in
  let w3 := with_next_handle (S h) (with_timers (timers w2 ++ [(h, (st, cb))]) w2) in
  let w4 := with_scheduled_tasks (Py.set task_id h (scheduled_tasks w3)) w3 in
  let w5 := with_events (events w4 ++ [TaskStarted task_id start finish_actions
                                          (isoformat E now) (isoformat E st) ds]) w4 in
  let w6 := match finish_actions with
            | first :: _ =>
                preferences_refreshed
                  (with_preferences
                     (Py.set (primary_entity first task_id)
                        (firstn (history_cap E)
                           (mkHistory delay unit time_mode at_time start finish_actions
                            :: or_default (Py.get (primary_entity first task_id)
                                                  (preferences w5)) []))
                        (preferences w5)) w5)
            | [] => w5
            end in
  sensor_refreshed w6.

(** the first step of a cancel: the live handle, if any, is invoked *)
Definition invoke_handle (E : Env) (task_id : string) : M unit :=
  fun w =>
    match Py.get task_id (scheduled_tasks w) with
    | Some h => unsub E h w
    | None => (Returned tt, w)
    end.

(** [w'] is [w1] with the task armed: one more timer, due at [st] and
    running [cb], whose handle is in the table, and a stored record with
    that end time and delay *)
Definition armed_for (E : Env) (task_id : string) (st : datetime) (ds : Z)
           (cb : FinishCallback) (w1 w' : World) : Prop :=
  timers w' = timers w1 ++ [(next_handle w1, (st, cb))]
  /\ Py.get task_id (scheduled_tasks w') = Some (next_handle w1)
  /\ exists t, Py.get task_id (store w') = Some t
               /\ end_time t = Some (isoformat E st)
               /\ delay_seconds t = ds.

(** recovery re-arms the record: readable fire time still ahead, and
    something to run *)
Definition rearmed (E : Env) (now : datetime) (t : Task) : bool :=
  match aware_fire_time E t with
  | Some ft => Py.truthy_list (or_default (finish_actions t) [])
               && negb (ft <=? now)%Z
  | None => false
  end.

(** recovery fires the record at once: readable fire time not ahead, and
    something to run *)
Definition overdue (E : Env) (now : datetime) (t : Task) : bool :=
  match aware_fire_time E t with
  | Some ft => Py.truthy_list (or_default (finish_actions t) [])
               && (ft <=? now)%Z
  | None => false
  end.

(** the state after one round of the recovery loop that returns, when no
    state listener is registered *)
Definition restored (E : Env) (now : datetime) (w : World)
           (item : string * Task) : World :=
  let (task_id, task) := item in
  let fa := or_default (finish_actions task) [] in
  if overdue E now task then fired E (callback_of task_id task fa) w
  else if rearmed E now task then
         with_scheduled_tasks
           (Py.set task_id (next_handle w) (scheduled_tasks w))
           (with_next_handle (S (next_handle w))
              (with_timers
                 (timers w ++ [(next_handle w,
                                (or_default (aware_fire_time E task) 0%Z,
                                 callback_of task_id task fa))]) w))
       else with_store (Py.del task_id (store w)) w.

(** the state after [async_shutdown] *)
Definition shut_down (E : Env) (w : World) : World :=
  let hs := handles_of (scheduled_tasks w) ++ handles_of (state_listeners w) in
  with_state_listeners []
    (with_scheduled_tasks []
       (with_timers (disarm_all E hs (timers w))
          (with_unsubscribed (unsubscribed w ++ hs) w))).

(** ** More of Python's str *)

(** the ASCII characters [str.strip()] removes *)
Definition is_str_space (c : ascii) : bool :=
  let n := nat_of_ascii c in
  ((9 <=? n)%nat && (n <=? 13)%nat) || ((28 <=? n)%nat && (n <=? 32)%nat).

Fixpoint str_lstrip (s : string) : string :=
  match s with
  | String c r => if is_str_space c then str_lstrip r else s
  | EmptyString => EmptyString
  end.

Fixpoint str_rstrip (s : string) : string :=
  match s with
  | EmptyString => EmptyString
  | String c r =>
      match str_rstrip r with
      | EmptyString => if is_str_space c then EmptyString else String c EmptyString
      | r' => String c r'
      end
  end.

(** [s.strip()] *)
Definition str_strip (s : string) : string := str_rstrip (str_lstrip s).

(** [p in s] for strings *)
Fixpoint str_in (p s : string) : bool :=
  String.prefix p s
  || match s with
     | String _ r => str_in p r
     | EmptyString => false
     end.

(** [s.replace(old, "")] for a non-empty [old]: occurrences are removed
    from left to right; [skip] counts the characters of the current
    occurrence still to drop *)
Fixpoint remove_from (old s : string) (skip : nat) : string :=
  match s with
  | EmptyString => EmptyString
  | String c r =>
      match skip with
      | S k => remove_from old r k
      | O => if String.prefix old s
             then remove_from old r (String.length old - 1)
             else String c (remove_from old r 0)
      end
  end.

Definition str_remove (old s : string) : string := remove_from old s 0.

(** [s in (a, b, ...)] *)
Definition str_among (s : string) (l : list string) : bool :=
  existsb (String.eqb s) l.

(** truthiness of an optional string *)
Definition truthy_opt (o : option string) : bool :=
  match o with Some s => Py.truthy_str s | None => false end.

(** [entity_id.split(".")[0]] *)
Definition domain_of (entity_id : string) : string :=
  nth 0 (Py.split "." entity_id) EmptyString.

(** ** The legacy executor *)

(** homeassistant.const *)
Definition SERVICE_TURN_ON : string := "turn_on".
Definition SERVICE_TURN_OFF : string := "turn_off".
Definition SERVICE_TOGGLE : string := "toggle".

Definition _map_legacy_action (entity_id action : string)
  : string * string * mapping :=
  let domain := domain_of entity_id in
  if str_among action ["on"; "turn_on"] then (domain, SERVICE_TURN_ON, [])
  else if str_among action ["off"; "turn_off"] then (domain, SERVICE_TURN_OFF, [])
  else if str_among action ["toggle"] then (domain, SERVICE_TOGGLE, [])
  else if str_among action ["open_cover"; "close_cover"; "stop_cover"]
       then ("cover", action, [])
  else if str_among action ["media_play"; "media_stop"]
       then ("media_player", action, [])
  else if str_among action ["start"; "return_to_base"]
       then ("vacuum", action, [])
  else if String.prefix "set_hvac_mode_" action
       then ("climate", "set_hvac_mode",
             [("hvac_mode", str_remove "set_hvac_mode_" action)])
  else (domain, action, []).

(** [d.update(extra)] *)
Definition dict_update {V} (d extra : Py.dict V) : Py.dict V :=
  fold_left (fun d kv => Py.set (fst kv) (snd kv) d) extra d.

(** [_execute_action]; [ATTR_ENTITY_ID] is a constant of const.py, which
    is not among the sources, and is taken as given *)
Definition _execute_action (E : Env) (ATTR_ENTITY_ID : string)
           (entity_id : string) (action service : option string)
           (service_data : option mapping) : M unit :=
  let call_data :=
    Py.set ATTR_ENTITY_ID entity_id
           (match service_data with
            | Some d => if Py.truthy_list d then d else []
            | None => []
            end) in
  match (if truthy_opt service
         then Some (let svc := or_default service EmptyString in
                    if Py.contains "." svc
                    then (fst (Py.split1 "." svc), snd (Py.split1 "." svc), call_data)
                    else (domain_of entity_id, svc, call_data))
         else if truthy_opt action
              then Some (let m := _map_legacy_action entity_id
                                    (or_default action EmptyString) in
                         (fst (fst m), snd (fst m), dict_update call_data (snd m)))
              else None) with
  | None => ret tt
  | Some (svc_domain, svc_name, call_data) =>
      try_except
        (async_call E (ServiceCall svc_domain svc_name (Some call_data) None))
        (fun _ => ret tt)
  end.

Definition _execute_immediate_action (E : Env) (ATTR_ENTITY_ID : string)
           (entity_id action : string) : M unit :=
  _execute_action E ATTR_ENTITY_ID entity_id (Some action) None None.

(** ** The service handlers *)

(** [call.data] of [run_action] after the schema; [None] is an absent
    key *)
Record RunActionData := mkRunAction {
  ra_task_id : option string;
  ra_entity_id : option string;
  ra_delay : option Z;
  ra_unit : option Unit;
  ra_start_actions : option (list Action);
  ra_finish_actions : option (list Action);
  ra_notify : option bool;
  ra_notify_ha : option bool;
  ra_notify_mobile : option bool;
  ra_notify_devices : option (list string);
  ra_task_label : option string;
  ra_at_time : option string;
  ra_time_mode : option TimeMode;
  ra_action : option string;
  ra_service : option string;
  ra_service_data : option mapping;
  ra_run_now : option bool
}.

(** the service name the legacy parameters stand for, once one of
    [service] and [action] is known to be there *)
Definition legacy_finish_service (entity_id : string)
           (action service : option string) : string :=
  if truthy_opt service then or_default service EmptyString
  else
    let action := or_default action EmptyString in
    let domain := domain_of entity_id in
    if str_among action ["on"; "turn_on"] then (domain ++ ".turn_on")%string
    else if str_among action ["off"; "turn_off"] then (domain ++ ".turn_off")%string
    else if String.eqb action "toggle" then (domain ++ ".toggle")%string
    else (domain ++ "." ++ action)%string.

(** the start and finish batches [handle_run_action] schedules, or
    [None] when it logs an error and returns *)
Definition normalized_actions (d : RunActionData)
  : option (option (list Action) * list Action) :=
  match ra_finish_actions d with
  | Some (a :: l) => Some (ra_start_actions d, a :: l)
  | _ =>
      if negb (truthy_opt (ra_action d)) && negb (truthy_opt (ra_service d))
      then None
      else if negb (truthy_opt (ra_entity_id d)) then None
      else
        let entity_id := or_default (ra_entity_id d) EmptyString in
        let service_data := or_default (ra_service_data d) [] in
        let finish_actions :=
          [mkAction (Some (PStr (legacy_finish_service entity_id (ra_action d)
                                                       (ra_service d))))
                    (Some [("entity_id", entity_id)])
                    (Some (if Py.truthy_list service_data then service_data else []))]
        in
        if or_default (ra_run_now d) false
        then Some (Some finish_actions,
                   [mkAction (Some (PStr (domain_of entity_id ++ ".turn_off")))
                             (Some [("entity_id", entity_id)])
                             (Some [])])
        else Some (ra_start_actions d, finish_actions)
  end.

(** [handle_run_action]; [task_digest] stands for
    [f"task_{hashlib.md5(str(finish_actions).encode()).hexdigest()[:8]}"] *)
Definition handle_run_action (E : Env) (task_digest : list Action -> string)
           (now : datetime) (d : RunActionData) : M unit :=
  match normalized_actions d with
  | None => ret tt
  | Some (start_actions, finish_actions) =>
      let task_id :=
        if truthy_opt (ra_task_id d) then or_default (ra_task_id d) EmptyString
        else if truthy_opt (ra_entity_id d)
             then or_default (ra_entity_id d) EmptyString
             else task_digest finish_actions in
      async_schedule_action E now task_id
        (or_default (ra_delay d) 15%Z)
        (or_default (ra_unit d) UNIT_MINUTES)
        finish_actions start_actions
        (or_default (ra_notify d) false)
        (or_default (ra_notify_ha d) false)
        (or_default (ra_notify_mobile d) false)
        (Some (or_default (ra_notify_devices d) []))
        (ra_at_time d)
        (or_default (ra_time_mode d) TIME_MODE_RELATIVE)
        (ra_task_label d)
  end.

Definition handle_cancel_action (E : Env) (task_id entity_id : option string)
  : M unit :=
  let task_id :=
    if negb (truthy_opt task_id) && truthy_opt entity_id then entity_id
    else task_id in
  if negb (truthy_opt task_id) then ret tt
  else async_cancel_action E (or_default task_id EmptyString) false "user_request"
       ;;; ret tt.

(** ** The sensor *)


(** [async_will_remove_from_hass] *)
Definition async_will_remove_from_hass (w : World) : World := with_sensor None w.


(** the comprehension of [_parse_presets]; [None] stands for the
    [ValueError] of the first field that is neither blank nor an integer *)
Fixpoint preset_ints (fields : list string) : option (list Z) :=
  match fields with
  | [] => Some []
  | x :: rest =>
      if Py.truthy_str (str_strip x)
      then match Py.int (str_strip x) with
           | Some n => option_map (cons n) (preset_ints rest)
           | None => None
           end
      else preset_ints rest
  end.

Definition _parse_presets (preset_string : string) : list Z :=
  match preset_ints (Py.split "," preset_string) with
  | Some l => l
  | None => []
  end.

(** ** The card resource *)

Definition URL_BASE : string := "/quick_timer_static".
Definition FILENAME : string := "quick-timer-card.js".

(** an item of the Lovelace resource collection *)
Record Resource := mkResource {
  res_id : string;
  res_type : string;
  res_url : string
}.

(** the HTTP views registered and the Lovelace resources; [None] when
    Lovelace or its resource collection is not there *)
Record Frontend := mkFrontend {
  views : list string;
  lovelace : option (list Resource)
}.

(** [resources.async_update_item(id, {"url": url})] *)
Definition async_update_item (id url : string) (rs : list Resource)
  : list Resource :=
  map (fun r => if String.eqb (res_id r) id
                then mkResource (res_id r) (res_type r) url else r) rs.

(** [resources.async_create_item({"res_type": "module", "url": url})];
    the collection chooses the id *)
Definition async_create_item (new_id url : string) (rs : list Resource)
  : list Resource :=
  rs ++ [mkResource new_id "module" url].

(** [resources.async_delete_item(id)] *)
Definition async_delete_item (id : string) (rs : list Resource) : list Resource :=
  filter (fun r => negb (String.eqb (res_id r) id)) rs.

(** the URL with its cache buster *)
Definition card_url (version : string) (timestamp : nat) : string :=
  (URL_BASE ++ "/" ++ FILENAME ++ "?v=" ++ version
   ++ "&t=" ++ Py.str_of_nat timestamp)%string.

(** [async_register_frontend]; [version] is [None] when the integration
    lookup raises, [timestamp] is [int(time.time())] and [new_id] the id
    the collection would give a new item *)
Definition async_register_frontend (version : option string) (timestamp : nat)
           (new_id : string) (f : Frontend) : Frontend :=
  let registered := views f ++ ["quick_timer:card"] in
  let url := card_url (or_default version "0.0.0") timestamp in
  match lovelace f with
  | None => mkFrontend registered None
  | Some rs =>
      match find (fun r => str_in URL_BASE (res_url r)) rs with
      | Some installed =>
          if negb (String.eqb (res_url installed) url)
          then mkFrontend registered
                          (Some (async_update_item (res_id installed) url rs))
          else mkFrontend registered (Some rs)
      | None => mkFrontend registered (Some (async_create_item new_id url rs))
      end
  end.

(** the removal loop of [async_unload_entry] over a snapshot of the
    items *)
Definition remove_card_resources (rs : list Resource) : list Resource :=
  fold_left (fun cur res =>
               if str_in "/quick_timer_static/" (res_url res)
               then async_delete_item (res_id res) cur else cur)
            rs rs.

(** [async_unload_entry]; [unload_ok] is what unloading the platforms
    returned *)
Definition async_unload_entry (E : Env) (unload_ok : bool)
           (w : World) (f : Frontend) : Outcome bool * World * Frontend :=
  if unload_ok
  then match async_shutdown E w with
       | (Returned _, w') =>
           (Returned unload_ok, w',
            mkFrontend (views f) (option_map remove_card_resources (lovelace f)))
       | (Raised e, w') => (Raised e, w', f)
       end
  else (Returned unload_ok, w, f).

(** ** Invariants of a running coordinator *)

(** the timer table and the store name the same tasks *)
Definition converged (w : World) : Prop :=
  forall k, Py.has k (scheduled_tasks w) = has_task k w.

(** every handle in the table and every armed timer was handed out
    before *)
Definition handles_fresh (w : World) : Prop :=
  (forall k h, Py.get k (scheduled_tasks w) = Some h -> (h < next_handle w)%nat)
  /\ (forall h x, In (h, x) (timers w) -> (h < next_handle w)%nat).

(** what a coordinator keeps between two of its operations *)
Definition steady (w : World) : Prop :=
  state_listeners w = [] /\ converged w /\ handles_fresh w.




(** a delivery attempt, as opposed to the call of an action *)
Definition is_notification (c : HostCall) : bool :=
  match c with
  | ServiceCall _ _ _ _ => false
  | _ => true
  end.

Definition is_completed (e : Event) : bool :=
  match e with
  | TaskCompleted _ _ _ _ => true
  | _ => false
  end.

(** the timers armed for a task *)
Definition timer_of (task_id : string) (t : nat * (datetime * FinishCallback))
  : bool :=
  String.eqb (cb_task_id (snd (snd t))) task_id.

(** the card's resources, as [async_register_frontend] and
    [async_unload_entry] recognise them *)
Definition is_card (r : Resource) : bool := str_in URL_BASE (res_url r).
Definition is_card_path (r : Resource) : bool :=
  str_in "/quick_timer_static/" (res_url r).

(** the fields of a preset string that are not blank *)
Definition preset_fields (preset_string : string) : list string :=
  filter (fun x => Py.truthy_str (str_strip x)) (Py.split "," preset_string).

(** ** More example requests and states *)

(** [run_action] requests: one with nothing to run, one with the legacy
    action [on], one with a legacy service that names no domain *)
Definition bare_request : RunActionData :=
  mkRunAction None (Some "light.kitchen") (Some 10%Z) (Some UNIT_SECONDS)
              None None None None None None None None None
              None None None None.

Definition legacy_request : RunActionData :=
  mkRunAction None (Some "light.kitchen") (Some 10%Z) (Some UNIT_SECONDS)
              None None None None None None None None None
              (Some "on") None None None.

Definition dotless_request : RunActionData :=
  mkRunAction None (Some "light.kitchen") (Some 10%Z) (Some UNIT_SECONDS)
              None None None None None None None None None
              None (Some "turn_on") None None.

(** a digest for requests that name neither task nor entity *)
Definition fixed_digest (finish_actions : list Action) : string := "task_00000000".

(** Lovelace with another module and the card of an older version *)
Definition dashboard : Frontend :=
  mkFrontend []
    (Some [mkResource "a1" "module" "/local/other.js";
           mkResource "b2" "module"
                      "/quick_timer_static/quick-timer-card.js?v=0.9.0&t=1"]).

(** ["t1"] armed again, for five minutes *)
Definition rearmed_world : World :=
  snd (async_schedule_action quiet_host noon "t1" 5 UNIT_MINUTES
         [action_on "switch.turn_off" "switch.heater"] None
         false false false None None TIME_MODE_RELATIVE None armed_world).

(** * Properties *)

(** ** The built-ins behave as Python's on small inputs *)

Example int_plain : Py.int "07" = Some 7%Z.
Proof. reflexivity. Qed.

Example int_spaces_sign : Py.int "  -1_0 " = Some (-10)%Z.
Proof. reflexivity. Qed.

Example int_rejects :
  map Py.int [""; "+"; "1__2"; "_1"; "1_"; "+ 1"; "ab"; "1 2"]
  = [None; None; None; None; None; None; None; None].
Proof. reflexivity. Qed.

Example split_colons : Py.split ":" "a:b::" = ["a"; "b"; ""; ""].
Proof. reflexivity. Qed.

Example split1_dot : Py.split1 "." "a.b.c" = ("a", "b.c").
Proof. reflexivity. Qed.

Example parse_rolls_over_midnight :
  parse_at_time (noon + timedelta_seconds 43190)%Z "00:00"
  = inr ((noon + timedelta_seconds 43200)%Z, 10%Z).
Proof. reflexivity. Qed.

Example parse_without_colon : parse_at_time noon "12" = inl IndexError.
Proof. reflexivity. Qed.

Example parse_hour_out_of_range : parse_at_time noon "25:00" = inl ValueError.
Proof. reflexivity. Qed.

(** ** dict lemmas *)

Section DictFacts.
Context {V : Type}.
Implicit Types (d : Py.dict V) (k : string) (v : V).

Lemma get_del_same k d : Py.get k (Py.del k d) = None.
Proof.
  induction d as [|[k' v'] r IH]; simpl; auto.
  destruct (String.eqb k k') eqn:Hk; auto.
  simpl. rewrite Hk. exact IH.
Qed.

Lemma has_del_same k d : Py.has k (Py.del k d) = false.
Proof. unfold Py.has. now rewrite get_del_same. Qed.

Lemma del_absent k d : Py.get k d = None -> Py.del k d = d.
Proof.
  induction d as [|[k' v'] r IH]; simpl; auto.
  destruct (String.eqb k k'); [discriminate|].
  intros H. now rewrite IH.
Qed.

Lemma del_if_has k d : (if Py.has k d then Py.del k d else d) = Py.del k d.
Proof.
  unfold Py.has. destruct (Py.get k d) eqn:G; auto.
  symmetry. now apply del_absent.
Qed.

Lemma get_del_other k k' d : k <> k' -> Py.get k' (Py.del k d) = Py.get k' d.
Proof.
  intros Hne. induction d as [|[k0 v0] r IH]; simpl; auto.
  destruct (String.eqb_spec k k0) as [->|Hk].
  - destruct (String.eqb_spec k' k0) as [->|?]; [congruence|exact IH].
  - simpl. now rewrite IH.
Qed.

Lemma get_set_same k v d : Py.get k (Py.set k v d) = Some v.
Proof.
  induction d as [|[k0 v0] r IH]; simpl.
  - now rewrite String.eqb_refl.
  - destruct (String.eqb k k0) eqn:Hk; simpl.
    + now rewrite String.eqb_refl.
    + now rewrite Hk.
Qed.

Lemma get_set_other k k' v d : k <> k' -> Py.get k' (Py.set k v d) = Py.get k' d.
Proof.
  intros Hne. induction d as [|[k0 v0] r IH]; simpl.
  - destruct (String.eqb_spec k' k); congruence.
  - destruct (String.eqb_spec k k0) as [->|Hk]; simpl.
    + destruct (String.eqb_spec k' k0); congruence.
    + now rewrite IH.
Qed.

Lemma in_del k k' v d :
  In (k', v) (Py.del k d) <-> In (k', v) d /\ k' <> k.
Proof.
  induction d as [|[k0 v0] r IH]; simpl.
  - tauto.
  - destruct (String.eqb_spec k k0) as [->|Hk]; simpl.
    + rewrite IH. split.
      * tauto.
      * intros [[H|H] Hne]; [congruence|tauto].
    + rewrite IH. split.
      * intros [H|[H Hne]]; [|tauto].
        split; [now left|]. congruence.
      * tauto.
Qed.

Lemma get_none_not_in k d : Py.get k d = None -> forall v, ~ In (k, v) d.
Proof.
  induction d as [|[k0 v0] r IH]; simpl; [tauto|].
  destruct (String.eqb_spec k k0) as [->|Hk]; [discriminate|].
  intros G v [H|H]; [congruence|]. now apply (IH G v).
Qed.

Lemma in_get_some k v d : In (k, v) d -> Py.get k d <> None.
Proof.
  intros Hin G. exact (get_none_not_in k d G v Hin).
Qed.
End DictFacts.

(** ** Wall-clock arithmetic *)

Local Open Scope Z_scope.

Lemma US_PER_DAY_pos : (0 < US_PER_DAY)%Z.
Proof. reflexivity. Qed.

Lemma midnight_le (d : datetime) : (midnight d <= d < midnight d + US_PER_DAY)%Z.
Proof.
  unfold midnight.
  pose proof (Z.div_mod d US_PER_DAY) as H.
  pose proof (Z.mod_pos_bound d US_PER_DAY US_PER_DAY_pos) as B.
  lia.
Qed.

Lemma time_of_day_midnight_plus (d t : Z) :
  (0 <= t < US_PER_DAY)%Z -> time_of_day (midnight d + t) = t.
Proof.
  intros Ht. unfold time_of_day, midnight.
  rewrite Z.add_comm, Z.mul_comm, Z_mod_plus_full.
  now apply Z.mod_small.
Qed.

Lemma midnight_plus (d t : Z) :
  (0 <= t < US_PER_DAY)%Z -> midnight (midnight d + t) = midnight d.
Proof.
  intros Ht. unfold midnight. f_equal.
  rewrite Z.add_comm, Z.mul_comm, Z_div_plus_full by (pose proof US_PER_DAY_pos; lia).
  rewrite (Z.div_small t) by lia. lia.
Qed.

Lemma replace_time_ok now h m s st :
  replace_time now h m s = inr st ->
  (0 <= h <= 23)%Z /\ (0 <= m <= 59)%Z /\ (0 <= s <= 59)%Z /\
  st = (midnight now + timedelta_seconds (seconds_of h m s))%Z.
Proof.
  unfold replace_time, in_range.
  destruct (negb _); [discriminate|].
  destruct (_ && _) eqn:R; [|discriminate].
  intros [= <-].
  repeat (apply andb_prop in R; destruct R as [R ?]).
  unfold seconds_of. lia.
Qed.

Lemma seconds_of_bound h m s :
  (0 <= h <= 23)%Z -> (0 <= m <= 59)%Z -> (0 <= s <= 59)%Z ->
  (0 <= timedelta_seconds (seconds_of h m s) < US_PER_DAY)%Z.
Proof.
  unfold timedelta_seconds, seconds_of, US_PER_DAY, US_PER_SECOND. lia.
Qed.

(** the parsed fields behind a successful [parse_at_time] *)
Lemma parse_at_time_ok now at_time st ds :
  parse_at_time now at_time = inr (st, ds) ->
  exists h m s today,
    (Py.int (nth 0 (Py.split ":" at_time) EmptyString) = Some h
     /\ (exists p1, nth_error (Py.split ":" at_time) 1 = Some p1
                    /\ Py.int p1 = Some m)
     /\ (if (2 <? List.length (Py.split ":" at_time))%nat
         then Py.int (nth 2 (Py.split ":" at_time) EmptyString)
         else Some 0) = Some s)
    /\ replace_time now h m s = inr today
    /\ st = (if (today <=? now)%Z then today + timedelta_days 1 else today)%Z
    /\ ds = total_seconds_int (st - now).
Proof.
  unfold parse_at_time.
  destruct (Py.int _) as [h|]; [|discriminate].
  destruct (nth_error _ 1) as [p1|]; [|discriminate].
  destruct (Py.int p1) as [m|] eqn:Hm; [|discriminate].
  destruct (if (2 <? _)%nat then _ else _) as [s|]; [|discriminate].
  destruct (replace_time now h m s) as [e|today] eqn:R; [discriminate|].
  intros [= <- <-]. exists h, m, s, today. repeat split; eauto.
Qed.

(** ** Coroutine plumbing *)

Lemma with_calls_same w : with_calls (calls w) w = w.
Proof. now destruct w. Qed.

Lemma with_calls_nil w : with_calls (calls w ++ []) w = w.
Proof. rewrite app_nil_r. apply with_calls_same. Qed.

Lemma bind_returned {A B} (m : M A) (k : A -> M B) w b w' :
  bind m k w = (Returned b, w') ->
  exists a w1, m w = (Returned a, w1) /\ k a w1 = (Returned b, w').
Proof.
  unfold bind. destruct (m w) as [[a|e] w1]; [|discriminate].
  intros H. now exists a, w1.
Qed.

Lemma bind_eq {A B} (m : M A) (k : A -> M B) w a w1 :
  m w = (Returned a, w1) -> bind m k w = k a w1.
Proof. unfold bind. now intros ->. Qed.

Lemma for_each_app {A} (l1 l2 : list A) body w :
  for_each (l1 ++ l2) body w = (for_each l1 body ;;; for_each l2 body) w.
Proof.
  revert w. induction l1 as [|x r IH]; intros w; simpl.
  - reflexivity.
  - unfold bind in *. destruct (body x w) as [[[]|e] w1]; [|reflexivity].
    apply IH.
Qed.

(** ** Actions and batches *)

Section Firing.
Variable E : Env.

Lemma async_call_spec c w :
  async_call E c w
  = (if svc_raises E (calls w) c then Raised ServiceError else Returned tt,
     with_calls (calls w ++ [c]) w).
Proof. unfold async_call. now destruct (svc_raises E (calls w) c). Qed.

Lemma exec_spec a w :
  _execute_action_definition E a w
  = match service_error a with
    | Some x => (Raised x, w)
    | None =>
        match attempt_of a with
        | Some c => async_call E c w
        | None => (Returned tt, w)
        end
    end.
Proof.
  unfold _execute_action_definition, attempt_of, service_error.
  destruct (act_service a) as [[|b|z|service|l|d]|]; simpl; try reflexivity.
  - now destruct b.
  - now destruct (z =? 0)%Z.
  - destruct (Py.truthy_str service); simpl; [|reflexivity].
    destruct (Py.contains "." service); [|reflexivity].
    now destruct (Py.split1 "." service).
  - destruct l as [|v l]; simpl; [reflexivity|].
    now destruct (eq_str "." v || existsb (eq_str ".") l).
  - destruct d as [|kv d]; simpl; [reflexivity|].
    now destruct (Py.has "." (kv :: d)).
Qed.

Lemma service_error_no_attempt a x :
  service_error a = Some x -> attempt_of a = None.
Proof.
  unfold service_error, attempt_of.
  destruct (act_service a) as [[|b|z|service|l|d]|]; try reflexivity.
  simpl. now rewrite andb_false_r.
Qed.

Lemma attempt_no_service_error a c :
  attempt_of a = Some c -> service_error a = None.
Proof.
  destruct (service_error a) as [x|] eqn:X; [|reflexivity].
  now rewrite (service_error_no_attempt _ _ X).
Qed.

(** one iteration of the loop of [execute_finish_actions] *)
Lemma finish_step_spec a s e w :
  try_except (_execute_action_definition E a ;;; ret (S s, e))
             (fun _ => ret (s, S e)) w
  = (Returned (if action_fails E (calls w) a then (s, S e) else (S s, e)),
     with_calls (calls w ++ attempts a) w).
Proof.
  unfold try_except, bind, action_fails, attempts. rewrite exec_spec.
  destruct (service_error a) as [x|] eqn:X.
  - rewrite (service_error_no_attempt _ _ X). unfold ret.
    now rewrite with_calls_nil.
  - destruct (attempt_of a) as [c|].
    + rewrite async_call_spec. now destruct (svc_raises E (calls w) c).
    + unfold ret. now rewrite with_calls_nil.
Qed.

Lemma run_finish_actions_spec actions : forall s e w,
  run_finish_actions E actions (s, e) w
  = (Returned ((s + batch_successes E (calls w) actions)%nat,
               (e + batch_failures E (calls w) actions)%nat),
     with_calls (calls w ++ batch_calls actions) w).
Proof.
  induction actions as [|a rest IH]; intros s e w; simpl.
  - unfold ret. now rewrite !Nat.add_0_r, with_calls_nil.
  - change (run_finish_actions E (a :: rest) (s, e) w)
      with (bind (try_except (_execute_action_definition E a ;;; ret (S s, e))
                             (fun _ => ret (s, S e)))
                 (fun c => run_finish_actions E rest c) w).
    rewrite (bind_eq _ _ _ _ _ (finish_step_spec a s e w)).
    destruct (action_fails E (calls w) a); rewrite IH; simpl;
      rewrite <- app_assoc; repeat f_equal; lia.
Qed.

Lemma batch_counts_total hist actions :
  (batch_successes E hist actions + batch_failures E hist actions
   = List.length actions)%nat.
Proof.
  revert hist. induction actions as [|a rest IH]; intros hist; simpl; auto.
  specialize (IH (hist ++ attempts a)).
  destruct (action_fails E hist a); lia.
Qed.

Lemma _send_notification_spec title message ha mob dev w :
  _send_notification E title message ha mob dev w
  = (Returned tt,
     with_calls (calls w ++ notification_calls title message ha mob dev) w).
Proof.
  unfold _send_notification, notification_calls, bind, try_except,
    _send_mobile_notification, modify, ret.
  destruct ha.
  - rewrite async_call_spec.
    destruct (svc_raises E (calls w) _);
      destruct (truthy_devices dev); [| destruct mob | | destruct mob];
      simpl; rewrite <- ?app_assoc, ?app_nil_r; reflexivity.
  - destruct (truthy_devices dev); [| destruct mob]; simpl;
      rewrite ?app_nil_r, ?with_calls_same; reflexivity.
Qed.

End Firing.

(** ** Cleanup and firing *)

Section Cleanup.
Variable E : Env.

Lemma with_scheduled_tasks_same w : with_scheduled_tasks (scheduled_tasks w) w = w.
Proof. now destruct w. Qed.

Lemma drop_handle_spec task_id w :
  (if Py.has task_id (scheduled_tasks w)
   then with_scheduled_tasks (Py.del task_id (scheduled_tasks w)) w
   else w)
  = with_scheduled_tasks (Py.del task_id (scheduled_tasks w)) w.
Proof.
  unfold Py.has. destruct (Py.get task_id (scheduled_tasks w)) eqn:G; auto.
  rewrite (del_absent _ _ G). now rewrite with_scheduled_tasks_same.
Qed.

Lemma cleanup_no_listener task_id w :
  Py.get task_id (state_listeners w) = None ->
  _cleanup_task E task_id w = (Returned tt, cleaned task_id w).
Proof.
  intros G. unfold _cleanup_task, bind, modify.
  rewrite drop_handle_spec. simpl. rewrite G. reflexivity.
Qed.

(** whatever happens, a cleanup fires no event and makes no call *)
Lemma cleanup_frame task_id w :
  events (snd (_cleanup_task E task_id w)) = events w
  /\ calls (snd (_cleanup_task E task_id w)) = calls w.
Proof.
  unfold _cleanup_task, bind, modify.
  rewrite drop_handle_spec. simpl.
  destruct (Py.get task_id (state_listeners w)) as [h|]; simpl.
  - unfold unsub. simpl. destruct (unsub_raises E h); simpl.
    + auto.
    + unfold sensor_refreshed, _update_sensor, modify; simpl.
      destruct (sensor w); auto.
  - unfold _update_sensor, modify; simpl. destruct (sensor w); auto.
Qed.

(** a cleanup that returns leaves neither handle nor record *)
Lemma cleanup_returned task_id w w' :
  _cleanup_task E task_id w = (Returned tt, w') ->
  Py.has task_id (scheduled_tasks w') = false /\ has_task task_id w' = false.
Proof.
  unfold _cleanup_task, bind, modify, has_task.
  rewrite drop_handle_spec. simpl.
  destruct (Py.get task_id (state_listeners w)) as [h|]; simpl.
  - unfold unsub. simpl. destruct (unsub_raises E h); simpl; [discriminate|].
    unfold _update_sensor, modify; simpl.
    intros [= <-]. destruct (sensor w); simpl; now rewrite !has_del_same.
  - unfold _update_sensor, modify; simpl.
    intros [= <-]. destruct (sensor w); simpl; now rewrite !has_del_same.
Qed.

Lemma execute_unfold cb w :
  execute_finish_actions E cb w
  = _cleanup_task E (cb_task_id cb) (batch_done E cb w).
Proof.
  unfold execute_finish_actions.
  rewrite (bind_eq _ _ _ _ _ (run_finish_actions_spec E _ 0%nat 0%nat w)).
  simpl fst. simpl snd. unfold async_fire.
  unfold bind at 1. unfold modify at 1.
  unfold batch_done, completion_calls.
  set (s := batch_successes E (calls w) (cb_finish_actions cb)).
  set (e := batch_failures E (calls w) (cb_finish_actions cb)).
  destruct (cb_notify_ha cb || cb_notify_mobile cb
            || truthy_devices (cb_notify_devices cb)).
  - destruct (0 <? e)%nat;
      (erewrite bind_eq by apply _send_notification_spec);
      simpl; rewrite <- app_assoc; reflexivity.
  - unfold bind at 1, ret. simpl. rewrite app_nil_r. reflexivity.
Qed.

Lemma execute_no_listener cb w :
  Py.get (cb_task_id cb) (state_listeners w) = None ->
  execute_finish_actions E cb w = (Returned tt, fired E cb w).
Proof.
  intros G. rewrite execute_unfold. now apply cleanup_no_listener.
Qed.

End Cleanup.

(** ** Finish-action batches *)

Lemma malformed_no_attempt a : malformed a -> attempt_of a = None.
Proof.
  unfold malformed, attempt_of.
  destruct (act_service a) as [[|b|z|service|l|d]|]; try reflexivity.
  intros ->. now rewrite andb_false_r.
Qed.

Lemma malformed_no_service_error a : malformed a -> service_error a = None.
Proof.
  unfold malformed, service_error.
  destruct (act_service a) as [[|b|z|service|l|d]|]; try reflexivity;
    try contradiction.
  intros _. simpl. now rewrite andb_false_r.
Qed.

(** C3: when the timer callback runs, every element of finish_actions is
    attempted in order whatever the earlier ones did, and the
    TaskCompleted event carries the number of actions that returned as
    success_count and the number that raised as error_count; a batch of
    two whose first invocation raises and whose second returns gives
    success_count 1 and error_count 1 with both calls made. *)
Theorem finish_batch_counts (E : Env) (cb : FinishCallback) (w : World) :
  let actions := cb_finish_actions cb in
  let s := batch_successes E (calls w) actions in
  let e := batch_failures E (calls w) actions in
  let w' := snd (execute_finish_actions E cb w) in
  run_finish_actions E actions (0, 0)%nat w
  = (Returned (s, e), with_calls (calls w ++ batch_calls actions) w)
  /\ (s + e = List.length actions)%nat
  /\ events w' = events w ++ [TaskCompleted (cb_task_id cb) actions s e]
  /\ calls w' = calls w ++ batch_calls actions ++ completion_calls cb s e
  /\ (forall a1 a2 c1 c2,
        actions = [a1; a2] ->
        attempt_of a1 = Some c1 -> attempt_of a2 = Some c2 ->
        svc_raises E (calls w) c1 = true ->
        svc_raises E (calls w ++ [c1]) c2 = false ->
        s = 1%nat /\ e = 1%nat /\ batch_calls actions = [c1; c2]).
Proof.
  intros actions s e w'. subst actions s e w'.
  split; [|split; [|split; [|split]]].
  - apply (run_finish_actions_spec E _ 0%nat 0%nat w).
  - apply batch_counts_total.
  - rewrite execute_unfold.
    destruct (cleanup_frame E (cb_task_id cb) (batch_done E cb w)) as [-> _].
    reflexivity.
  - rewrite execute_unfold.
    destruct (cleanup_frame E (cb_task_id cb) (batch_done E cb w)) as [_ ->].
    reflexivity.
  - intros a1 a2 c1 c2 -> H1 H2 R1 R2.
    unfold batch_calls. simpl. unfold action_fails, attempts.
    rewrite (attempt_no_service_error _ _ H1), (attempt_no_service_error _ _ H2).
    rewrite H1. simpl. rewrite H2, R1, R2. auto.
Qed.



(** ** Cancel *)

Section Cancel.
Variable E : Env.

Lemma invoke_handle_frame task_id w :
  events (snd (invoke_handle E task_id w)) = events w
  /\ calls (snd (invoke_handle E task_id w)) = calls w.
Proof.
  unfold invoke_handle, unsub.
  destruct (Py.get task_id (scheduled_tasks w)) as [h|]; simpl; auto.
  destruct (unsub_raises E h); simpl; auto.
Qed.

Lemma cancel_absent task_id silent reason w :
  Py.has task_id (scheduled_tasks w) = false ->
  has_task task_id w = false ->
  async_cancel_action E task_id silent reason w = (Returned false, w).
Proof.
  intros H1 H2. unfold async_cancel_action. now rewrite H1, H2.
Qed.

Lemma cancel_spec task_id silent reason w :
  async_cancel_action E task_id silent reason w
  = if negb (Py.has task_id (scheduled_tasks w)) && negb (has_task task_id w)
    then (Returned false, w)
    else match invoke_handle E task_id w with
         | (Raised e, w1) => (Raised e, w1)
         | (Returned _, w1) =>
             match _cleanup_task E task_id w1 with
             | (Raised e, w2) => (Raised e, w2)
             | (Returned _, w2) =>
                 (Returned true,
                  with_calls (calls w2 ++ cancel_calls silent (get_task task_id w1)
                                                       task_id reason)
                    (with_events (events w2 ++ [TaskCancelled task_id reason]) w2))
             end
         end.
Proof.
  unfold async_cancel_action, invoke_handle.
  destruct (negb _ && negb _); [reflexivity|].
  unfold bind at 1.
  replace ((match Py.get task_id (scheduled_tasks w) with
            | Some h => unsub E h
            | None => ret tt
            end) w)
    with (match Py.get task_id (scheduled_tasks w) with
          | Some h => unsub E h w
          | None => (Returned tt, w)
          end)
    by (destruct (Py.get task_id (scheduled_tasks w)); reflexivity).
  destruct (match Py.get task_id (scheduled_tasks w) with
            | Some h => unsub E h w
            | None => (Returned tt, w)
            end) as [[[]|e] w1]; [|reflexivity].
  unfold bind at 1.
  destruct (_cleanup_task E task_id w1) as [[[]|e] w2]; [|reflexivity].
  unfold async_fire, cancel_calls.
  unfold bind at 1. unfold modify at 1.
  destruct (get_task task_id w1) as [t|].
  - destruct (negb silent && _).
    + erewrite bind_eq by apply _send_notification_spec. reflexivity.
    + unfold bind, ret. simpl. now rewrite app_nil_r.
  - unfold bind, ret. simpl. now rewrite app_nil_r.
Qed.

(** what a cancel that returned has done *)
Lemma cancel_returned task_id silent reason w b w' :
  async_cancel_action E task_id silent reason w = (Returned b, w') ->
  (b = false /\ w' = w
   /\ Py.has task_id (scheduled_tasks w) = false /\ has_task task_id w = false)
  \/ (b = true
      /\ (Py.has task_id (scheduled_tasks w) = true \/ has_task task_id w = true)
      /\ events w' = events w ++ [TaskCancelled task_id reason]
      /\ (exists w1, calls w1 = calls w
                     /\ calls w' = calls w
                                   ++ cancel_calls silent (get_task task_id w1)
                                                   task_id reason)
      /\ Py.has task_id (scheduled_tasks w') = false
      /\ has_task task_id w' = false).
Proof.
  rewrite cancel_spec.
  destruct (Py.has task_id (scheduled_tasks w)) eqn:H1;
    destruct (has_task task_id w) eqn:H2; simpl;
    try (intros [= <- <-]; left; now auto);
    (destruct (invoke_handle_frame task_id w) as [Fe Fc];
     destruct (invoke_handle E task_id w) as [[[]|e1] w1]; [|discriminate];
     simpl in Fe, Fc;
     destruct (cleanup_frame E task_id w1) as [Ge Gc];
     destruct (_cleanup_task E task_id w1) as [[[]|e2] w2] eqn:C; [|discriminate];
     simpl in Ge, Gc;
     apply cleanup_returned in C; destruct C as [C1 C2];
     intros [= <- <-]; right; simpl;
     rewrite Ge, Gc, Fe, Fc;
     repeat split; auto; exists w1; auto).
Qed.

(** a cancel arms nothing *)
Lemma cancel_next_handle task_id silent reason w :
  next_handle (snd (async_cancel_action E task_id silent reason w))
  = next_handle w.
Proof.
  rewrite cancel_spec.
  destruct (negb _ && negb _); [reflexivity|].
  assert (F : next_handle (snd (invoke_handle E task_id w)) = next_handle w).
  { unfold invoke_handle, unsub.
    destruct (Py.get task_id (scheduled_tasks w)) as [h|]; simpl; auto.
    destruct (unsub_raises E h); simpl; auto. }
  destruct (invoke_handle E task_id w) as [[[]|e1] w1]; [|exact F].
  simpl in F.
  assert (G : next_handle (snd (_cleanup_task E task_id w1)) = next_handle w1).
  { unfold _cleanup_task, bind, modify.
    rewrite drop_handle_spec. simpl.
    destruct (Py.get task_id (state_listeners w1)) as [h|]; simpl.
    - unfold unsub. simpl. destruct (unsub_raises E h); simpl; auto.
      unfold _update_sensor, modify; simpl. destruct (sensor w1); auto.
    - unfold _update_sensor, modify; simpl. destruct (sensor w1); auto. }
  destruct (_cleanup_task E task_id w1) as [[[]|e2] w2]; simpl in *; congruence.
Qed.

End Cancel.

(** C6: a cancel of a task that is neither armed nor stored returns false
    and changes nothing; after a cancel that returned, a second cancel of
    the same task returns false and changes nothing, so the two calls
    together fire the one TaskCancelled event of the first. *)
Theorem cancel_twice (E : Env) (task_id : string) (silent : bool)
        (reason : string) (w : World) :
  (Py.has task_id (scheduled_tasks w) = false ->
   has_task task_id w = false ->
   async_cancel_action E task_id silent reason w = (Returned false, w))
  /\ (forall b w1 silent' reason',
        async_cancel_action E task_id silent reason w = (Returned b, w1) ->
        async_cancel_action E task_id silent' reason' w1 = (Returned false, w1))
  /\ (forall w1 silent' reason',
        async_cancel_action E task_id silent reason w = (Returned true, w1) ->
        events (snd (async_cancel_action E task_id silent' reason' w1))
        = events w ++ [TaskCancelled task_id reason]).
Proof.
  split; [apply cancel_absent|]. split.
  - intros b w1 silent' reason' H.
    apply cancel_returned in H.
    destruct H as [(_ & -> & H1 & H2) | (_ & _ & _ & _ & H1 & H2)];
      now apply cancel_absent.
  - intros w1 silent' reason' H.
    apply cancel_returned in H.
    destruct H as [(Hb & _) | (_ & _ & Hev & _ & H1 & H2)]; [discriminate|].
    rewrite (cancel_absent E task_id silent' reason' w1 H1 H2). exact Hev.
Qed.

(** ** Schedule *)

Section Schedule.
Variable E : Env.

Lemma start_loop_spec start : forall w,
  for_each start
    (fun action_def =>
       try_except (_execute_action_definition E action_def) (fun _ => ret tt)) w
  = (Returned tt, with_calls (calls w ++ batch_calls start) w).
Proof.
  induction start as [|a rest IH]; intros w; simpl.
  - unfold ret. now rewrite with_calls_nil.
  - unfold bind, try_except. rewrite exec_spec. unfold attempts.
    destruct (service_error a) as [x|] eqn:X.
    + rewrite (service_error_no_attempt _ _ X). unfold ret. rewrite IH.
      reflexivity.
    + destruct (attempt_of a) as [c|].
      * rewrite async_call_spec.
        destruct (svc_raises E (calls w) c); unfold ret; rewrite IH; simpl;
          now rewrite <- app_assoc.
      * rewrite IH. reflexivity.
Qed.

Lemma schedule_spec now task_id delay unit fa sa n nha nm nd at_ tm label w :
  async_schedule_action E now task_id delay unit fa sa n nha nm nd at_ tm label w
  = match async_cancel_action E task_id true "user_request" w with
    | (Raised e, w1) => (Raised e, w1)
    | (Returned _, w1) =>
        match compute_fire_time now delay unit at_ tm with
        | inl ValueError => (Returned tt, w1)
        | inl e => (Raised e, w1)
        | inr (st, ds) =>
            (Returned tt,
             scheduled E now task_id delay unit fa sa n nha nm nd at_ tm label
                       st ds w1)
        end
    end.
Proof.
  unfold async_schedule_action. unfold bind at 1.
  destruct (async_cancel_action E task_id true "user_request" w)
    as [[b|e] w1]; [|reflexivity].
  destruct (compute_fire_time now delay unit at_ tm) as [e|[st ds]].
  - destruct e; reflexivity.
  - rewrite (bind_eq _ _ _ _ _ (start_loop_spec _ w1)).
    unfold scheduled, sensor_refreshed, preferences_refreshed.
    destruct fa as [|first fa']; reflexivity.
Qed.

Lemma scheduled_fields now task_id delay unit fa sa n nha nm nd at_ tm label st ds w :
  let w' := scheduled E now task_id delay unit fa sa n nha nm nd at_ tm label
                      st ds w in
  events w' = events w ++ [TaskStarted task_id (or_default sa []) fa
                              (isoformat E now) (isoformat E st) ds]
  /\ calls w' = calls w ++ batch_calls (or_default sa [])
  /\ store w'
     = Py.set task_id
         (mkTask (Some (isoformat E now)) (Some (isoformat E st)) ds
                 (or_default sa []) (Some fa) (Some n) (Some nha) (Some nm)
                 (Some (or_default nd [])) at_ tm label) (store w)
  /\ scheduled_tasks w' = Py.set task_id (next_handle w) (scheduled_tasks w)
  /\ timers w' = timers w ++ [(next_handle w,
                               (st, mkCallback task_id fa n nha nm nd label))].
Proof.
  intros w'. subst w'.
  unfold scheduled, sensor_refreshed, preferences_refreshed.
  destruct w as [sto pre sch lis [sen|] cal evs tms nxt uns];
    destruct fa as [|first fa']; cbn; repeat split; reflexivity.
Qed.

End Schedule.

(** C1, as stated, fails: the silent cancel of an armed task fires
    TaskCancelled. *)
Lemma silent_cancel_fires_event :
  fst silent_cancel_of_armed = Returned true
  /\ events (snd silent_cancel_of_armed)
     = events armed_world ++ [TaskCancelled "t1" "user_request"]
  /\ events (snd silent_cancel_of_armed) <> events armed_world.
Proof.
  vm_compute. repeat split. intros H. discriminate H.
Qed.

(** C1, amended: a cancel with silent=true that cancels a task fires
    exactly the TaskCancelled event of that task and makes no delivery
    attempt, nor any other call to the host; the replace step of schedule
    is such a cancel, so a schedule that replaces a task starts its events
    with that TaskCancelled and calls the host only for its start
    actions. *)
Theorem silent_cancel_event_without_notification
        (E : Env) (task_id reason : string) (w w1 : World) :
  async_cancel_action E task_id true reason w = (Returned true, w1) ->
  events w1 = events w ++ [TaskCancelled task_id reason]
  /\ calls w1 = calls w
  /\ (reason = "user_request" ->
      forall now delay unit fa sa n nha nm nd at_ tm label,
        let w' := snd (async_schedule_action E now task_id delay unit fa sa
                                             n nha nm nd at_ tm label w) in
        exists evs,
          events w' = events w ++ TaskCancelled task_id "user_request" :: evs
          /\ (calls w' = calls w
              \/ calls w' = calls w ++ batch_calls (or_default sa []))).
Proof.
  intros H. pose proof H as H0. apply cancel_returned in H0.
  destruct H0 as [(Hb & _) | (_ & _ & Hev & (w0 & _ & Hc) & _ & _)];
    [discriminate|].
  assert (Hcalls : calls w1 = calls w).
  { rewrite Hc. unfold cancel_calls.
    destruct (get_task task_id w0); simpl; now rewrite app_nil_r. }
  split; [exact Hev|]. split; [exact Hcalls|].
  intros -> now delay unit fa sa n nha nm nd at_ tm label w'. subst w'.
  rewrite schedule_spec, H.
  destruct (compute_fire_time now delay unit at_ tm) as [e|[st ds]].
  - exists []. destruct e; simpl; rewrite Hev, Hcalls; auto.
  - simpl.
    destruct (scheduled_fields E now task_id delay unit fa sa n nha nm nd
                               at_ tm label st ds w1) as (Se & Sc & _).
    rewrite Se, Sc, Hev, Hcalls, <- app_assoc. simpl. eauto.
Qed.

(** C2, as stated, fails: a request with the time of day ["25:00"] for an
    armed task returns normally and leaves that task cancelled. *)
Lemma invalid_at_time_cancels_previous_task :
  parse_at_time noon "25:00" = inl ValueError
  /\ has_task "t1" armed_world = true
  /\ Py.has "t1" (scheduled_tasks armed_world) = true
  /\ fst rejected_request = Returned tt
  /\ has_task "t1" (snd rejected_request) = false
  /\ store (snd rejected_request) <> store armed_world
  /\ scheduled_tasks (snd rejected_request) <> scheduled_tasks armed_world
  /\ timers (snd rejected_request) <> timers armed_world.
Proof.
  vm_compute. repeat split; intros H; discriminate H.
Qed.

(** C2, amended: a schedule request in ABSOLUTE mode whose non-empty time
    string makes the parse raise ValueError does nothing beyond the silent
    cancel of the previous task with the same id, which has already
    happened: it runs no start action, saves nothing, arms no timer, fires
    no TaskStarted, and returns normally. *)
Theorem invalid_at_time_only_cancels
        (E : Env) (now : datetime) (task_id : string) (delay : Z) (unit : Unit)
        (fa : list Action) (sa : option (list Action)) (n nha nm : bool)
        (nd : option (list string)) (s : string) (label : option string)
        (w : World) :
  Py.truthy_str s = true ->
  parse_at_time now s = inl ValueError ->
  let r := async_schedule_action E now task_id delay unit fa sa n nha nm nd
                                 (Some s) TIME_MODE_ABSOLUTE label w in
  r = match async_cancel_action E task_id true "user_request" w with
      | (Returned _, w1) => (Returned tt, w1)
      | (Raised e, w1) => (Raised e, w1)
      end
  /\ (Py.has task_id (scheduled_tasks w) = false ->
      has_task task_id w = false -> r = (Returned tt, w))
  /\ (forall w', r = (Returned tt, w') ->
      has_task task_id w' = false
      /\ Py.has task_id (scheduled_tasks w') = false
      /\ calls w' = calls w
      /\ next_handle w' = next_handle w).
Proof.
  intros Ht Hp r.
  assert (Hr : r = match async_cancel_action E task_id true "user_request" w with
                   | (Returned _, w1) => (Returned tt, w1)
                   | (Raised e, w1) => (Raised e, w1)
                   end).
  { subst r. rewrite schedule_spec. unfold compute_fire_time. simpl.
    rewrite Ht, Hp.
    now destruct (async_cancel_action E task_id true "user_request" w) as [[b|e] w1]. }
  split; [exact Hr|]. split.
  - intros H1 H2. rewrite Hr. now rewrite cancel_absent.
  - intros w'. rewrite Hr.
    destruct (async_cancel_action E task_id true "user_request" w)
      as [[b|e] w1] eqn:C; [|discriminate].
    intros [= <-].
    pose proof C as C0. apply cancel_returned in C0.
    destruct C0 as [(_ & -> & H1 & H2) | (_ & _ & _ & (w0 & _ & Hc) & H1 & H2)].
    + auto.
    + repeat split; auto.
      * rewrite Hc. unfold cancel_calls.
        destruct (get_task task_id w0); simpl; now rewrite app_nil_r.
      * now rewrite <- (cancel_next_handle E task_id true "user_request" w), C.
Qed.

(** ** Fire times *)

Lemma schedule_arms (E : Env) now task_id delay unit fa sa n nha nm nd at_ tm
      label w b w1 st ds :
  async_cancel_action E task_id true "user_request" w = (Returned b, w1) ->
  compute_fire_time now delay unit at_ tm = inr (st, ds) ->
  exists w',
    async_schedule_action E now task_id delay unit fa sa n nha nm nd at_ tm
                          label w = (Returned tt, w')
    /\ armed_for E task_id st ds (mkCallback task_id fa n nha nm nd label) w1 w'.
Proof.
  intros C F. rewrite schedule_spec, C, F.
  eexists. split; [reflexivity|].
  destruct (scheduled_fields E now task_id delay unit fa sa n nha nm nd
                             at_ tm label st ds w1) as (_ & _ & Ss & Sh & St).
  unfold armed_for. split; [exact St|]. split.
  - rewrite Sh. apply get_set_same.
  - eexists. split; [rewrite Ss; apply get_set_same|]. simpl. auto.
Qed.

(** C8: in RELATIVE mode the delay is taken as seconds times 1, minutes
    times 60 or hours times 3600, and the task is armed and stored for now
    plus that many seconds. *)
Theorem relative_fire_time
        (E : Env) (now : datetime) (task_id : string) (delay : Z) (unit : Unit)
        (fa : list Action) (sa : option (list Action)) (n nha nm : bool)
        (nd : option (list string)) (at_ : option string)
        (label : option string) (w : World) :
  convert_to_seconds delay UNIT_SECONDS = delay * 1
  /\ convert_to_seconds delay UNIT_MINUTES = delay * 60
  /\ convert_to_seconds delay UNIT_HOURS = delay * 3600
  /\ compute_fire_time now delay unit at_ TIME_MODE_RELATIVE
     = inr (now + timedelta_seconds (convert_to_seconds delay unit),
            convert_to_seconds delay unit)
  /\ (forall b w1,
        async_cancel_action E task_id true "user_request" w = (Returned b, w1) ->
        exists w',
          async_schedule_action E now task_id delay unit fa sa n nha nm nd at_
                                TIME_MODE_RELATIVE label w = (Returned tt, w')
          /\ armed_for E task_id
                       (now + timedelta_seconds (convert_to_seconds delay unit))
                       (convert_to_seconds delay unit)
                       (mkCallback task_id fa n nha nm nd label) w1 w').
Proof.
  split; [unfold convert_to_seconds; simpl; lia|].
  split; [reflexivity|]. split; [reflexivity|]. split; [reflexivity|].
  intros b w1 C. now apply (schedule_arms E) with (b := b).
Qed.

(** a string without the separator is one piece, and the text before the
    first separator is the first piece *)
Lemma split_plain sep a :
  Py.contains sep a = false -> Py.split sep a = [a].
Proof.
  induction a as [|c r IH]; simpl; [reflexivity|].
  destruct (Ascii.eqb c sep); [discriminate|]. simpl.
  intros H. now rewrite (IH H).
Qed.

Lemma split_before sep a r :
  Py.contains sep a = false ->
  Py.split sep (a ++ String sep r) = a :: Py.split sep r.
Proof.
  induction a as [|c a' IH]; simpl.
  - intros _. now rewrite Ascii.eqb_refl.
  - destruct (Ascii.eqb c sep); [discriminate|]. simpl.
    intros H. now rewrite (IH H).
Qed.

Lemma fields_read_back :
  forallb reads_back (map Z.of_nat (seq 0 60)) = true.
Proof. vm_compute. reflexivity. Qed.

Lemma two_digits_ok n :
  0 <= n <= 59 ->
  Py.contains ":" (two_digits n) = false /\ Py.int (two_digits n) = Some n.
Proof.
  intros Hn.
  assert (Hin : In n (map Z.of_nat (seq 0 60))).
  { apply in_map_iff. exists (Z.to_nat n). split; [lia|].
    apply in_seq. lia. }
  pose proof fields_read_back as H. rewrite forallb_forall in H.
  specialize (H n Hin). unfold reads_back in H.
  apply andb_prop in H. destruct H as [Hc Hi].
  split; [now apply negb_true_iff in Hc|].
  destruct (Py.int (two_digits n)) as [z|]; [|discriminate].
  apply Z.eqb_eq in Hi. now subst.
Qed.

Lemma replace_time_valid now h m sec :
  0 <= h <= 23 -> 0 <= m <= 59 -> 0 <= sec <= 59 ->
  replace_time now h m sec
  = inr (midnight now + timedelta_seconds (seconds_of h m sec)).
Proof.
  intros Hh Hm Hs. unfold replace_time, fits_c_int, in_range, seconds_of.
  assert (B : forall z, 0 <= z <= 59 ->
                        (- 2 ^ 31 <=? z) && (z <=? 2 ^ 31 - 1) = true).
  { intros z Hz. apply andb_true_intro. split; apply Z.leb_le; lia. }
  rewrite (B h), (B m), (B sec) by lia. simpl.
  assert (R : forall hi z, 0 <= z <= hi -> (0 <=? z) && (z <=? hi) = true).
  { intros hi z Hz. apply andb_true_intro. split; apply Z.leb_le; lia. }
  rewrite (R 23 h), (R 59 m), (R 59 sec) by lia. reflexivity.
Qed.

(** every time of day written as ["HH:MM"] or ["HH:MM:SS"] is read, and
    its fire time is its next occurrence *)
Lemma parse_at_time_valid now h m sec :
  0 <= h <= 23 -> 0 <= m <= 59 -> 0 <= sec <= 59 ->
  parse_at_time now (hhmm h m)
  = inr (next_occurrence now h m 0,
         total_seconds_int (next_occurrence now h m 0 - now))
  /\ parse_at_time now (hhmmss h m sec)
     = inr (next_occurrence now h m sec,
            total_seconds_int (next_occurrence now h m sec - now)).
Proof.
  intros Hh Hm Hs.
  destruct (two_digits_ok h) as [Ch Ih]; [lia|].
  destruct (two_digits_ok m) as [Cm Im]; [lia|].
  destruct (two_digits_ok sec) as [Cs Is]; [lia|].
  split.
  - unfold parse_at_time, hhmm.
    change (two_digits h ++ ":" ++ two_digits m)%string
      with (two_digits h ++ String ":" (two_digits m))%string.
    rewrite (split_before _ _ _ Ch), (split_plain _ _ Cm).
    cbn [nth nth_error List.length Nat.ltb Nat.leb].
    rewrite Ih, Im.
    rewrite (replace_time_valid now h m 0) by lia.
    reflexivity.
  - unfold parse_at_time, hhmmss.
    change (two_digits h ++ ":" ++ two_digits m ++ ":" ++ two_digits sec)%string
      with (two_digits h
            ++ String ":" (two_digits m ++ String ":" (two_digits sec)))%string.
    rewrite (split_before _ _ _ Ch), (split_before _ _ _ Cm),
      (split_plain _ _ Cs).
    cbn [nth nth_error List.length Nat.ltb Nat.leb].
    rewrite Ih, Im, Is.
    rewrite (replace_time_valid now h m sec) by lia.
    reflexivity.
Qed.

(** C5: in ABSOLUTE mode every time of day written as HH:MM or HH:MM:SS
    with its fields in range is read, and the fire time of a time string
    that is read is the next occurrence of that time of day strictly
    after now: today's if it is still ahead, tomorrow's if it has passed
    or is now; it is never in the past, and the task is armed and stored
    for it. *)
Theorem absolute_fire_time_next_occurrence
        (E : Env) (now : datetime) (task_id : string) (delay : Z) (unit : Unit)
        (fa : list Action) (sa : option (list Action)) (n nha nm : bool)
        (nd : option (list string)) (label : option string) (w : World) :
  (forall h m sec,
     0 <= h <= 23 -> 0 <= m <= 59 -> 0 <= sec <= 59 ->
     parse_at_time now (hhmm h m)
     = inr (next_occurrence now h m 0,
            total_seconds_int (next_occurrence now h m 0 - now))
     /\ parse_at_time now (hhmmss h m sec)
        = inr (next_occurrence now h m sec,
               total_seconds_int (next_occurrence now h m sec - now)))
  /\ forall (s : string) (st : datetime) (ds : Z),
  parse_at_time now s = inr (st, ds) ->
  compute_fire_time now delay unit (Some s) TIME_MODE_ABSOLUTE = inr (st, ds)
  /\ (exists h m sec,
        (Py.int (nth 0 (Py.split ":" s) EmptyString) = Some h
         /\ (exists p1, nth_error (Py.split ":" s) 1 = Some p1
                        /\ Py.int p1 = Some m)
         /\ (if (2 <? List.length (Py.split ":" s))%nat
             then Py.int (nth 2 (Py.split ":" s) EmptyString)
             else Some 0) = Some sec)
        /\ (0 <= h <= 23 /\ 0 <= m <= 59 /\ 0 <= sec <= 59)
        /\ st = next_occurrence now h m sec
        /\ time_of_day st = timedelta_seconds (seconds_of h m sec))
  /\ now < st <= now + timedelta_days 1
  /\ ds = total_seconds_int (st - now)
  /\ (forall b w1,
        async_cancel_action E task_id true "user_request" w = (Returned b, w1) ->
        exists w',
          async_schedule_action E now task_id delay unit fa sa n nha nm nd
                                (Some s) TIME_MODE_ABSOLUTE label w
          = (Returned tt, w')
          /\ armed_for E task_id st ds
                       (mkCallback task_id fa n nha nm nd label) w1 w').
Proof.
  split; [intros h m sec; apply parse_at_time_valid|].
  intros s st ds Hp.
  assert (Ht : Py.truthy_str s = true) by (destruct s; [discriminate Hp|reflexivity]).
  assert (F : compute_fire_time now delay unit (Some s) TIME_MODE_ABSOLUTE
              = inr (st, ds))
    by (unfold compute_fire_time; simpl; now rewrite Ht).
  split; [exact F|].
  destruct (parse_at_time_ok now s st ds Hp)
    as (h & m & sec & today & Hints & R & Hst & Hds).
  apply replace_time_ok in R. destruct R as (Hh & Hm & Hs & ->).
  pose proof (seconds_of_bound h m sec Hh Hm Hs) as B.
  pose proof (midnight_le now) as L.
  assert (D : timedelta_days 1 = US_PER_DAY) by (unfold timedelta_days; lia).
  split.
  { exists h, m, sec. split; [exact Hints|]. split; [auto|]. split; [exact Hst|].
    rewrite Hst.
    destruct (midnight now + timedelta_seconds (seconds_of h m sec) <=? now).
    - rewrite D. unfold time_of_day.
      replace (midnight now + timedelta_seconds (seconds_of h m sec) + US_PER_DAY)
        with (midnight now + timedelta_seconds (seconds_of h m sec)
              + 1 * US_PER_DAY) by lia.
      rewrite Z_mod_plus_full. now apply time_of_day_midnight_plus.
    - now apply time_of_day_midnight_plus. }
  split.
  { rewrite Hst.
    destruct (Z.leb_spec (midnight now + timedelta_seconds (seconds_of h m sec)) now);
      lia. }
  split; [exact Hds|].
  intros b w1 C. now apply (schedule_arms E) with (b := b).
Qed.

(** ** Recovery *)

Section Recovery.
Variable E : Env.
Variable now : datetime.

Lemma sensor_refreshed_fields w :
  store (sensor_refreshed w) = store w
  /\ scheduled_tasks (sensor_refreshed w) = scheduled_tasks w
  /\ state_listeners (sensor_refreshed w) = state_listeners w
  /\ events (sensor_refreshed w) = events w
  /\ calls (sensor_refreshed w) = calls w.
Proof. unfold sensor_refreshed. destruct (sensor w); simpl; auto. Qed.

Lemma fired_fields cb w :
  store (fired E cb w) = Py.del (cb_task_id cb) (store w)
  /\ scheduled_tasks (fired E cb w) = Py.del (cb_task_id cb) (scheduled_tasks w)
  /\ state_listeners (fired E cb w) = state_listeners w
  /\ events (fired E cb w)
     = events w ++ [TaskCompleted (cb_task_id cb) (cb_finish_actions cb)
                      (batch_successes E (calls w) (cb_finish_actions cb))
                      (batch_failures E (calls w) (cb_finish_actions cb))].
Proof.
  unfold fired, cleaned.
  destruct (sensor_refreshed_fields
              (with_store (Py.del (cb_task_id cb) (store (batch_done E cb w)))
                 (with_scheduled_tasks
                    (Py.del (cb_task_id cb) (scheduled_tasks (batch_done E cb w)))
                    (batch_done E cb w)))) as (-> & -> & -> & -> & _).
  simpl. auto.
Qed.

Lemma aware_fire_time_some t ft :
  aware_fire_time E t = Some ft <-> fire_time E t = Returned (Some (Aware ft)).
Proof.
  unfold aware_fire_time.
  destruct (fire_time E t) as [[[d|d]|]|e]; split; intros H; congruence.
Qed.

Lemma rearmed_recoverable t : rearmed E now t = true -> recoverable E t.
Proof.
  unfold recoverable, rearmed.
  destruct (aware_fire_time E t) as [ft|] eqn:A; [|discriminate].
  apply aware_fire_time_some in A.
  destruct (or_default (finish_actions t) []) as [|a fa]; [discriminate|].
  intros _. split; [eauto|discriminate].
Qed.

(** a record at which recovery does not stop is fired, re-armed or
    dropped *)
Lemma restore_cases t :
  stops_recovery E t = None ->
  overdue E now t = false -> rearmed E now t = false -> dropped E t = true.
Proof.
  unfold stops_recovery, overdue, rearmed, dropped, aware_fire_time.
  destruct (fire_time E t) as [[[ft|ft]|]|e]; try discriminate; auto.
  - destruct (Py.truthy_list (or_default (finish_actions t) [])); auto.
    simpl. destruct (ft <=? now); discriminate.
  - destruct (Py.truthy_list (or_default (finish_actions t) [])); auto.
    discriminate.
Qed.

Lemma restore_task_dropped task_id t w :
  dropped E t = true ->
  restore_task E now (task_id, t) w
  = (Returned tt, with_store (Py.del task_id (store w)) w).
Proof.
  unfold dropped, restore_task.
  destruct (fire_time E t) as [[p|]|e]; [|reflexivity|discriminate].
  destruct (or_default (finish_actions t) []) as [|a fa]; [reflexivity|].
  discriminate.
Qed.

Lemma restore_task_overdue task_id t w :
  overdue E now t = true ->
  restore_task E now (task_id, t) w
  = execute_finish_actions E
      (callback_of task_id t (or_default (finish_actions t) [])) w.
Proof.
  unfold overdue, restore_task, aware_fire_time.
  destruct (fire_time E t) as [[[ft|ft]|]|e]; try discriminate.
  destruct (or_default (finish_actions t) []) as [|a fa]; [discriminate|].
  simpl. now intros ->.
Qed.

(** recovery stops at a record that [stops_recovery] names, with the
    state as it was *)
Lemma restore_task_stops task_id t x w :
  stops_recovery E t = Some x ->
  restore_task E now (task_id, t) w = (Raised x, w).
Proof.
  unfold stops_recovery, restore_task.
  destruct (fire_time E t) as [[[ft|ft]|]|e]; try discriminate.
  - destruct (or_default (finish_actions t) []) as [|a fa]; [discriminate|].
    simpl. now intros [= <-].
  - now intros [= <-].
Qed.

Lemma restore_task_spec item w :
  state_listeners w = [] ->
  stops_recovery E (snd item) = None ->
  restore_task E now item w = (Returned tt, restored E now w item).
Proof.
  intros L N. destruct item as [task_id t]. simpl in N. unfold restored.
  destruct (overdue E now t) eqn:O.
  - rewrite restore_task_overdue by exact O.
    apply execute_no_listener. now rewrite L.
  - destruct (rearmed E now t) eqn:R.
    + unfold rearmed, aware_fire_time in *. unfold restore_task.
      destruct (fire_time E t) as [[[ft|ft]|]|e]; try discriminate.
      destruct (or_default (finish_actions t) []) as [|a fa]; [discriminate|].
      simpl in *. destruct (ft <=? now); [discriminate|]. reflexivity.
    + apply restore_task_dropped. now apply restore_cases.
Qed.

(** a round of the loop that returns met no record at which recovery
    stops *)
Lemma restore_task_returned item w w1 :
  state_listeners w = [] ->
  restore_task E now item w = (Returned tt, w1) ->
  stops_recovery E (snd item) = None /\ w1 = restored E now w item.
Proof.
  intros L H. destruct (stops_recovery E (snd item)) as [x|] eqn:N.
  - destruct item as [task_id t]. simpl in N.
    rewrite (restore_task_stops _ _ _ _ N) in H. discriminate.
  - rewrite (restore_task_spec _ _ L N) in H. split; congruence.
Qed.

Lemma restored_fields task_id t w :
  state_listeners (restored E now w (task_id, t)) = state_listeners w
  /\ store (restored E now w (task_id, t))
     = (if rearmed E now t then store w else Py.del task_id (store w))
  /\ (scheduled_tasks (restored E now w (task_id, t))
      = if overdue E now t then Py.del task_id (scheduled_tasks w)
        else if rearmed E now t
             then Py.set task_id (next_handle w) (scheduled_tasks w)
             else scheduled_tasks w)
  /\ events (restored E now w (task_id, t))
     = events w
       ++ (if overdue E now t
           then [TaskCompleted task_id (or_default (finish_actions t) [])
                   (batch_successes E (calls w) (or_default (finish_actions t) []))
                   (batch_failures E (calls w) (or_default (finish_actions t) []))]
           else []).
Proof.
  unfold restored.
  destruct (overdue E now t) eqn:O.
  - destruct (fired_fields
                (callback_of task_id t (or_default (finish_actions t) [])) w)
      as (-> & -> & -> & ->).
    simpl. repeat split; auto.
    unfold overdue in O. unfold rearmed.
    destruct (aware_fire_time E t) as [ft|]; [|discriminate].
    apply andb_prop in O. destruct O as [-> ->]. reflexivity.
  - destruct (rearmed E now t); simpl; rewrite ?app_nil_r; auto.
Qed.

(** a loop that returns met no record at which recovery stops, and went
    through every record *)
Lemma restore_loop_returned items : forall w w',
  state_listeners w = [] ->
  for_each items (restore_task E now) w = (Returned tt, w') ->
  w' = fold_left (restored E now) items w
  /\ state_listeners w' = []
  /\ forall k t, In (k, t) items -> stops_recovery E t = None.
Proof.
  induction items as [|item rest IH]; intros w w' L H; simpl in *.
  - inversion H; subst. repeat split; auto. intros k t [].
  - unfold bind in H.
    destruct (restore_task E now item w) as [[[]|x] w1] eqn:R; [|discriminate].
    destruct (restore_task_returned item w w1 L R) as [N ->].
    assert (L1 : state_listeners (restored E now w item) = []).
    { destruct item as [task_id t].
      destruct (restored_fields task_id t w) as (-> & _). exact L. }
    destruct (IH _ _ L1 H) as (-> & L' & N').
    repeat split; auto.
    intros k t [Heq|Hin]; [now subst item|now apply (N' k t)].
Qed.

(** records under other ids leave [task_id] alone *)
Lemma restore_others task_id items : forall w,
  ~ In task_id (Py.keys items) ->
  let w' := fold_left (restored E now) items w in
  (Py.get task_id (store w) = None -> Py.get task_id (store w') = None)
  /\ (Py.get task_id (scheduled_tasks w) = None ->
      Py.get task_id (scheduled_tasks w') = None)
  /\ exists evs, events w' = events w ++ evs
                 /\ filter (is_completed_for task_id) evs = [].
Proof.
  induction items as [|[k t] rest IH]; intros w Hn; cbv zeta in *.
  - simpl. repeat split; auto. exists []. now rewrite app_nil_r.
  - simpl in Hn.
    change (fold_left (restored E now) ((k, t) :: rest) w)
      with (fold_left (restored E now) rest (restored E now w (k, t))).
    assert (Hk : k <> task_id) by tauto.
    assert (Hr : ~ In task_id (Py.keys rest)) by tauto.
    destruct (IH (restored E now w (k, t)) Hr) as (Is & Ih & evs & Ie & If).
    destruct (restored_fields k t w) as (_ & Fs & Fh & Fe).
    split; [|split].
    + intros G. apply Is. rewrite Fs.
      destruct (rearmed E now t); [exact G|].
      now rewrite get_del_other.
    + intros G. apply Ih. rewrite Fh.
      destruct (overdue E now t); [now rewrite get_del_other|].
      destruct (rearmed E now t); [now rewrite get_set_other|exact G].
    + eexists. split.
      * rewrite Ie, Fe, <- app_assoc. reflexivity.
      * rewrite filter_app, If, app_nil_r.
        destruct (overdue E now t); [|reflexivity].
        simpl. apply String.eqb_neq in Hk. now rewrite Hk.
Qed.

(** what is still stored after the loop was stored before, and under an
    id whose every visited record was re-armed *)
Lemma restore_keeps items : forall w k t,
  In (k, t) (store (fold_left (restored E now) items w)) ->
  In (k, t) (store w)
  /\ forall t', In (k, t') items -> rearmed E now t' = true.
Proof.
  induction items as [|[k0 t0] rest IH]; intros w k t Hin.
  - split; [exact Hin|]. intros t' [].
  - change (fold_left (restored E now) ((k0, t0) :: rest) w)
      with (fold_left (restored E now) rest (restored E now w (k0, t0))) in Hin.
    apply IH in Hin. destruct Hin as [Hin Hrest].
    destruct (restored_fields k0 t0 w) as (_ & Fs & _).
    rewrite Fs in Hin.
    destruct (rearmed E now t0) eqn:R.
    + split; [exact Hin|].
      intros t' [H|H]; [|now apply Hrest]. congruence.
    + apply in_del in Hin. destruct Hin as [Hin Hne].
      split; [exact Hin|].
      intros t' [H|H]; [|now apply Hrest]. congruence.
Qed.

Lemma restored_calls task_id t w :
  calls (restored E now w (task_id, t))
  = calls w
    ++ (if overdue E now t
        then let cb := callback_of task_id t (or_default (finish_actions t) []) in
             batch_calls (cb_finish_actions cb)
             ++ completion_calls cb
                  (batch_successes E (calls w) (cb_finish_actions cb))
                  (batch_failures E (calls w) (cb_finish_actions cb))
        else []).
Proof.
  unfold restored.
  destruct (overdue E now t).
  - unfold fired, cleaned.
    set (cb := callback_of task_id t (or_default (finish_actions t) [])).
    destruct (sensor_refreshed_fields
                (with_store (Py.del (cb_task_id cb) (store (batch_done E cb w)))
                   (with_scheduled_tasks
                      (Py.del (cb_task_id cb) (scheduled_tasks (batch_done E cb w)))
                      (batch_done E cb w)))) as (_ & _ & _ & _ & ->).
    reflexivity.
  - destruct (rearmed E now t); simpl; now rewrite app_nil_r.
Qed.

(** the loop only adds calls *)
Lemma restore_loop_calls items : forall w,
  exists l, calls (fold_left (restored E now) items w) = calls w ++ l.
Proof.
  induction items as [|[k t] rest IH]; intros w.
  - exists []. simpl. now rewrite app_nil_r.
  - change (fold_left (restored E now) ((k, t) :: rest) w)
      with (fold_left (restored E now) rest (restored E now w (k, t))).
    destruct (IH (restored E now w (k, t))) as [l Hl].
    rewrite Hl, restored_calls, <- app_assoc. eauto.
Qed.

End Recovery.

(** a recovery that returns went through every stored record *)
Lemma restore_tasks_returned (E : Env) (now : datetime) (w w' : World) :
  state_listeners w = [] ->
  async_restore_tasks E now w = (Returned tt, w') ->
  w' = sensor_refreshed (fold_left (restored E now) (store w) w)
  /\ forall k t, In (k, t) (store w) -> stops_recovery E t = None.
Proof.
  intros L H. unfold async_restore_tasks, bind in H.
  destruct (for_each (store w) (restore_task E now) w) as [[[]|x] w1] eqn:F;
    [|discriminate].
  destruct (restore_loop_returned E now _ _ _ L F) as (-> & _ & N).
  unfold _update_sensor, modify in H. inversion H. split; [reflexivity|exact N].
Qed.

Lemma overdue_not_rearmed (E : Env) (now : datetime) (t : Task) :
  overdue E now t = true -> rearmed E now t = false.
Proof.
  unfold overdue, rearmed.
  destruct (aware_fire_time E t) as [ft|]; [|discriminate].
  intros H. apply andb_prop in H. destruct H as [_ ->].
  now rewrite andb_false_r.
Qed.

Lemma nodup_keys_split {V} (pre post : Py.dict V) k v :
  NoDup (Py.keys (pre ++ (k, v) :: post)) ->
  ~ In k (Py.keys pre) /\ ~ In k (Py.keys post).
Proof.
  unfold Py.keys. rewrite map_app. simpl. intros H.
  apply NoDup_remove_2 in H. rewrite in_app_iff in H. tauto.
Qed.

(** the callback recovery builds from a record that a schedule wrote runs
    as the callback that the schedule armed *)
Lemma stored_callback_runs_alike (E : Env) task_id s e ds start fa n nha nm nd
      at_ tm label w :
  execute_finish_actions E
    (callback_of task_id
       (mkTask s e ds start (Some fa) (Some n) (Some nha) (Some nm)
               (Some (or_default nd [])) at_ tm label) fa) w
  = execute_finish_actions E (mkCallback task_id fa n nha nm nd label) w.
Proof.
  rewrite !execute_unfold. simpl cb_task_id. f_equal.
  unfold batch_done, completion_calls, notification_calls, callback_of. simpl.
  destruct nd as [[|d nd]|]; simpl; reflexivity.
Qed.

(** C7, the code against the claim: the store holds a record whose end
    time has no UTC offset, and after it a record whose end time is no
    timestamp.  Recovery raises [TypeError] at the first
    ([scheduled_time <= now] compares a datetime without offset with one
    that has it), so the second is never looked at and stays in the
    store. *)
Theorem offsetless_record_keeps_invalid_record :
  fire_time quiet_host offsetless_task
  = Returned (Some (Naive 63839779200000000))
  /\ fire_time quiet_host junk_task = Returned None
  /\ ~ recoverable quiet_host junk_task
  /\ async_restore_tasks quiet_host noon (new_coordinator offsetless_then_junk)
     = (Raised TypeError, new_coordinator offsetless_then_junk)
  /\ In ("junk", junk_task)
        (store (snd (async_restore_tasks quiet_host noon
                       (new_coordinator offsetless_then_junk)))).
Proof.
  split; [reflexivity|]. split; [reflexivity|]. split.
  - intros [[p H] _]. discriminate H.
  - split; [reflexivity|]. right. now left.
Qed.

(** C4, the code against the claim: the store holds a record whose end
    time has no UTC offset, and after it a task that was due at 08:00.
    Recovery at noon raises [TypeError] at the first record, so the
    overdue task is not fired: no call, no event, and its record is still
    stored. *)
Theorem offsetless_record_blocks_overdue_task :
  overdue quiet_host noon late_task = true
  /\ async_restore_tasks quiet_host noon (new_coordinator offsetless_then_late)
     = (Raised TypeError, new_coordinator offsetless_then_late)
  /\ has_task "late" (snd (async_restore_tasks quiet_host noon
                             (new_coordinator offsetless_then_late))) = true
  /\ calls (snd (async_restore_tasks quiet_host noon
                   (new_coordinator offsetless_then_late))) = []
  /\ events (snd (async_restore_tasks quiet_host noon
                    (new_coordinator offsetless_then_late))) = [].
Proof. repeat split. Qed.

(** X21: in recovery a record whose fire-time string is no timestamp, or
    whose fire time reads while its finish_actions is empty, is removed
    from the store and nothing else happens for it: no call, no event.
    When recovery returns, every record still stored was stored before,
    has a readable fire time and has finish actions, and was re-armed. *)
Theorem recovery_drops_invalid_records (E : Env) (now : datetime) (w : World) :
  (forall task_id t w0,
     fire_time E t = Returned None ->
     restore_task E now (task_id, t) w0
     = (Returned tt, with_store (Py.del task_id (store w0)) w0))
  /\ (forall task_id t p w0,
        fire_time E t = Returned (Some p) ->
        or_default (finish_actions t) [] = [] ->
        restore_task E now (task_id, t) w0
        = (Returned tt, with_store (Py.del task_id (store w0)) w0))
  /\ forall w',
       async_restore_tasks E now (new_coordinator w) = (Returned tt, w') ->
       forall task_id t,
         In (task_id, t) (store w') ->
         In (task_id, t) (store w) /\ recoverable E t
         /\ rearmed E now t = true.
Proof.
  split; [|split].
  - intros task_id t w0 H. apply restore_task_dropped.
    unfold dropped. now rewrite H.
  - intros task_id t p w0 H Hfa. apply restore_task_dropped.
    unfold dropped. now rewrite H, Hfa.
  - intros w' H task_id t Hin.
    apply restore_tasks_returned in H; [|reflexivity].
    destruct H as [-> _].
    destruct (sensor_refreshed_fields
                (fold_left (restored E now) (store (new_coordinator w))
                           (new_coordinator w))) as (Hs & _).
    rewrite Hs in Hin. apply restore_keeps in Hin.
    destruct Hin as [Hin Hall]. simpl in Hin, Hall.
    split; [exact Hin|].
    split; [apply (rearmed_recoverable E now)|]; now apply Hall.
Qed.

(** X20: when the store holds a task whose fire time is not after now,
    recovery runs for it the routine the timer callback runs; for a
    record as a schedule writes it that routine has the effects of the
    callback the schedule armed, and for a record without notification
    keys it sends no notification.  When recovery returns, it ran the
    routine once: one TaskCompleted event for that task_id was fired, the
    calls of its batch were made, and the store has no record and the
    timer table no handle for it. *)
Theorem recovery_fires_overdue_task_once
        (E : Env) (now : datetime) (w : World)
        (task_id : string) (t : Task) (ft : datetime) :
  NoDup (Py.keys (store w)) ->
  In (task_id, t) (store w) ->
  fire_time E t = Returned (Some (Aware ft)) ->
  ft <= now ->
  or_default (finish_actions t) [] <> [] ->
  let cb := callback_of task_id t (or_default (finish_actions t) []) in
  (forall w0, restore_task E now (task_id, t) w0 = execute_finish_actions E cb w0)
  /\ (forall s e ds start fa n nha nm nd at_ tm label w0,
        execute_finish_actions E
          (callback_of task_id
             (mkTask s e ds start (Some fa) (Some n) (Some nha) (Some nm)
                     (Some (or_default nd [])) at_ tm label) fa) w0
        = execute_finish_actions E (mkCallback task_id fa n nha nm nd label) w0)
  /\ (notify_ha t = None -> notify_mobile t = None -> notify_devices t = None ->
      forall s e, completion_calls cb s e = [])
  /\ forall w',
       async_restore_tasks E now (new_coordinator w) = (Returned tt, w') ->
       has_task task_id w' = false
       /\ Py.has task_id (scheduled_tasks w') = false
       /\ (exists evs s e,
             events w' = events w ++ evs
             /\ filter (is_completed_for task_id) evs
                = [TaskCompleted task_id (or_default (finish_actions t) []) s e])
       /\ exists before after,
            calls w' = calls w ++ before
                       ++ batch_calls (or_default (finish_actions t) []) ++ after.
Proof.
  intros Hnd Hin Hft Hle Hfa cb.
  assert (O : overdue E now t = true).
  { unfold overdue. apply aware_fire_time_some in Hft. rewrite Hft.
    destruct (or_default (finish_actions t) []); [congruence|].
    simpl. now apply Z.leb_le. }
  split; [intros w0; now apply restore_task_overdue|].
  split; [intros; apply stored_callback_runs_alike|].
  split.
  { intros H1 H2 H3 s e. subst cb. unfold completion_calls, callback_of.
    cbn [cb_notify_ha cb_notify_mobile cb_notify_devices].
    now rewrite H1, H2, H3. }
  intros w' Hret.
  apply restore_tasks_returned in Hret; [|reflexivity].
  destruct Hret as [-> _].
  set (w0 := new_coordinator w).
  change (store w0) with (store w).
  destruct (in_split _ _ Hin) as (pre & post & Hsplit).
  rewrite Hsplit in Hnd. apply nodup_keys_split in Hnd.
  destruct Hnd as [Hpre Hpost].
  rewrite Hsplit, fold_left_app.
  change (fold_left (restored E now) ((task_id, t) :: post)
                    (fold_left (restored E now) pre w0))
    with (fold_left (restored E now) post
            (restored E now (fold_left (restored E now) pre w0) (task_id, t))).
  set (wa := fold_left (restored E now) pre w0).
  destruct (restore_others E now task_id pre w0 Hpre) as (_ & _ & eva & Ea & Fa).
  fold wa in Ea.
  destruct (restored_fields E now task_id t wa) as (_ & Fs & Fh & Fe).
  rewrite O in Fh, Fe. rewrite (overdue_not_rearmed E now t O) in Fs.
  set (wb := restored E now wa (task_id, t)) in *.
  destruct (restore_others E now task_id post wb Hpost) as (Is & Ih & evc & Ec & Fc).
  set (wc := fold_left (restored E now) post wb) in *.
  destruct (sensor_refreshed_fields wc) as (Rs & Rh & _ & Re & _).
  unfold has_task, Py.has. rewrite Rs, Rh, Re.
  rewrite Is by (rewrite Fs; apply get_del_same).
  rewrite Ih by (rewrite Fh; apply get_del_same).
  split; [reflexivity|]. split; [reflexivity|]. split.
  - eexists. eexists. eexists. split.
    + rewrite Ec, Fe, Ea. change (events w0) with (events w).
      rewrite <- !app_assoc. reflexivity.
    + rewrite !filter_app, Fa, Fc. simpl. now rewrite String.eqb_refl.
  - destruct (sensor_refreshed_fields wc) as (_ & _ & _ & _ & ->).
    destruct (restore_loop_calls E now post wb) as [lc Hlc].
    fold wc in Hlc. rewrite Hlc.
    destruct (restore_loop_calls E now pre w0) as [la Hla].
    fold wa in Hla.
    pose proof (restored_calls E now task_id t wa) as Hb.
    fold wb in Hb. rewrite O in Hb. rewrite Hb, Hla.
    change (calls w0) with (calls w). cbv zeta.
    change (cb_finish_actions
              (callback_of task_id t (or_default (finish_actions t) [])))
      with (or_default (finish_actions t) []).
    rewrite <- !app_assoc. eauto.
Qed.

(** ** Shutdown *)

Section Shutdown.
Variable E : Env.

Lemma disarm_all_app hs1 hs2 ts :
  disarm_all E (hs1 ++ hs2) ts = disarm_all E hs2 (disarm_all E hs1 ts).
Proof. unfold disarm_all. apply fold_left_app. Qed.

Lemma disarm_all_subset hs : forall ts x,
  In x (disarm_all E hs ts) -> In x ts.
Proof.
  induction hs as [|h rest IH]; intros ts x; simpl; auto.
  intros H. apply IH in H.
  destruct (unsub_raises E h); auto.
  unfold disarm in H. now apply filter_In in H.
Qed.

Lemma disarm_all_gone hs : forall ts h x,
  In h hs -> unsub_raises E h = false -> ~ In (h, x) (disarm_all E hs ts).
Proof.
  induction hs as [|h0 rest IH]; intros ts h x Hin Hr; simpl in *.
  - contradiction.
  - destruct Hin as [->|Hin].
    + rewrite Hr. intros H. apply disarm_all_subset in H.
      unfold disarm in H. apply filter_In in H. destruct H as [_ H].
      simpl in H. now rewrite Nat.eqb_refl in H.
    + now apply IH.
Qed.

Lemma get_in_lookups (d : Py.dict nat) k h ks :
  In k ks -> Py.get k d = Some h -> In h (lookups d ks).
Proof.
  intros Hk G. unfold lookups. apply in_flat_map.
  exists k. split; [exact Hk|]. rewrite G. now left.
Qed.

Lemma get_in_keys {V} (d : Py.dict V) k v : Py.get k d = Some v -> In k (Py.keys d).
Proof.
  induction d as [|[k0 v0] r IH]; simpl; [discriminate|].
  destruct (String.eqb_spec k k0) as [->|Hk]; auto.
Qed.

(** the loop of [cancel_all] over the keys [ks] of a table that the
    cancellations do not change *)
Lemma cancel_loop_spec (table : World -> Py.dict nat) (d : Py.dict nat) ks :
  (forall x y w, table (with_timers x (with_unsubscribed y w)) = table w) ->
  forall w,
    table w = d ->
    for_each ks
      (fun k w' =>
         match Py.get k (table w') with
         | Some h => try_except (unsub E h) (fun _ => ret tt) w'
         | None => (Returned tt, w')
         end) w
    = (Returned tt,
       with_timers (disarm_all E (lookups d ks) (timers w))
         (with_unsubscribed (unsubscribed w ++ lookups d ks) w)).
Proof.
  intros Hframe. induction ks as [|k rest IH]; intros w Hd.
  - simpl. unfold ret. rewrite app_nil_r. now destruct w.
  - simpl. unfold bind. rewrite Hd.
    destruct (Py.get k d) as [h|] eqn:G.
    + unfold try_except, unsub.
      destruct (unsub_raises E h) eqn:R; unfold ret.
      * replace (with_unsubscribed (unsubscribed w ++ [h]) w)
          with (with_timers (timers w)
                  (with_unsubscribed (unsubscribed w ++ [h]) w))
          by now destruct w.
        rewrite IH.
        -- simpl. rewrite R, <- app_assoc. reflexivity.
        -- rewrite <- Hd. apply Hframe.
      * rewrite IH.
        -- simpl. rewrite R, <- app_assoc. reflexivity.
        -- rewrite <- Hd. apply Hframe.
    + now apply IH.
Qed.

Lemma shutdown_spec w : async_shutdown E w = (Returned tt, shut_down E w).
Proof.
  unfold async_shutdown, cancel_all.
  erewrite bind_eq
    by (apply (cancel_loop_spec scheduled_tasks (scheduled_tasks w));
        reflexivity).
  unfold bind at 1. unfold modify at 1.
  erewrite bind_eq
    by (apply (cancel_loop_spec state_listeners (state_listeners w));
        reflexivity).
  unfold modify, shut_down, handles_of. simpl.
  now rewrite disarm_all_app, <- app_assoc.
Qed.

End Shutdown.

(** C9: shutdown invokes every cancel handle of the timer table, each
    one whether or not an earlier one raised, swallows what they raise
    and returns; the table ends empty, every timer whose handle did not
    raise is disarmed, and the Durable Task Store is neither written (it
    holds the records it held) nor read (the same shutdown happens over
    any other store content). *)
Theorem shutdown_cancels_all_and_keeps_store (E : Env) (w : World) :
  exists w',
    async_shutdown E w = (Returned tt, w')
    /\ scheduled_tasks w' = []
    /\ unsubscribed w'
       = unsubscribed w ++ handles_of (scheduled_tasks w)
                        ++ handles_of (state_listeners w)
    /\ (forall k h,
          Py.get k (scheduled_tasks w) = Some h ->
          In h (unsubscribed w')
          /\ (unsub_raises E h = false -> forall x, ~ In (h, x) (timers w')))
    /\ store w' = store w
    /\ (forall s, async_shutdown E (with_store s w) = (Returned tt, with_store s w')).
Proof.
  exists (shut_down E w). split; [apply shutdown_spec|].
  split; [reflexivity|]. split; [reflexivity|]. split; [|split].
  - intros k h G.
    assert (Hin : In h (handles_of (scheduled_tasks w))).
    { apply get_in_lookups with (k := k); [|exact G].
      now apply get_in_keys with (v := h). }
    split.
    + simpl. rewrite !in_app_iff. tauto.
    + intros R x. simpl. apply disarm_all_gone; [|exact R].
      rewrite in_app_iff. tauto.
  - reflexivity.
  - intros s. rewrite shutdown_spec. reflexivity.
Qed.

(** ** The theorems at work on concrete states *)

Lemma silent_cancel_event_without_notification_witness :
  async_cancel_action quiet_host "t1" true "user_request" armed_world
  = (Returned true, snd silent_cancel_of_armed)
  /\ events (snd silent_cancel_of_armed)
     = events armed_world ++ [TaskCancelled "t1" "user_request"]
  /\ calls (snd silent_cancel_of_armed) = calls armed_world.
Proof.
  assert (H : async_cancel_action quiet_host "t1" true "user_request" armed_world
              = (Returned true, snd silent_cancel_of_armed))
    by (vm_compute; reflexivity).
  split; [exact H|].
  destruct (silent_cancel_event_without_notification
              quiet_host "t1" "user_request" armed_world _ H) as (He & Hc & _).
  split; assumption.
Defined.

Lemma invalid_at_time_only_cancels_witness :
  Py.truthy_str "25:00" = true
  /\ parse_at_time noon "25:00" = inl ValueError
  /\ rejected_request = (Returned tt, snd silent_cancel_of_armed).
Proof.
  split; [reflexivity|]. split; [reflexivity|].
  destruct (invalid_at_time_only_cancels
              quiet_host noon "t1" 10 UNIT_SECONDS
              [action_on "light.turn_off" "light.kitchen"] None
              false false false None "25:00" None armed_world
              eq_refl eq_refl) as [H _].
  exact H.
Defined.

Lemma finish_batch_counts_witness :
  svc_raises lock_jammed_host []
             (ServiceCall "lock" "unlock" None (Some [("entity_id", "lock.front")]))
  = true
  /\ svc_raises lock_jammed_host
                [ServiceCall "lock" "unlock" None (Some [("entity_id", "lock.front")])]
                (ServiceCall "light" "turn_off" None
                             (Some [("entity_id", "light.kitchen")]))
     = false
  /\ events (snd (execute_finish_actions lock_jammed_host two_step_callback
                                         empty_world))
     = [TaskCompleted "t3" unlock_then_light 1 1]
  /\ batch_calls unlock_then_light
     = [ServiceCall "lock" "unlock" None (Some [("entity_id", "lock.front")]);
        ServiceCall "light" "turn_off" None (Some [("entity_id", "light.kitchen")])].
Proof.
  split; [reflexivity|]. split; [reflexivity|].
  destruct (finish_batch_counts lock_jammed_host two_step_callback empty_world)
    as (_ & _ & Hev & _ & Hsc).
  destruct (Hsc _ _ _ _ eq_refl eq_refl eq_refl eq_refl eq_refl)
    as (Hs & He & Hb).
  split; [|exact Hb].
  rewrite Hev, Hs, He. reflexivity.
Defined.

Lemma recovery_fires_overdue_task_once_witness :
  NoDup (Py.keys (store restart_world))
  /\ In ("late", late_task) (store restart_world)
  /\ fire_time quiet_host late_task = Returned (Some (Aware 63839779200000000))
  /\ 63839779200000000 <= noon
  /\ or_default (finish_actions late_task) [] <> []
  /\ async_restore_tasks quiet_host noon (new_coordinator restart_world)
     = (Returned tt,
        snd (async_restore_tasks quiet_host noon (new_coordinator restart_world)))
  /\ has_task "late"
       (snd (async_restore_tasks quiet_host noon (new_coordinator restart_world)))
     = false
  /\ Py.has "late"
       (scheduled_tasks
          (snd (async_restore_tasks quiet_host noon
                  (new_coordinator restart_world))))
     = false.
Proof.
  assert (Hnd : NoDup (Py.keys (store restart_world))).
  { simpl. repeat constructor; simpl; intuition discriminate. }
  assert (Hin : In ("late", late_task) (store restart_world)) by (simpl; auto).
  assert (Hle : 63839779200000000 <= noon) by (unfold noon; lia).
  assert (Hfa : or_default (finish_actions late_task) [] <> [])
    by discriminate.
  assert (Hr : async_restore_tasks quiet_host noon (new_coordinator restart_world)
               = (Returned tt,
                  snd (async_restore_tasks quiet_host noon
                         (new_coordinator restart_world))))
    by (vm_compute; reflexivity).
  split; [exact Hnd|]. split; [exact Hin|]. split; [reflexivity|].
  split; [exact Hle|]. split; [exact Hfa|]. split; [exact Hr|].
  destruct (recovery_fires_overdue_task_once
              quiet_host noon restart_world "late" late_task
              63839779200000000 Hnd Hin eq_refl Hle Hfa)
    as (_ & _ & _ & H).
  destruct (H _ Hr) as (Hs & Hh & _).
  split; assumption.
Defined.

Lemma absolute_fire_time_next_occurrence_witness :
  parse_at_time noon (hhmm 7 5)
  = inr (noon + timedelta_seconds 68700, 68700)
  /\ parse_at_time noon (hhmmss 23 59 59)
     = inr (noon + timedelta_seconds 43199, 43199)
  /\ parse_at_time (noon + timedelta_seconds 43190) "00:00"
     = inr (noon + timedelta_seconds 43200, 10)
  /\ noon + timedelta_seconds 43190 < noon + timedelta_seconds 43200
     <= noon + timedelta_seconds 43190 + timedelta_days 1.
Proof.
  destruct (absolute_fire_time_next_occurrence
              quiet_host noon "t2" 15 UNIT_MINUTES
              [action_on "light.turn_off" "light.kitchen"] None
              false false false None None empty_world) as [Hv _].
  destruct (Hv 7 5 0) as [H1 _]; [lia|lia|lia|].
  destruct (Hv 23 59 59) as [_ H2]; [lia|lia|lia|].
  destruct (absolute_fire_time_next_occurrence
              quiet_host (noon + timedelta_seconds 43190) "t2" 15 UNIT_MINUTES
              [action_on "light.turn_off" "light.kitchen"] None
              false false false None None empty_world) as [_ Hr].
  destruct (Hr "00:00" (noon + timedelta_seconds 43200) 10 eq_refl)
    as (_ & _ & H & _).
  split; [exact H1|]. split; [exact H2|]. split; [reflexivity|exact H].
Defined.

Lemma cancel_twice_witness :
  async_cancel_action quiet_host "t1" false "user_request" armed_world
  = (Returned true,
     snd (async_cancel_action quiet_host "t1" false "user_request" armed_world))
  /\ async_cancel_action quiet_host "t1" false "user_request"
       (snd (async_cancel_action quiet_host "t1" false "user_request" armed_world))
     = (Returned false,
        snd (async_cancel_action quiet_host "t1" false "user_request" armed_world)).
Proof.
  assert (H : async_cancel_action quiet_host "t1" false "user_request" armed_world
              = (Returned true,
                 snd (async_cancel_action quiet_host "t1" false "user_request"
                                          armed_world)))
    by (vm_compute; reflexivity).
  split; [exact H|].
  destruct (cancel_twice quiet_host "t1" false "user_request" armed_world)
    as (_ & H2 & _).
  exact (H2 _ _ false "user_request" H).
Defined.

Lemma recovery_drops_invalid_records_witness :
  fire_time quiet_host junk_task = Returned None
  /\ restore_task quiet_host noon ("junk", junk_task) restart_world
     = (Returned tt, with_store (Py.del "junk" (store restart_world)) restart_world)
  /\ fire_time quiet_host idle_task = Returned (Some (Aware 63839822400000000))
  /\ or_default (finish_actions idle_task) [] = []
  /\ restore_task quiet_host noon ("idle", idle_task) restart_world
     = (Returned tt, with_store (Py.del "idle" (store restart_world)) restart_world)
  /\ async_restore_tasks quiet_host noon (new_coordinator restart_world)
     = (Returned tt,
        snd (async_restore_tasks quiet_host noon (new_coordinator restart_world)))
  /\ In ("evening", evening_task)
        (store (snd (async_restore_tasks quiet_host noon
                       (new_coordinator restart_world))))
  /\ recoverable quiet_host evening_task.
Proof.
  assert (Hr : async_restore_tasks quiet_host noon (new_coordinator restart_world)
               = (Returned tt,
                  snd (async_restore_tasks quiet_host noon
                         (new_coordinator restart_world))))
    by (vm_compute; reflexivity).
  assert (Hin : In ("evening", evening_task)
                   (store (snd (async_restore_tasks quiet_host noon
                                  (new_coordinator restart_world)))))
    by (vm_compute; auto).
  destruct (recovery_drops_invalid_records quiet_host noon restart_world)
    as (Hnone & Hempty & Hall).
  split; [reflexivity|].
  split; [exact (Hnone "junk" junk_task restart_world eq_refl)|].
  split; [reflexivity|]. split; [reflexivity|].
  split; [exact (Hempty "idle" idle_task _ restart_world eq_refl eq_refl)|].
  split; [exact Hr|]. split; [exact Hin|].
  exact (proj1 (proj2 (Hall _ Hr "evening" evening_task Hin))).
Defined.

Lemma relative_fire_time_witness :
  async_cancel_action quiet_host "t1" true "user_request" empty_world
  = (Returned false, empty_world)
  /\ exists w',
       async_schedule_action quiet_host noon "t1" 10 UNIT_SECONDS
         [action_on "light.turn_off" "light.kitchen"] None
         false false false None None TIME_MODE_RELATIVE None empty_world
       = (Returned tt, w')
       /\ armed_for quiet_host "t1" (noon + timedelta_seconds 10) 10
            (mkCallback "t1" [action_on "light.turn_off" "light.kitchen"]
                        false false false None None)
            empty_world w'.
Proof.
  split; [reflexivity|].
  destruct (relative_fire_time
              quiet_host noon "t1" 10 UNIT_SECONDS
              [action_on "light.turn_off" "light.kitchen"] None
              false false false None None None empty_world)
    as (_ & _ & _ & _ & H).
  exact (H false empty_world eq_refl).
Defined.


(** ** Scenarios *)

(** the event loop runs the callback the timer was armed with *)
Lemma timer_elapse_runs_callback (E : Env) h when cb w :
  find (fun t => Nat.eqb (fst t) h) (timers w) = Some (h, (when, cb)) ->
  timer_elapse E h w
  = execute_finish_actions E cb (with_timers (disarm h (timers w)) w).
Proof. unfold timer_elapse. now intros ->. Qed.

(** ["t1"] armed for ten seconds: when the timer elapses, the light is
    turned off once, TaskCompleted reports one success, and neither record
    nor timer is left *)
Example kitchen_light_fires_once :
  timers armed_world
  = [(0%nat, (noon + timedelta_seconds 10,
              mkCallback "t1" [action_on "light.turn_off" "light.kitchen"]
                         false false false None None))]
  /\ fst (timer_elapse quiet_host 0 armed_world) = Returned tt
  /\ calls (snd (timer_elapse quiet_host 0 armed_world))
     = [ServiceCall "light" "turn_off" None (Some [("entity_id", "light.kitchen")])]
  /\ events (snd (timer_elapse quiet_host 0 armed_world))
     = events armed_world
       ++ [TaskCompleted "t1" [action_on "light.turn_off" "light.kitchen"] 1 0]
  /\ store (snd (timer_elapse quiet_host 0 armed_world)) = []
  /\ scheduled_tasks (snd (timer_elapse quiet_host 0 armed_world)) = []
  /\ timers (snd (timer_elapse quiet_host 0 armed_world)) = [].
Proof. vm_compute. repeat split. Qed.

(** schedule, then cancel: no finish action runs and nothing stays
    stored or armed *)
Example schedule_then_cancel :
  fst (async_cancel_action quiet_host "t1" false "user_request" armed_world)
  = Returned true
  /\ calls (snd (async_cancel_action quiet_host "t1" false "user_request"
                                     armed_world)) = []
  /\ store (snd (async_cancel_action quiet_host "t1" false "user_request"
                                     armed_world)) = []
  /\ timers (snd (async_cancel_action quiet_host "t1" false "user_request"
                                      armed_world)) = [].
Proof. vm_compute. repeat split. Qed.

(** a restart at noon fires the late task, drops the two broken records
    and re-arms the evening one *)
Example restart_at_noon :
  exists w',
    async_restore_tasks quiet_host noon (new_coordinator restart_world)
    = (Returned tt, w')
    /\ Py.keys (store w') = ["evening"]
    /\ scheduled_tasks w' = [("evening", 0%nat)]
    /\ calls w'
       = [ServiceCall "light" "turn_off" None (Some [("entity_id", "light.kitchen")])]
    /\ events w'
       = [TaskCompleted "late" [action_on "light.turn_off" "light.kitchen"] 1 0].
Proof. eexists. vm_compute. repeat split. Qed.

(** a shutdown on a host whose first handle raises still returns, empties
    the table and leaves the record stored *)
Example shutdown_with_stuck_handle :
  fst (async_shutdown stuck_handle_host armed_world) = Returned tt
  /\ scheduled_tasks (snd (async_shutdown stuck_handle_host armed_world)) = []
  /\ unsubscribed (snd (async_shutdown stuck_handle_host armed_world)) = [0%nat]
  /\ store (snd (async_shutdown stuck_handle_host armed_world)) = store armed_world.
Proof. vm_compute. repeat split. Qed.

(** * Further properties of the coordinator *)

(** ** More dict lemmas *)

Lemma has_set {V} (d : Py.dict V) k k' v :
  Py.has k' (Py.set k v d) = (String.eqb k' k || Py.has k' d)%bool.
Proof.
  unfold Py.has.
  destruct (String.eqb_spec k' k) as [->|Hne].
  - now rewrite get_set_same.
  - rewrite get_set_other by congruence. reflexivity.
Qed.

Lemma has_del {V} (d : Py.dict V) k k' :
  Py.has k' (Py.del k d) = (negb (String.eqb k' k) && Py.has k' d)%bool.
Proof.
  unfold Py.has.
  destruct (String.eqb_spec k' k) as [->|Hne].
  - now rewrite get_del_same.
  - rewrite get_del_other by congruence. reflexivity.
Qed.

Lemma get_del_some {V} (d : Py.dict V) k k' v :
  Py.get k' (Py.del k d) = Some v -> Py.get k' d = Some v.
Proof.
  destruct (String.eqb_spec k k') as [->|Hne].
  - now rewrite get_del_same.
  - now rewrite get_del_other.
Qed.

Lemma in_get_has {V} (d : Py.dict V) k v : In (k, v) d -> Py.has k d = true.
Proof.
  intros Hin. unfold Py.has.
  destruct (Py.get k d) eqn:G; [reflexivity|].
  exfalso. exact (get_none_not_in k d G v Hin).
Qed.

Lemma nodup_in_get {V} (d : Py.dict V) k v :
  NoDup (Py.keys d) -> In (k, v) d -> Py.get k d = Some v.
Proof.
  induction d as [|[k0 v0] r IH]; simpl; [tauto|].
  intros Hnd [H|H].
  - injection H as -> ->. now rewrite String.eqb_refl.
  - inversion Hnd as [|? ? Hnotin Hnd']; subst.
    destruct (String.eqb_spec k k0) as [->|Hne].
    + exfalso. apply Hnotin. unfold Py.keys in *.
      change k0 with (fst (k0, v)). now apply in_map.
    + now apply IH.
Qed.

(** ** Timers *)

Lemma find_none_handle h (ts : list (nat * (datetime * FinishCallback))) :
  (forall x, ~ In (h, x) ts) ->
  find (fun t => Nat.eqb (fst t) h) ts = None.
Proof.
  induction ts as [|[h0 x0] r IH]; simpl; [reflexivity|].
  intros H. destruct (Nat.eqb_spec h0 h) as [->|Hne].
  - exfalso. apply (H x0). now left.
  - apply IH. intros x Hin. apply (H x). now right.
Qed.

Lemma disarm_gone h ts x : ~ In (h, x) (disarm h ts).
Proof.
  unfold disarm. intros H. apply filter_In in H. destruct H as [_ H].
  simpl in H. now rewrite Nat.eqb_refl in H.
Qed.

Lemma disarm_subset h ts x : In x (disarm h ts) -> In x ts.
Proof. unfold disarm. intros H. now apply filter_In in H. Qed.

Lemma timer_elapse_unarmed (E : Env) h w :
  (forall x, ~ In (h, x) (timers w)) ->
  timer_elapse E h w = (Returned tt, w).
Proof.
  intros H. unfold timer_elapse. now rewrite find_none_handle.
Qed.

(** a cleanup arms nothing *)
Lemma cleanup_timers_subset (E : Env) task_id w x :
  In x (timers (snd (_cleanup_task E task_id w))) -> In x (timers w).
Proof.
  unfold _cleanup_task, bind, modify.
  rewrite drop_handle_spec. simpl.
  destruct (Py.get task_id (state_listeners w)) as [h|]; simpl.
  - unfold unsub. simpl. destruct (unsub_raises E h); simpl; auto.
    unfold _update_sensor, modify; simpl.
    destruct (sensor w); simpl; apply disarm_subset.
  - unfold _update_sensor, modify; simpl. destruct (sensor w); auto.
Qed.

(** ** Cancelled and fired tasks stay away *)

(** a cancel that returns has disarmed the task's timer and armed
    nothing *)
Lemma cancel_disarms (E : Env) task_id silent reason w w' b h :
  Py.get task_id (scheduled_tasks w) = Some h ->
  async_cancel_action E task_id silent reason w = (Returned b, w') ->
  b = true
  /\ (forall x, ~ In (h, x) (timers w'))
  /\ (forall x, In x (timers w') -> In x (timers w)).
Proof.
  intros G. rewrite cancel_spec.
  unfold Py.has at 1. rewrite G. simpl.
  unfold invoke_handle. rewrite G. unfold unsub.
  destruct (unsub_raises E h); [discriminate|].
  set (w1 := with_timers _ _).
  pose proof (cleanup_timers_subset E task_id w1) as Hsub.
  destruct (_cleanup_task E task_id w1) as [[[]|e] w2]; [|discriminate].
  intros [= <- <-]. split; [reflexivity|]. simpl in Hsub. simpl. split.
  - intros x Hin. apply Hsub in Hin. subst w1. simpl in Hin.
    exact (disarm_gone h _ x Hin).
  - intros x Hin. apply Hsub in Hin. subst w1. simpl in Hin.
    now apply disarm_subset in Hin.
Qed.

(** X1: once a cancel has returned for an armed task, the timer that was
    armed for it does nothing when its time comes: the cancelled finish
    actions never run. *)
Theorem cancelled_task_never_fires
        (E : Env) (task_id : string) (silent : bool) (reason : string)
        (w w' : World) (b : bool) (h : nat) :
  Py.get task_id (scheduled_tasks w) = Some h ->
  async_cancel_action E task_id silent reason w = (Returned b, w') ->
  b = true /\ timer_elapse E h w' = (Returned tt, w').
Proof.
  intros G C.
  destruct (cancel_disarms E task_id silent reason w w' b h G C) as (Hb & Hg & _).
  split; [exact Hb|]. now apply timer_elapse_unarmed.
Qed.

Lemma cancelled_task_never_fires_witness :
  Py.get "t1" (scheduled_tasks armed_world) = Some 0%nat
  /\ async_cancel_action quiet_host "t1" false "user_request" armed_world
     = (Returned true,
        snd (async_cancel_action quiet_host "t1" false "user_request" armed_world))
  /\ calls (snd (timer_elapse quiet_host 0
                   (snd (async_cancel_action quiet_host "t1" false "user_request"
                                             armed_world)))) = [].
Proof.
  assert (G : Py.get "t1" (scheduled_tasks armed_world) = Some 0%nat)
    by reflexivity.
  assert (C : async_cancel_action quiet_host "t1" false "user_request" armed_world
              = (Returned true,
                 snd (async_cancel_action quiet_host "t1" false "user_request"
                                          armed_world)))
    by (vm_compute; reflexivity).
  split; [exact G|]. split; [exact C|].
  destruct (cancelled_task_never_fires quiet_host "t1" false "user_request"
              armed_world _ true 0%nat G C) as [_ H].
  rewrite H. reflexivity.
Defined.

(** X2: the timer callback is safe against its actions and its
    notification: whatever they do, it goes on to the cleanup of its
    task, and its outcome is the outcome of that cleanup.  When it
    returns, the task has no record in the store and no handle in the
    table, one TaskCompleted event was fired, whose counts add up to the
    size of the batch, and the timer does not fire again. *)
Theorem firing_always_cleans_up
        (E : Env) (h : nat) (w : World) (when : datetime) (cb : FinishCallback) :
  find (fun t => Nat.eqb (fst t) h) (timers w) = Some (h, (when, cb)) ->
  timer_elapse E h w
  = _cleanup_task E (cb_task_id cb)
      (batch_done E cb (with_timers (disarm h (timers w)) w))
  /\ forall w',
       timer_elapse E h w = (Returned tt, w') ->
       has_task (cb_task_id cb) w' = false
       /\ Py.has (cb_task_id cb) (scheduled_tasks w') = false
       /\ (exists s e,
             (s + e = List.length (cb_finish_actions cb))%nat
             /\ events w' = events w
                            ++ [TaskCompleted (cb_task_id cb)
                                              (cb_finish_actions cb) s e])
       /\ timer_elapse E h w' = (Returned tt, w').
Proof.
  intros F.
  assert (U : timer_elapse E h w
              = _cleanup_task E (cb_task_id cb)
                  (batch_done E cb (with_timers (disarm h (timers w)) w))).
  { unfold timer_elapse. rewrite F. apply execute_unfold. }
  split; [exact U|].
  intros w' H. rewrite U in H.
  set (w0 := batch_done E cb (with_timers (disarm h (timers w)) w)) in *.
  destruct (cleanup_returned E _ _ _ H) as [Hh Hs].
  destruct (cleanup_frame E (cb_task_id cb) w0) as [He _].
  pose proof (cleanup_timers_subset E (cb_task_id cb) w0) as Ht.
  rewrite H in He, Ht. simpl in He, Ht.
  split; [exact Hs|]. split; [exact Hh|]. split.
  - eexists. eexists. split; [apply batch_counts_total|].
    rewrite He. reflexivity.
  - apply timer_elapse_unarmed. intros x Hin.
    apply Ht in Hin. exact (disarm_gone h _ x Hin).
Qed.

(** ** The outcomes of cancel and schedule without state listeners *)



Lemma fired_host_fields (E : Env) cb w :
  timers (fired E cb w) = timers w /\ next_handle (fired E cb w) = next_handle w.
Proof.
  unfold fired, cleaned, sensor_refreshed, batch_done.
  destruct w as [sto pre sch lis [sen|] cal evs tms nxt uns]; simpl; auto.
Qed.


(** ** What a running coordinator keeps *)









Lemma restored_host_fields (E : Env) now task_id t w :
  timers (restored E now w (task_id, t))
  = (if overdue E now t then timers w
     else if rearmed E now t
          then timers w
               ++ [(next_handle w,
                    (or_default (aware_fire_time E t) 0,
                     callback_of task_id t (or_default (finish_actions t) [])))]
          else timers w)
  /\ next_handle (restored E now w (task_id, t))
     = (if overdue E now t then next_handle w
        else if rearmed E now t then S (next_handle w) else next_handle w).
Proof.
  unfold restored.
  destruct (overdue E now t).
  - apply fired_host_fields.
  - destruct (rearmed E now t); simpl; auto.
Qed.

Lemma steady_sensor_refreshed w : steady w -> steady (sensor_refreshed w).
Proof.
  unfold steady, converged, handles_fresh, has_task, sensor_refreshed.
  destruct (sensor w); simpl; auto.
Qed.

(** the recovery loop with the records [rest] still to visit: the table
    names the stored tasks already visited *)
Lemma restore_loop_steady (E : Env) now rest : forall w,
  NoDup (Py.keys rest) ->
  state_listeners w = [] ->
  handles_fresh w ->
  (forall k, Py.has k (scheduled_tasks w) = true
             <-> has_task k w = true /\ ~ In k (Py.keys rest)) ->
  (forall k, In k (Py.keys rest) -> has_task k w = true) ->
  steady (fold_left (restored E now) rest w).
Proof.
  induction rest as [|[k0 t0] rest IH]; intros w Hnd L F Hiff Hpend.
  - simpl. split; [exact L|]. split; [|exact F].
    intros k. specialize (Hiff k). simpl in Hiff.
    destruct (Py.has k (scheduled_tasks w)), (has_task k w); try reflexivity.
    + destruct Hiff as [H _]. destruct (H eq_refl) as [X _]. discriminate X.
    + destruct Hiff as [_ H]. apply H. auto.
  - change (fold_left (restored E now) ((k0, t0) :: rest) w)
      with (fold_left (restored E now) rest (restored E now w (k0, t0))).
    simpl in Hnd. inversion Hnd as [|? ? Hnotin Hnd']; subst.
    destruct (restored_fields E now k0 t0 w) as (Fl & Fs & Fh & _).
    destruct (restored_host_fields E now k0 t0 w) as (Ft & Fn).
    destruct F as [F1 F2].
    assert (Hk0 : has_task k0 w = true) by (apply Hpend; now left).
    assert (Hk0t : Py.has k0 (scheduled_tasks w) = false).
    { destruct (Py.has k0 (scheduled_tasks w)) eqn:Hh; [|reflexivity].
      apply Hiff in Hh. destruct Hh as [_ Hh]. exfalso. apply Hh. now left. }
    apply IH; clear IH.
    + exact Hnd'.
    + now rewrite Fl.
    + split.
      * intros k h. rewrite Fh, Fn.
        destruct (overdue E now t0).
        -- intros G. apply get_del_some in G. now apply (F1 k).
        -- destruct (rearmed E now t0).
           ++ destruct (String.eqb_spec k0 k) as [->|Hne].
              ** rewrite get_set_same. intros [= <-]. lia.
              ** rewrite get_set_other by exact Hne.
                 intros G. apply F1 in G. lia.
           ++ apply F1.
      * intros h x. rewrite Ft, Fn.
        destruct (overdue E now t0); [apply F2|].
        destruct (rearmed E now t0); [|apply F2].
        intros Hin. apply in_app_or in Hin. destruct Hin as [Hin|[Hin|[]]].
        -- apply F2 in Hin. lia.
        -- injection Hin as <- _. lia.
    + intros k. unfold has_task in *. rewrite Fh, Fs.
      specialize (Hiff k). simpl in Hiff.
      destruct (String.eqb_spec k k0) as [->|Hne].
      * destruct (overdue E now t0) eqn:O.
        -- rewrite (overdue_not_rearmed E now t0 O), !has_del_same.
           split; [discriminate|]. intros [H _]. discriminate H.
        -- destruct (rearmed E now t0).
           ++ rewrite has_set, String.eqb_refl. simpl. tauto.
           ++ rewrite has_del_same, Hk0t.
              split; [discriminate|]. intros [H _]. discriminate H.
      * assert (Hd : forall V (d : Py.dict V), Py.has k (Py.del k0 d) = Py.has k d).
        { intros V d. rewrite has_del.
          destruct (String.eqb_spec k k0); [congruence|reflexivity]. }
        assert (Hs : forall V (d : Py.dict V) v, Py.has k (Py.set k0 v d) = Py.has k d).
        { intros V d v. rewrite has_set.
          destruct (String.eqb_spec k k0); [congruence|reflexivity]. }
        destruct (overdue E now t0) eqn:O.
        -- rewrite (overdue_not_rearmed E now t0 O), !Hd.
           rewrite Hiff. intuition congruence.
        -- destruct (rearmed E now t0).
           ++ rewrite Hs. rewrite Hiff. intuition congruence.
           ++ rewrite Hd. rewrite Hiff. intuition congruence.
    + intros k Hin. unfold has_task in *. rewrite Fs.
      assert (Hne : k <> k0) by (intros ->; contradiction).
      destruct (rearmed E now t0).
      * apply Hpend. now right.
      * rewrite has_del.
        destruct (String.eqb_spec k k0); [congruence|].
        simpl. apply Hpend. now right.
Qed.

(** a record under an id whose every visited record is re-armed stays
    stored through the loop *)
Lemma restore_keeps_rearmed (E : Env) now k t items : forall w,
  (forall t', In (k, t') items -> rearmed E now t' = true) ->
  In (k, t) (store w) ->
  In (k, t) (store (fold_left (restored E now) items w)).
Proof.
  induction items as [|[k0 t0] rest IH]; intros w Hall Hin; [exact Hin|].
  change (fold_left (restored E now) ((k0, t0) :: rest) w)
    with (fold_left (restored E now) rest (restored E now w (k0, t0))).
  apply IH.
  - intros t' H. apply Hall. now right.
  - destruct (restored_fields E now k0 t0 w) as (_ & -> & _).
    destruct (rearmed E now t0) eqn:R; [exact Hin|].
    apply in_del. split; [exact Hin|].
    intros ->. rewrite Hall in R; [discriminate|now left].
Qed.

Lemma nodup_unique {V} (d : Py.dict V) k v v' :
  NoDup (Py.keys d) -> In (k, v) d -> In (k, v') d -> v = v'.
Proof.
  intros Hnd H1 H2.
  apply (nodup_in_get d k v Hnd) in H1.
  apply (nodup_in_get d k v' Hnd) in H2. congruence.
Qed.

(** X4: a recovery on a fresh coordinator that returns went past every
    stored record without an exception and leaves the coordinator steady:
    the timer table names exactly the tasks still stored (those
    re-armed), whatever mix of overdue, broken and future records the
    store held. *)
Theorem recovery_leaves_steady (E : Env) (now : datetime) (w w' : World) :
  NoDup (Py.keys (store w)) ->
  (forall h x, In (h, x) (timers w) -> (h < next_handle w)%nat) ->
  async_restore_tasks E now (new_coordinator w) = (Returned tt, w') ->
  (forall k t, In (k, t) (store w) -> stops_recovery E t = None)
  /\ steady w'
  /\ forall k, Py.has k (scheduled_tasks w') = true
               <-> exists t, In (k, t) (store w) /\ rearmed E now t = true.
Proof.
  intros Hnd Hf Hret.
  apply restore_tasks_returned in Hret; [|reflexivity].
  destruct Hret as [-> Hstop].
  split; [exact Hstop|].
  assert (S : steady (fold_left (restored E now) (store (new_coordinator w))
                                (new_coordinator w))).
  { apply restore_loop_steady.
    - exact Hnd.
    - reflexivity.
    - split; [intros k h G; discriminate G|exact Hf].
    - intros k. simpl. split; [discriminate|].
      intros [H Hn]. exfalso. apply Hn.
      unfold has_task, Py.has in H. simpl in H.
      destruct (Py.get k (store w)) eqn:G; [|discriminate].
      now apply get_in_keys with (v := t).
    - intros k Hin. unfold has_task. simpl.
      unfold Py.keys in Hin. apply in_map_iff in Hin.
      destruct Hin as ([k' t] & <- & Hin). now apply in_get_has with (v := t). }
  split; [now apply steady_sensor_refreshed|].
  intros k.
  destruct (sensor_refreshed_fields
              (fold_left (restored E now) (store (new_coordinator w))
                         (new_coordinator w))) as (Rs & Rh & _).
  rewrite Rh. destruct S as (_ & C & _). rewrite C.
  unfold has_task. split.
  - intros H. unfold Py.has in H.
    destruct (Py.get k (store _)) as [t|] eqn:G; [|discriminate].
    assert (Hin : In (k, t) (store (fold_left (restored E now)
                                      (store (new_coordinator w))
                                      (new_coordinator w)))).
    { clear - G. revert G.
      generalize (store (fold_left (restored E now) (store (new_coordinator w))
                                   (new_coordinator w))).
      intros d. induction d as [|[k1 t1] r IH]; simpl; [discriminate|].
      destruct (String.eqb_spec k k1) as [->|Hne].
      - intros [= ->]. now left.
      - intros G. right. now apply IH. }
    apply restore_keeps in Hin. destruct Hin as [Hin Hall].
    exists t. split; [exact Hin|]. now apply Hall.
  - intros (t & Hin & R).
    apply in_get_has with (v := t).
    apply restore_keeps_rearmed; [|exact Hin].
    intros t' Hin'. simpl in Hin'.
    now rewrite <- (nodup_unique (store w) k t t' Hnd Hin Hin').
Qed.

(** ** Recovery of a task that is not due yet *)

(** records under other ids leave the handle and the timers of [task_id]
    alone *)
Lemma restore_others_timers (E : Env) now task_id items : forall w,
  ~ In task_id (Py.keys items) ->
  Py.get task_id (scheduled_tasks (fold_left (restored E now) items w))
  = Py.get task_id (scheduled_tasks w)
  /\ exists added,
       timers (fold_left (restored E now) items w) = timers w ++ added
       /\ filter (timer_of task_id) added = [].
Proof.
  induction items as [|[k t] rest IH]; intros w Hn.
  - simpl. split; [reflexivity|]. exists []. now rewrite app_nil_r.
  - simpl in Hn.
    assert (Hk : k <> task_id) by tauto.
    assert (Hr : ~ In task_id (Py.keys rest)) by tauto.
    change (fold_left (restored E now) ((k, t) :: rest) w)
      with (fold_left (restored E now) rest (restored E now w (k, t))).
    destruct (IH (restored E now w (k, t)) Hr) as (-> & added & -> & Hf).
    destruct (restored_fields E now k t w) as (_ & _ & -> & _).
    destruct (restored_host_fields E now k t w) as (-> & _).
    split.
    + destruct (overdue E now t); [now apply get_del_other|].
      destruct (rearmed E now t); [now apply get_set_other|reflexivity].
    + destruct (overdue E now t); [eauto|].
      destruct (rearmed E now t); [|eauto].
      eexists. split; [rewrite <- app_assoc; reflexivity|].
      simpl. unfold timer_of at 1. simpl.
      apply String.eqb_neq in Hk. now rewrite Hk.
Qed.

(** recovery fires no event but TaskCompleted *)
Lemma restore_events_completed (E : Env) now items : forall w,
  exists evs,
    events (fold_left (restored E now) items w) = events w ++ evs
    /\ forallb is_completed evs = true.
Proof.
  induction items as [|[k t] rest IH]; intros w.
  - exists []. simpl. now rewrite app_nil_r.
  - change (fold_left (restored E now) ((k, t) :: rest) w)
      with (fold_left (restored E now) rest (restored E now w (k, t))).
    destruct (IH (restored E now w (k, t))) as (evs & -> & Hf).
    destruct (restored_fields E now k t w) as (_ & _ & _ & ->).
    eexists. split; [rewrite <- app_assoc; reflexivity|].
    rewrite forallb_app, Hf. now destruct (overdue E now t).
Qed.

Lemma future_is_rearmed (E : Env) now t ft :
  fire_time E t = Returned (Some (Aware ft)) -> now < ft ->
  or_default (finish_actions t) [] <> [] ->
  rearmed E now t = true /\ overdue E now t = false.
Proof.
  intros Hft Hlt Hfa. unfold rearmed, overdue.
  apply aware_fire_time_some in Hft. rewrite Hft.
  destruct (or_default (finish_actions t) []); [congruence|].
  simpl. destruct (Z.leb_spec ft now); [lia|auto].
Qed.

(** what a recovery that returns has done for a stored task that is not
    due yet *)
Lemma restore_rearms (E : Env) now w w' task_id t ft :
  NoDup (Py.keys (store w)) ->
  In (task_id, t) (store w) ->
  fire_time E t = Returned (Some (Aware ft)) ->
  now < ft ->
  or_default (finish_actions t) [] <> [] ->
  async_restore_tasks E now (new_coordinator w) = (Returned tt, w') ->
  In (task_id, t) (store w')
    /\ (exists h added,
          Py.get task_id (scheduled_tasks w') = Some h
          /\ timers w' = timers w ++ added
          /\ filter (timer_of task_id) added
             = [(h, (ft, callback_of task_id t
                                     (or_default (finish_actions t) [])))])
    /\ exists evs,
         events w' = events w ++ evs
         /\ forallb is_completed evs = true
         /\ filter (is_completed_for task_id) evs = [].
Proof.
  intros Hnd Hin Hft Hlt Hfa Hret.
  destruct (future_is_rearmed E now t ft Hft Hlt Hfa) as [R O].
  apply restore_tasks_returned in Hret; [|reflexivity].
  destruct Hret as [-> _].
  apply aware_fire_time_some in Hft.
  set (w0 := new_coordinator w).
  change (store w0) with (store w).
  destruct (sensor_refreshed_fields (fold_left (restored E now) (store w) w0))
    as (Rs & Rh & _ & Re & _).
  assert (Rt : timers (sensor_refreshed (fold_left (restored E now) (store w) w0))
               = timers (fold_left (restored E now) (store w) w0)).
  { unfold sensor_refreshed. now destruct (sensor _). }
  rewrite Rs, Rh, Re, Rt. split; [|split].
  - apply restore_keeps_rearmed; [|exact Hin].
    intros t' Hin'. now rewrite <- (nodup_unique (store w) task_id t t' Hnd Hin Hin').
  - destruct (in_split _ _ Hin) as (pre & post & Hsplit).
    rewrite Hsplit in Hnd. apply nodup_keys_split in Hnd.
    destruct Hnd as [Hpre Hpost].
    rewrite Hsplit, fold_left_app.
    change (fold_left (restored E now) ((task_id, t) :: post)
                      (fold_left (restored E now) pre w0))
      with (fold_left (restored E now) post
              (restored E now (fold_left (restored E now) pre w0) (task_id, t))).
    destruct (restore_others_timers E now task_id pre w0 Hpre)
      as (Ga & adda & Ta & Fa).
    set (wa := fold_left (restored E now) pre w0) in *.
    destruct (restored_fields E now task_id t wa) as (_ & _ & Fh & _).
    destruct (restored_host_fields E now task_id t wa) as (Ft & _).
    rewrite O, R in Fh, Ft. rewrite Hft in Ft.
    change (or_default (Some ft) 0) with ft in Ft.
    set (wb := restored E now wa (task_id, t)) in *.
    destruct (restore_others_timers E now task_id post wb Hpost)
      as (Gc & addc & Tc & Fc).
    exists (next_handle wa).
    exists (adda ++ [(next_handle wa,
                      (ft, callback_of task_id t (or_default (finish_actions t) [])))]
                 ++ addc).
    split; [rewrite Gc, Fh; apply get_set_same|]. split.
    + rewrite Tc, Ft, Ta. change (timers w0) with (timers w).
      now rewrite <- !app_assoc.
    + rewrite !filter_app, Fa, Fc. simpl. unfold timer_of. simpl.
      now rewrite String.eqb_refl.
  - destruct (restore_events_completed E now (store w) w0) as (evs & Hev & Hall).
    exists evs. change (events w0) with (events w) in Hev.
    split; [exact Hev|]. split; [exact Hall|].
    destruct (in_split _ _ Hin) as (pre & post & Hsplit).
    rewrite Hsplit in Hnd. apply nodup_keys_split in Hnd.
    destruct Hnd as [Hpre Hpost].
    rewrite Hsplit, fold_left_app in Hev.
    change (fold_left (restored E now) ((task_id, t) :: post)
                      (fold_left (restored E now) pre w0))
      with (fold_left (restored E now) post
              (restored E now (fold_left (restored E now) pre w0) (task_id, t)))
      in Hev.
    destruct (restore_others E now task_id pre w0 Hpre) as (_ & _ & eva & Ea & Fa).
    cbv zeta in Ea.
    set (wa := fold_left (restored E now) pre w0) in *.
    destruct (restored_fields E now task_id t wa) as (_ & _ & _ & Fe).
    rewrite O, app_nil_r in Fe.
    set (wb := restored E now wa (task_id, t)) in *.
    destruct (restore_others E now task_id post wb Hpost) as (_ & _ & evc & Ec & Fc).
    cbv zeta in Ec.
    rewrite Ec, Fe, Ea in Hev. change (events w0) with (events w) in Hev.
    rewrite <- app_assoc in Hev. apply app_inv_head in Hev. subst evs.
    now rewrite filter_app, Fa, Fc.
Qed.

(** X5: a recovery that returns has re-armed a stored task that is not
    due yet: its record stays as it was, exactly one timer is armed for
    it, at its fire time and with its own finish actions, its handle is
    in the table, and recovery fires no TaskStarted and no TaskCompleted
    for it. *)
Theorem recovery_rearms_future_task
        (E : Env) (now : datetime) (w w' : World)
        (task_id : string) (t : Task) (ft : datetime) :
  NoDup (Py.keys (store w)) ->
  In (task_id, t) (store w) ->
  fire_time E t = Returned (Some (Aware ft)) ->
  now < ft ->
  or_default (finish_actions t) [] <> [] ->
  async_restore_tasks E now (new_coordinator w) = (Returned tt, w') ->
  In (task_id, t) (store w')
  /\ (exists h added,
        Py.get task_id (scheduled_tasks w') = Some h
        /\ timers w' = timers w ++ added
        /\ filter (timer_of task_id) added
           = [(h, (ft, callback_of task_id t
                                   (or_default (finish_actions t) [])))])
  /\ exists evs,
       events w' = events w ++ evs
       /\ forallb is_completed evs = true
       /\ filter (is_completed_for task_id) evs = [].
Proof. apply restore_rearms. Qed.

(** X6: shutdown is not cancellation: a shutdown empties the timer table
    and keeps the store, and a restart's recovery that returns has found
    every stored task that is not due yet and armed it again at its fire
    time. *)
Theorem shutdown_then_restart_rearms
        (E : Env) (now : datetime) (w w' : World)
        (task_id : string) (t : Task) (ft : datetime) :
  NoDup (Py.keys (store w)) ->
  In (task_id, t) (store w) ->
  fire_time E t = Returned (Some (Aware ft)) ->
  now < ft ->
  or_default (finish_actions t) [] <> [] ->
  async_restore_tasks E now (new_coordinator (shut_down E w))
  = (Returned tt, w') ->
  async_shutdown E w = (Returned tt, shut_down E w)
  /\ scheduled_tasks (shut_down E w) = []
  /\ In (task_id, t) (store w')
  /\ exists h,
       Py.get task_id (scheduled_tasks w') = Some h
       /\ In (h, (ft, callback_of task_id t (or_default (finish_actions t) [])))
             (timers w').
Proof.
  intros Hnd Hin Hft Hlt Hfa Hret.
  assert (Hs : store (shut_down E w) = store w) by reflexivity.
  destruct (restore_rearms E now (shut_down E w) w' task_id t ft)
    as (Hst & (h & added & Hg & Ht & Hf) & _);
    try (rewrite Hs); auto.
  split; [apply shutdown_spec|]. split; [reflexivity|].
  split; [exact Hst|].
  exists h. split; [exact Hg|].
  rewrite Ht. apply in_or_app. right.
  assert (Hm : In (h, (ft, callback_of task_id t (or_default (finish_actions t) [])))
                  (filter (timer_of task_id) added))
    by (rewrite Hf; now left).
  now apply filter_In in Hm.
Qed.

(** ** Schedule over an armed task, and schedule followed by cancel *)

Lemma find_app_none {A} (f : A -> bool) l1 l2 :
  find f l1 = None -> find f (l1 ++ l2) = find f l2.
Proof.
  induction l1 as [|a r IH]; simpl; [reflexivity|].
  destruct (f a); [discriminate|exact IH].
Qed.

Lemma cancel_calls_are_notifications silent task task_id reason :
  forallb is_notification (cancel_calls silent task task_id reason) = true.
Proof.
  unfold cancel_calls, notification_calls.
  destruct task as [t|]; [|reflexivity].
  destruct (negb silent && _); [|reflexivity].
  destruct (match notify_ha t with Some b => b | None => _ end);
    destruct (truthy_devices (notify_devices t));
    destruct (or_default (notify_mobile t) false); reflexivity.
Qed.

(** X7: scheduling a task id that is already armed replaces the task:
    the superseded timer does nothing when its time comes, the table
    holds the new handle, whose timer runs the new finish actions, the
    store holds the new record, and the events are the TaskCancelled of
    the old task followed by the TaskStarted of the new one. *)
Theorem reschedule_supersedes
        (E : Env) (now : datetime) (task_id : string) (delay : Z) (unit : Unit)
        (fa : list Action) (sa : option (list Action)) (n nha nm : bool)
        (nd : option (list string)) (at_ : option string) (tm : TimeMode)
        (label : option string) (w w' : World) (h : nat)
        (st : datetime) (ds : Z) :
  Py.get task_id (scheduled_tasks w) = Some h ->
  handles_fresh w ->
  compute_fire_time now delay unit at_ tm = inr (st, ds) ->
  async_schedule_action E now task_id delay unit fa sa n nha nm nd at_ tm
                        label w = (Returned tt, w') ->
  timer_elapse E h w' = (Returned tt, w')
  /\ Py.get task_id (scheduled_tasks w') = Some (next_handle w)
  /\ timer_elapse E (next_handle w) w'
     = execute_finish_actions E (mkCallback task_id fa n nha nm nd label)
         (with_timers (disarm (next_handle w) (timers w')) w')
  /\ (exists t, Py.get task_id (store w') = Some t
                /\ finish_actions t = Some fa
                /\ end_time t = Some (isoformat E st))
  /\ events w'
     = events w ++ [TaskCancelled task_id "user_request";
                    TaskStarted task_id (or_default sa []) fa
                                (isoformat E now) (isoformat E st) ds].
Proof.
  intros G [F1 F2] Hc. rewrite schedule_spec, Hc.
  pose proof (cancel_next_handle E task_id true "user_request" w) as Hn.
  destruct (async_cancel_action E task_id true "user_request" w)
    as [[b|e] w1] eqn:C; [|discriminate].
  simpl in Hn. intros [= <-].
  destruct (cancel_disarms E task_id true "user_request" w w1 b h G C)
    as (-> & Hgone & Hsub).
  apply cancel_returned in C.
  destruct C as [(Hb & _) | (_ & _ & Hev & _)]; [discriminate|].
  destruct (scheduled_fields E now task_id delay unit fa sa n nha nm nd
                             at_ tm label st ds w1) as (Se & _ & Ss & Sh & St).
  rewrite Hn in *.
  assert (Hlt : (h < next_handle w)%nat) by now apply (F1 task_id).
  split; [|split; [|split; [|split]]].
  - apply timer_elapse_unarmed. intros x. rewrite St. intros Hin.
    apply in_app_or in Hin. destruct Hin as [Hin|[Hin|[]]].
    + exact (Hgone x Hin).
    + injection Hin as Hh _. lia.
  - rewrite Sh. apply get_set_same.
  - unfold timer_elapse. rewrite St.
    rewrite find_app_none.
    + simpl. rewrite Nat.eqb_refl. now rewrite <- St.
    + apply find_none_handle. intros x Hin. apply Hsub in Hin.
      apply F2 in Hin. lia.
  - eexists. split; [rewrite Ss; apply get_set_same|]. simpl. auto.
  - rewrite Se, Hev, <- app_assoc. reflexivity.
Qed.

(** X8: a schedule followed by a cancel of the same task id: the cancel
    returns true, makes no call to the host other than delivery attempts
    (so no finish action runs), leaves neither record nor handle, and the
    timer armed by the schedule does nothing when its time comes. *)
Theorem schedule_then_cancel_runs_nothing
        (E : Env) (now : datetime) (task_id : string) (delay : Z) (unit : Unit)
        (fa : list Action) (sa : option (list Action)) (n nha nm : bool)
        (nd : option (list string)) (at_ : option string) (tm : TimeMode)
        (label : option string) (silent : bool) (reason : string)
        (w w' w'' : World) (st : datetime) (ds : Z) (b : bool) :
  compute_fire_time now delay unit at_ tm = inr (st, ds) ->
  async_schedule_action E now task_id delay unit fa sa n nha nm nd at_ tm
                        label w = (Returned tt, w') ->
  async_cancel_action E task_id silent reason w' = (Returned b, w'') ->
  b = true
  /\ has_task task_id w'' = false
  /\ Py.has task_id (scheduled_tasks w'') = false
  /\ (exists l, calls w'' = calls w' ++ l /\ forallb is_notification l = true)
  /\ events w'' = events w' ++ [TaskCancelled task_id reason]
  /\ exists h, Py.get task_id (scheduled_tasks w') = Some h
               /\ timer_elapse E h w'' = (Returned tt, w'').
Proof.
  intros Hc. rewrite schedule_spec, Hc.
  destruct (async_cancel_action E task_id true "user_request" w)
    as [[b0|e] w1]; [|discriminate].
  intros [= <-] C.
  destruct (scheduled_fields E now task_id delay unit fa sa n nha nm nd
                             at_ tm label st ds w1) as (_ & _ & _ & Sh & _).
  assert (G : Py.get task_id
                (scheduled_tasks (scheduled E now task_id delay unit fa sa n nha
                                            nm nd at_ tm label st ds w1))
              = Some (next_handle w1)) by (rewrite Sh; apply get_set_same).
  destruct (cancel_disarms E task_id silent reason _ w'' b _ G C)
    as (-> & Hgone & _).
  apply cancel_returned in C.
  destruct C as [(Hb & _) | (_ & _ & Hev & (w0 & _ & Hcalls) & H1 & H2)];
    [discriminate|].
  split; [reflexivity|]. split; [exact H2|]. split; [exact H1|].
  split; [eexists; split; [exact Hcalls|apply cancel_calls_are_notifications]|].
  split; [exact Hev|].
  exists (next_handle w1). split; [exact G|].
  now apply timer_elapse_unarmed.
Qed.

(** X9: the start actions of a schedule are each attempted once, in
    order, and one that raises stops neither the others nor the loop:
    the loop over them returns whatever they raise.  When the schedule
    returns, their calls are the calls it made, the task is stored and
    armed and exactly one TaskStarted is fired, carrying the stored
    times. *)
Theorem start_actions_never_block_schedule
        (E : Env) (now : datetime) (task_id : string) (delay : Z) (unit : Unit)
        (fa : list Action) (sa : option (list Action)) (n nha nm : bool)
        (nd : option (list string)) (at_ : option string) (tm : TimeMode)
        (label : option string) (w w1 w' : World) (b : bool)
        (st : datetime) (ds : Z) :
  async_cancel_action E task_id true "user_request" w = (Returned b, w1) ->
  compute_fire_time now delay unit at_ tm = inr (st, ds) ->
  async_schedule_action E now task_id delay unit fa sa n nha nm nd at_ tm
                        label w = (Returned tt, w') ->
  (forall w0,
     for_each (or_default sa [])
       (fun action_def =>
          try_except (_execute_action_definition E action_def)
                     (fun _ => ret tt)) w0
     = (Returned tt, with_calls (calls w0 ++ batch_calls (or_default sa [])) w0))
  /\ calls w' = calls w1 ++ batch_calls (or_default sa [])
  /\ events w' = events w1 ++ [TaskStarted task_id (or_default sa []) fa
                                 (isoformat E now) (isoformat E st) ds]
  /\ (exists t, Py.get task_id (store w') = Some t
                /\ start_actions t = or_default sa []
                /\ finish_actions t = Some fa
                /\ scheduled_time t = Some (isoformat E now)
                /\ end_time t = Some (isoformat E st)
                /\ delay_seconds t = ds)
  /\ Py.get task_id (scheduled_tasks w') = Some (next_handle w1)
  /\ timers w' = timers w1 ++ [(next_handle w1,
                                (st, mkCallback task_id fa n nha nm nd label))].
Proof.
  intros C Hc Hret. rewrite schedule_spec, C, Hc in Hret.
  injection Hret as <-.
  split; [intros w0; apply start_loop_spec|].
  destruct (scheduled_fields E now task_id delay unit fa sa n nha nm nd
                             at_ tm label st ds w1) as (Se & Sc & Ss & Sh & St).
  split; [exact Sc|]. split; [exact Se|]. split.
  - eexists. split; [rewrite Ss; apply get_set_same|]. simpl. auto 10.
  - split; [rewrite Sh; apply get_set_same|exact St].
Qed.

(** ** The sensor follows the store *)






(** * Properties of the service handlers and the legacy executor *)

(** X11: a run_action request that brings no finish actions and either
    no legacy action and no legacy service, or no entity id, changes
    nothing at all: no task is cancelled, stored or armed and nothing is
    called. *)
Theorem run_action_rejects_incomplete_request
        (E : Env) (task_digest : list Action -> string) (now : datetime)
        (d : RunActionData) (w : World) :
  ra_finish_actions d = None \/ ra_finish_actions d = Some [] ->
  (truthy_opt (ra_action d) = false /\ truthy_opt (ra_service d) = false)
  \/ truthy_opt (ra_entity_id d) = false ->
  handle_run_action E task_digest now d w = (Returned tt, w).
Proof.
  intros Hfa Hmiss. unfold handle_run_action.
  assert (N : normalized_actions d = None).
  { unfold normalized_actions.
    destruct Hfa as [-> | ->];
      (destruct Hmiss as [[-> ->] | ->]; simpl; [reflexivity|];
       now destruct (negb _ && negb _)). }
  now rewrite N.
Qed.

(** X12: the two handlers choose the task id alike: a task started by
    run_action with a task id, or else an entity id, is the task that
    cancel_action with the same ids cancels: it is stored after the one
    and gone, record and handle, after the other. *)
Theorem cancel_action_finds_run_action_task
        (E : Env) (task_digest : list Action -> string) (now : datetime)
        (d : RunActionData) (w w' w'' : World)
        (sa : option (list Action)) (fa : list Action)
        (st : datetime) (ds : Z) :
  truthy_opt (ra_task_id d) = true \/ truthy_opt (ra_entity_id d) = true ->
  normalized_actions d = Some (sa, fa) ->
  compute_fire_time now (or_default (ra_delay d) 15)
                    (or_default (ra_unit d) UNIT_MINUTES) (ra_at_time d)
                    (or_default (ra_time_mode d) TIME_MODE_RELATIVE)
  = inr (st, ds) ->
  handle_run_action E task_digest now d w = (Returned tt, w') ->
  handle_cancel_action E (ra_task_id d) (ra_entity_id d) w' = (Returned tt, w'') ->
  let task_id := if truthy_opt (ra_task_id d)
                 then or_default (ra_task_id d) EmptyString
                 else or_default (ra_entity_id d) EmptyString in
  (exists t, Py.get task_id (store w') = Some t /\ finish_actions t = Some fa)
  /\ has_task task_id w'' = false
  /\ Py.has task_id (scheduled_tasks w'') = false
  /\ events w'' = events w' ++ [TaskCancelled task_id "user_request"].
Proof.
  intros Hid Hn Hc Hrun Hcancel task_id.
  unfold handle_run_action in Hrun. rewrite Hn in Hrun.
  assert (Hsame : (if truthy_opt (ra_task_id d)
                   then or_default (ra_task_id d) EmptyString
                   else if truthy_opt (ra_entity_id d)
                        then or_default (ra_entity_id d) EmptyString
                        else task_digest fa) = task_id).
  { subst task_id. destruct (truthy_opt (ra_task_id d)); [reflexivity|].
    destruct Hid as [H|H]; [discriminate|]. now rewrite H. }
  rewrite Hsame in Hrun.
  rewrite schedule_spec, Hc in Hrun.
  destruct (async_cancel_action E task_id true "user_request" w)
    as [[b0|e] w1]; [|discriminate].
  injection Hrun as <-.
  destruct (scheduled_fields E now task_id (or_default (ra_delay d) 15)
              (or_default (ra_unit d) UNIT_MINUTES) fa sa
              (or_default (ra_notify d) false)
              (or_default (ra_notify_ha d) false)
              (or_default (ra_notify_mobile d) false)
              (Some (or_default (ra_notify_devices d) []))
              (ra_at_time d) (or_default (ra_time_mode d) TIME_MODE_RELATIVE)
              (ra_task_label d) st ds w1) as (_ & _ & Ss & _).
  split.
  { eexists. split; [rewrite Ss; apply get_set_same|]. reflexivity. }
  unfold handle_cancel_action in Hcancel.
  assert (Hc_id : (if negb (truthy_opt (ra_task_id d)) && truthy_opt (ra_entity_id d)
                   then ra_entity_id d else ra_task_id d)
                  = (if truthy_opt (ra_task_id d) then ra_task_id d
                     else ra_entity_id d)).
  { destruct (truthy_opt (ra_task_id d)) eqn:T; simpl; [reflexivity|].
    destruct Hid as [H|H]; [discriminate|]. now rewrite H. }
  rewrite Hc_id in Hcancel.
  assert (Htruthy : truthy_opt (if truthy_opt (ra_task_id d) then ra_task_id d
                                else ra_entity_id d) = true).
  { destruct (truthy_opt (ra_task_id d)) eqn:T; [exact T|].
    destruct Hid as [H|H]; [discriminate|exact H]. }
  rewrite Htruthy in Hcancel. simpl in Hcancel.
  assert (Hor : or_default (if truthy_opt (ra_task_id d) then ra_task_id d
                            else ra_entity_id d) EmptyString = task_id).
  { subst task_id. now destruct (truthy_opt (ra_task_id d)). }
  rewrite Hor in Hcancel.
  apply bind_returned in Hcancel. destruct Hcancel as (b & w2 & C & Hret).
  unfold ret in Hret. injection Hret as <-.
  apply cancel_returned in C.
  destruct C as [(_ & _ & _ & Habs) | (_ & _ & Hev & _ & H1 & H2)].
  - exfalso. unfold has_task, Py.has in Habs.
    rewrite Ss, get_set_same in Habs. discriminate.
  - auto.
Qed.

(** X13: the two places that turn a legacy action into a service agree
    wherever the legacy executor stays on the entity's own domain and sends
    no extra data: for every action that is not a set_hvac_mode_ action
    and that [_map_legacy_action] maps to the entity's domain, run_action
    schedules exactly the service the legacy executor would call. *)
Theorem legacy_mappings_agree (entity_id action : string) :
  String.prefix "set_hvac_mode_" action = false ->
  fst (fst (_map_legacy_action entity_id action)) = domain_of entity_id ->
  legacy_finish_service entity_id (Some action) None
  = (fst (fst (_map_legacy_action entity_id action)) ++ "."
     ++ snd (fst (_map_legacy_action entity_id action)))%string
  /\ snd (_map_legacy_action entity_id action) = [].
Proof.
  intros Hp. unfold legacy_finish_service, _map_legacy_action.
  simpl truthy_opt. cbv iota. simpl or_default.
  rewrite Hp.
  destruct (str_among action ["on"; "turn_on"]); [auto|].
  destruct (str_among action ["off"; "turn_off"]); [auto|].
  replace (str_among action ["toggle"]) with (String.eqb action "toggle")
    by (unfold str_among; simpl; now rewrite orb_false_r).
  destruct (String.eqb action "toggle"); [auto|].
  destruct (str_among action ["open_cover"; "close_cover"; "stop_cover"]);
    [simpl; intros <-; auto|].
  destruct (str_among action ["media_play"; "media_stop"]);
    [simpl; intros <-; auto|].
  destruct (str_among action ["start"; "return_to_base"]);
    [simpl; intros <-; auto|].
  auto.
Qed.

(** X14: the legacy executor never raises and calls the host at most
    once; with neither service nor action it calls nothing; and whatever
    service_data holds, the data of its call names the entity it was
    given. *)
Theorem legacy_executor_is_safe
        (E : Env) (ATTR_ENTITY_ID entity_id : string)
        (action service : option string) (service_data : option mapping)
        (w : World) :
  exists l,
    _execute_action E ATTR_ENTITY_ID entity_id action service service_data w
    = (Returned tt, with_calls (calls w ++ l) w)
    /\ (List.length l <= 1)%nat
    /\ (truthy_opt service = false -> truthy_opt action = false -> l = [])
    /\ (truthy_opt service = true ->
        exists svc_domain svc_name call_data,
          l = [ServiceCall svc_domain svc_name (Some call_data) None]
          /\ Py.get ATTR_ENTITY_ID call_data = Some entity_id
          /\ (Py.contains "." (or_default service EmptyString) = false ->
              svc_domain = domain_of entity_id
              /\ svc_name = or_default service EmptyString)).
Proof.
  unfold _execute_action.
  set (cd := Py.set ATTR_ENTITY_ID entity_id _).
  destruct (truthy_opt service) eqn:Ts.
  - set (svc := or_default service EmptyString).
    destruct (Py.contains "." svc) eqn:Hdot.
    + eexists. split.
      * unfold try_except. rewrite async_call_spec.
        destruct (svc_raises E (calls w) _); reflexivity.
      * split; [simpl; lia|]. split; [discriminate|].
        intros _. eexists. eexists. exists cd.
        split; [reflexivity|]. split; [apply get_set_same|discriminate].
    + eexists. split.
      * unfold try_except. rewrite async_call_spec.
        destruct (svc_raises E (calls w) _); reflexivity.
      * split; [simpl; lia|]. split; [discriminate|].
        intros _. eexists. eexists. exists cd.
        split; [reflexivity|]. split; [apply get_set_same|auto].
  - destruct (truthy_opt action) eqn:Ta.
    + eexists. split.
      * unfold try_except. rewrite async_call_spec.
        destruct (svc_raises E (calls w) _); reflexivity.
      * split; [simpl; lia|]. split; [discriminate|discriminate].
    + exists []. split; [cbv iota; unfold ret; now rewrite (with_calls_nil w)|].
      split; [simpl; lia|]. split; [reflexivity|discriminate].
Qed.

(** X15: a legacy request whose service has no [.] is accepted and
    scheduled, but its finish action is one the timer callback skips:
    when the timer fires nothing is called and the action is counted as a
    success, although the legacy executor would call that service on the
    entity's domain. *)
Theorem dotless_legacy_service_is_skipped
        (E : Env) (d : RunActionData) (entity_id service : string) :
  ra_finish_actions d = None \/ ra_finish_actions d = Some [] ->
  ra_service d = Some service ->
  Py.truthy_str service = true ->
  Py.contains "." service = false ->
  ra_entity_id d = Some entity_id ->
  Py.truthy_str entity_id = true ->
  or_default (ra_run_now d) false = false ->
  exists a,
    normalized_actions d = Some (ra_start_actions d, [a])
    /\ act_service a = Some (PStr service)
    /\ malformed a
    /\ (forall w, run_finish_actions E [a] (0, 0)%nat w = (Returned (1, 0)%nat, w))
    /\ forall attr w,
         calls (snd (_execute_action E attr entity_id None (Some service)
                                     (ra_service_data d) w))
         = calls w
           ++ [ServiceCall (domain_of entity_id) service
                 (Some (Py.set attr entity_id
                               (match ra_service_data d with
                                | Some m => if Py.truthy_list m then m else []
                                | None => []
                                end)))
                 None].
Proof.
  intros Hfa Hs Ht Hdot He Hte Hrn.
  assert (Hsvc : legacy_finish_service entity_id (ra_action d) (ra_service d)
                 = service).
  { unfold legacy_finish_service. rewrite Hs. simpl. now rewrite Ht. }
  set (a := mkAction (Some (PStr service)) (Some [("entity_id", entity_id)])
                     (Some (if Py.truthy_list (or_default (ra_service_data d) [])
                            then or_default (ra_service_data d) [] else []))).
  assert (Hm : malformed a) by exact Hdot.
  exists a. split; [|split; [|split; [|split]]].
  - unfold normalized_actions.
    assert (Tsvc : truthy_opt (ra_service d) = true) by (rewrite Hs; exact Ht).
    assert (Tent : truthy_opt (ra_entity_id d) = true) by (rewrite He; exact Hte).
    destruct Hfa as [-> | ->]; rewrite Tsvc, Tent, Hrn, andb_false_r; simpl;
      rewrite He; simpl; rewrite Hsvc; reflexivity.
  - reflexivity.
  - exact Hm.
  - intros w. rewrite run_finish_actions_spec. simpl.
    unfold action_fails, batch_calls, attempts. simpl.
    rewrite (malformed_no_service_error a Hm), (malformed_no_attempt a Hm).
    simpl. rewrite ?app_nil_r. now rewrite with_calls_same.
  - intros attr w. unfold _execute_action. simpl. rewrite Ht, Hdot.
    unfold try_except. rewrite async_call_spec.
    destruct (svc_raises E (calls w) _); reflexivity.
Qed.

(** * Properties of the sensor's preset parser *)

Lemma preset_ints_none fields :
  preset_ints fields = None
  <-> exists x, In x fields /\ Py.truthy_str (str_strip x) = true
                /\ Py.int (str_strip x) = None.
Proof.
  induction fields as [|x rest IH]; simpl.
  - split; [discriminate|]. intros (x & [] & _).
  - destruct (Py.truthy_str (str_strip x)) eqn:T.
    + destruct (Py.int (str_strip x)) as [n|] eqn:I.
      * destruct (preset_ints rest) as [l|]; simpl.
        -- split; [discriminate|].
           intros (y & [<-|Hin] & Ty & Iy); [congruence|].
           destruct IH as [_ IH]. discriminate IH. eauto.
        -- split; [|reflexivity]. intros _.
           destruct IH as [IH _]. destruct (IH eq_refl) as (y & Hin & Hy).
           exists y. auto.
      * split; [|reflexivity]. intros _. exists x. auto.
    + rewrite IH. split.
      * intros (y & Hin & Hy). exists y. auto.
      * intros (y & [<-|Hin] & Ty & Iy); [congruence|]. exists y. auto.
Qed.

Lemma preset_ints_some fields l :
  preset_ints fields = Some l ->
  map Some l
  = map (fun x => Py.int (str_strip x))
        (filter (fun x => Py.truthy_str (str_strip x)) fields).
Proof.
  revert l. induction fields as [|x rest IH]; intros l; simpl.
  - now intros [= <-].
  - destruct (Py.truthy_str (str_strip x)).
    + destruct (Py.int (str_strip x)) as [n|] eqn:I; [|discriminate].
      destruct (preset_ints rest) as [l'|]; [|discriminate].
      simpl. intros [= <-]. simpl. rewrite I. f_equal. now apply IH.
    + apply IH.
Qed.

(** X16: the preset parser is all or nothing: blank fields are skipped;
    when every other field is an integer the result lists those integers
    in order, one per field; as soon as one field is neither blank nor an
    integer the result is the empty list, the good fields included. *)
Theorem parse_presets_all_or_nothing (preset_string : string) :
  ((forall x, In x (preset_fields preset_string) -> Py.int (str_strip x) <> None) ->
   map Some (_parse_presets preset_string)
   = map (fun x => Py.int (str_strip x)) (preset_fields preset_string))
  /\ ((exists x, In x (preset_fields preset_string)
                 /\ Py.int (str_strip x) = None) ->
      _parse_presets preset_string = []).
Proof.
  unfold _parse_presets, preset_fields. split.
  - intros Hall.
    destruct (preset_ints (Py.split "," preset_string)) as [l|] eqn:P.
    + now apply preset_ints_some.
    + apply preset_ints_none in P. destruct P as (x & Hin & T & I).
      exfalso. apply (Hall x); [|exact I].
      apply filter_In. auto.
  - intros (x & Hin & I). apply filter_In in Hin. destruct Hin as [Hin T].
    assert (P : preset_ints (Py.split "," preset_string) = None)
      by (apply preset_ints_none; eauto).
    now rewrite P.
Qed.

(** * Properties of the card resource *)

Lemma card_url_is_card version timestamp :
  str_in URL_BASE (card_url version timestamp) = true
  /\ str_in "/quick_timer_static/" (card_url version timestamp) = true.
Proof. split; reflexivity. Qed.

(** after an update, the first card resource carries the new URL *)
Lemma find_after_update url rs : forall installed,
  str_in URL_BASE url = true ->
  find is_card rs = Some installed ->
  exists r, find is_card (async_update_item (res_id installed) url rs) = Some r
            /\ res_url r = url.
Proof.
  induction rs as [|r0 rest IH]; intros installed Hurl; simpl; [discriminate|].
  destruct (is_card r0) eqn:C0.
  - intros [= <-]. rewrite String.eqb_refl. simpl.
    unfold is_card at 1. simpl. rewrite Hurl. eauto.
  - intros F. destruct (String.eqb (res_id r0) (res_id installed)).
    + unfold is_card at 1. simpl. rewrite Hurl. eauto.
    + rewrite C0. now apply IH.
Qed.

Lemma update_length id url rs : List.length (async_update_item id url rs) = List.length rs.
Proof. unfold async_update_item. apply length_map. Qed.

Lemma find_none_existsb {A} (f : A -> bool) l :
  find f l = None <-> existsb f l = false.
Proof.
  induction l as [|a r IH]; simpl; [tauto|].
  destruct (f a); simpl; [split; discriminate|exact IH].
Qed.

(** X17: registering the card keeps one Lovelace resource for it: when a
    card resource is there it is updated in place and none is added, when
    none is there exactly one is appended; afterwards a resource carries
    the current URL; registering again with the same version and time
    changes nothing; without Lovelace only the view is registered. *)
Theorem register_frontend_keeps_one_resource
        (version : option string) (timestamp : nat) (new_id : string)
        (f : Frontend) :
  let url := card_url (or_default version "0.0.0") timestamp in
  let f' := async_register_frontend version timestamp new_id f in
  views f' = views f ++ ["quick_timer:card"]
  /\ (lovelace f = None -> lovelace f' = None)
  /\ (forall rs,
        lovelace f = Some rs ->
        exists rs',
          lovelace f' = Some rs'
          /\ (exists r, In r rs' /\ res_url r = url)
          /\ (existsb is_card rs = true -> List.length rs' = List.length rs)
          /\ (existsb is_card rs = false ->
              rs' = rs ++ [mkResource new_id "module" url]))
  /\ forall new_id',
       lovelace (async_register_frontend version timestamp new_id' f')
       = lovelace f'.
Proof.
  intros url f'. subst f'. unfold async_register_frontend. fold url.
  destruct (card_url_is_card (or_default version "0.0.0") timestamp) as [Hc _].
  fold url in Hc.
  destruct (lovelace f) as [rs|] eqn:L; simpl.
  - fold is_card.
    destruct (find is_card rs) as [installed|] eqn:F.
    + pose proof (find_some _ _ F) as [Hin Hcard].
      assert (Hex : existsb is_card rs = true)
        by (apply existsb_exists; eauto).
      destruct (String.eqb_spec (res_url installed) url) as [Heq|Hne]; simpl.
      * split; [reflexivity|]. split; [discriminate|]. split.
        -- intros rs0 [= <-]. exists rs. split; [reflexivity|].
           split; [eauto|]. split; [reflexivity|]. congruence.
        -- intros new_id'. fold is_card. rewrite F.
           apply String.eqb_eq in Heq. now rewrite Heq.
      * split; [reflexivity|]. split; [discriminate|]. split.
        -- intros rs0 [= <-]. eexists. split; [reflexivity|]. split.
           ++ exists (mkResource (res_id installed) (res_type installed) url).
              split; [|reflexivity]. unfold async_update_item.
              apply in_map_iff. exists installed.
              now rewrite String.eqb_refl.
           ++ split; [intros _; apply update_length|congruence].
        -- intros new_id'. fold is_card.
           destruct (find_after_update url rs installed Hc F) as (r & -> & Hr).
           rewrite Hr, String.eqb_refl. reflexivity.
    + assert (Hex : existsb is_card rs = false) by now apply find_none_existsb.
      split; [reflexivity|]. split; [discriminate|]. split.
      * intros rs0 [= <-]. eexists. split; [reflexivity|]. split.
        -- exists (mkResource new_id "module" url).
           split; [|reflexivity]. unfold async_create_item.
           apply in_or_app. right. now left.
        -- split; [congruence|reflexivity].
      * intros new_id'. fold is_card. unfold async_create_item.
        cbn [lovelace].
        rewrite find_app_none by exact F. simpl.
        now rewrite String.eqb_refl.
  - split; [reflexivity|]. split; [reflexivity|]. split; [discriminate|].
    intros new_id'. reflexivity.
Qed.

(** the removal loop deletes the resources whose id is that of a card
    resource of the snapshot *)
Lemma remove_loop_spec items : forall cur,
  fold_left (fun cur res =>
               if str_in "/quick_timer_static/" (res_url res)
               then async_delete_item (res_id res) cur else cur)
            items cur
  = filter (fun r => negb (existsb (fun res => is_card_path res
                                               && String.eqb (res_id r) (res_id res))
                                   items)) cur.
Proof.
  induction items as [|res rest IH]; intros cur; simpl.
  - induction cur as [|r c IHc]; simpl; [reflexivity|]. now rewrite <- IHc.
  - rewrite IH. fold (is_card_path res).
    destruct (is_card_path res); simpl.
    + unfold async_delete_item.
      induction cur as [|r c IHc]; simpl; [reflexivity|].
      destruct (String.eqb (res_id r) (res_id res)); simpl; [exact IHc|].
      now rewrite IHc.
    + reflexivity.
Qed.

Lemma nodup_ids_unique (rs : list Resource) r r' :
  NoDup (map res_id rs) -> In r rs -> In r' rs -> res_id r = res_id r' -> r = r'.
Proof.
  induction rs as [|r0 rest IH]; simpl; [tauto|].
  intros Hnd H1 H2 Hid. inversion Hnd as [|? ? Hnotin Hnd']; subst.
  destruct H1 as [<-|H1], H2 as [<-|H2]; auto.
  - exfalso. apply Hnotin. rewrite Hid. now apply in_map.
  - exfalso. apply Hnotin. rewrite <- Hid. now apply in_map.
Qed.

(** X18: unloading the integration removes the card from Lovelace: after
    an unload whose platforms unloaded, the coordinator is shut down and
    no resource with the card's path is left, in particular none with a
    URL that registration writes; the resources left were there before,
    and when ids are unique every other resource is left; an unload whose
    platforms did not unload changes nothing. *)
Theorem unload_removes_card_resources
        (E : Env) (w : World) (f : Frontend) (rs : list Resource) :
  lovelace f = Some rs ->
  (exists rs',
     async_unload_entry E true w f
     = (Returned true, shut_down E w, mkFrontend (views f) (Some rs'))
     /\ (forall r, In r rs' ->
                   In r rs /\ is_card_path r = false
                   /\ forall version timestamp,
                        res_url r <> card_url version timestamp)
     /\ (NoDup (map res_id rs) ->
         rs' = filter (fun r => negb (is_card_path r)) rs))
  /\ async_unload_entry E false w f = (Returned false, w, f).
Proof.
  intros L. split; [|reflexivity].
  unfold async_unload_entry. rewrite shutdown_spec, L. simpl.
  eexists. split; [reflexivity|].
  unfold remove_card_resources. rewrite remove_loop_spec.
  split.
  - intros r Hin. apply filter_In in Hin. destruct Hin as [Hin Hmark].
    split; [exact Hin|].
    assert (Hc : is_card_path r = false).
    { destruct (is_card_path r) eqn:C; [|reflexivity].
      exfalso. apply negb_true_iff in Hmark.
      assert (Hex : existsb (fun res => is_card_path res
                                        && String.eqb (res_id r) (res_id res)) rs
                    = true).
      { apply existsb_exists. exists r. split; [exact Hin|].
        now rewrite C, String.eqb_refl. }
      congruence. }
    split; [exact Hc|].
    intros version timestamp Hurl.
    destruct (card_url_is_card version timestamp) as [_ Hp].
    unfold is_card_path in Hc. rewrite Hurl in Hc. congruence.
  - intros Hnd. apply filter_ext_in. intros r Hin. f_equal.
    destruct (is_card_path r) eqn:C.
    + apply existsb_exists. exists r. split; [exact Hin|].
      now rewrite C, String.eqb_refl.
    + destruct (existsb _ rs) eqn:X; [|reflexivity].
      apply existsb_exists in X. destruct X as (res & Hres & Hb).
      apply andb_prop in Hb. destruct Hb as [Hcard Hid].
      apply String.eqb_eq in Hid.
      rewrite (nodup_ids_unique rs r res Hnd Hin Hres Hid) in C. congruence.
Qed.

(** * Bounds on the stored delay *)

(** X19: the delay stored with a task is never negative and matches the
    fire time: in ABSOLUTE mode with a time string it is the whole
    seconds from now to the fire time, between 0 and 86400; otherwise the
    fire time is now plus exactly that many seconds, and a delay of at
    least 1, as the service schema requires, puts it at least one second
    ahead. *)
Theorem delay_seconds_bounds
        (now : datetime) (delay : Z) (unit : Unit) (at_ : option string)
        (tm : TimeMode) (st : datetime) (ds : Z) :
  compute_fire_time now delay unit at_ tm = inr (st, ds) ->
  (tm = TIME_MODE_ABSOLUTE -> truthy_opt at_ = true ->
   now < st
   /\ 0 <= ds <= 86400
   /\ timedelta_seconds ds <= st - now < timedelta_seconds (ds + 1))
  /\ (tm = TIME_MODE_RELATIVE \/ truthy_opt at_ = false ->
      st = now + timedelta_seconds ds
      /\ (1 <= delay -> 1 <= ds /\ now < st)).
Proof.
  intros H. split.
  - intros -> Ht. unfold compute_fire_time in H. simpl in H.
    destruct at_ as [s|]; [|discriminate]. simpl in Ht. rewrite Ht in H.
    destruct (parse_at_time_ok now s st ds H)
      as (h & m & sec & today & _ & R & Hst & Hds).
    apply replace_time_ok in R. destruct R as (Hh & Hm & Hs & ->).
    pose proof (seconds_of_bound h m sec Hh Hm Hs) as B.
    pose proof (midnight_le now) as L.
    assert (D : timedelta_days 1 = US_PER_DAY) by (unfold timedelta_days; lia).
    assert (Hr : 0 < st - now <= US_PER_DAY).
    { rewrite Hst.
      destruct (Z.leb_spec (midnight now + timedelta_seconds (seconds_of h m sec))
                           now); lia. }
    assert (Hq : ds = (st - now) / US_PER_SECOND).
    { rewrite Hds. unfold total_seconds_int.
      apply Z.quot_div_nonneg; [lia|reflexivity]. }
    assert (Hus : 0 < US_PER_SECOND) by reflexivity.
    pose proof (Z.mul_div_le (st - now) US_PER_SECOND Hus) as Q1.
    pose proof (Z.mul_succ_div_gt (st - now) US_PER_SECOND Hus) as Q2.
    rewrite <- Hq in Q1, Q2.
    unfold timedelta_seconds.
    assert (Hd : US_PER_DAY = 86400 * US_PER_SECOND) by reflexivity.
    split; [lia|]. split; [|lia].
    split.
    + rewrite Hq. apply Z.div_pos; lia.
    + rewrite Hq. apply Z.div_le_upper_bound; lia.
  - intros Hrel.
    assert (E0 : compute_fire_time now delay unit at_ tm
                 = inr (now + timedelta_seconds (convert_to_seconds delay unit),
                        convert_to_seconds delay unit)).
    { unfold compute_fire_time.
      destruct Hrel as [-> | Ht]; [reflexivity|].
      destruct (TimeMode_eqb tm TIME_MODE_ABSOLUTE); [|reflexivity].
      destruct at_ as [s|]; [|reflexivity]. simpl in Ht. now rewrite Ht. }
    rewrite E0 in H. injection H as <- <-.
    split; [reflexivity|].
    intros Hd. unfold timedelta_seconds, US_PER_SECOND.
    assert (Hc : delay <= convert_to_seconds delay unit)
      by (unfold convert_to_seconds; destruct unit; simpl; lia).
    lia.
Qed.

(** * The further properties at work on concrete states *)

Lemma armed_world_steady : steady armed_world.
Proof.
  split; [reflexivity|]. split.
  - intros k. unfold has_task, Py.has. simpl.
    now destruct (String.eqb k "t1").
  - split.
    + intros k h. simpl. destruct (String.eqb k "t1"); [|discriminate].
      intros [= <-]. simpl. lia.
    + intros h x. simpl. intros [H|[]]. injection H as <- _. lia.
Defined.

Lemma restart_world_keys : NoDup (Py.keys (store restart_world)).
Proof. simpl. repeat constructor; simpl; intuition discriminate. Defined.

Lemma firing_always_cleans_up_witness :
  find (fun t => Nat.eqb (fst t) 0%nat) (timers armed_world)
  = Some (0%nat, (noon + timedelta_seconds 10,
                  mkCallback "t1" [action_on "light.turn_off" "light.kitchen"]
                             false false false None None))
  /\ timer_elapse quiet_host 0 armed_world
     = (Returned tt, snd (timer_elapse quiet_host 0 armed_world))
  /\ has_task "t1" (snd (timer_elapse quiet_host 0 armed_world)) = false
  /\ timer_elapse quiet_host 0 (snd (timer_elapse quiet_host 0 armed_world))
     = (Returned tt, snd (timer_elapse quiet_host 0 armed_world)).
Proof.
  assert (F : find (fun t => Nat.eqb (fst t) 0%nat) (timers armed_world)
              = Some (0%nat, (noon + timedelta_seconds 10,
                              mkCallback "t1"
                                [action_on "light.turn_off" "light.kitchen"]
                                false false false None None)))
    by reflexivity.
  assert (H : timer_elapse quiet_host 0 armed_world
              = (Returned tt, snd (timer_elapse quiet_host 0 armed_world)))
    by (vm_compute; reflexivity).
  split; [exact F|]. split; [exact H|].
  destruct (firing_always_cleans_up quiet_host 0%nat armed_world _ _ F)
    as [_ Hall].
  destruct (Hall _ H) as (Hs & _ & _ & Hagain).
  split; [exact Hs|exact Hagain].
Defined.


Lemma restart_returns :
  async_restore_tasks quiet_host noon (new_coordinator restart_world)
  = (Returned tt, restarted_world).
Proof. vm_compute. reflexivity. Defined.

Lemma recovery_leaves_steady_witness :
  NoDup (Py.keys (store restart_world))
  /\ (forall h x, In (h, x) (timers restart_world)
                  -> (h < next_handle restart_world)%nat)
  /\ async_restore_tasks quiet_host noon (new_coordinator restart_world)
     = (Returned tt, restarted_world)
  /\ steady restarted_world.
Proof.
  assert (Ht : forall h x, In (h, x) (timers restart_world)
                           -> (h < next_handle restart_world)%nat)
    by (intros h x []).
  split; [exact restart_world_keys|]. split; [exact Ht|].
  split; [exact restart_returns|].
  destruct (recovery_leaves_steady quiet_host noon restart_world restarted_world
              restart_world_keys Ht restart_returns) as (_ & Hs & _).
  exact Hs.
Defined.

Lemma recovery_rearms_future_task_witness :
  NoDup (Py.keys (store restart_world))
  /\ In ("evening", evening_task) (store restart_world)
  /\ fire_time quiet_host evening_task
     = Returned (Some (Aware 63839822400000000))
  /\ noon < 63839822400000000
  /\ or_default (finish_actions evening_task) [] <> []
  /\ async_restore_tasks quiet_host noon (new_coordinator restart_world)
     = (Returned tt, restarted_world)
  /\ In ("evening", evening_task) (store restarted_world).
Proof.
  assert (Hin : In ("evening", evening_task) (store restart_world))
    by (simpl; auto).
  assert (Hlt : noon < 63839822400000000) by (unfold noon; lia).
  assert (Hfa : or_default (finish_actions evening_task) [] <> [])
    by discriminate.
  split; [exact restart_world_keys|]. split; [exact Hin|].
  split; [reflexivity|]. split; [exact Hlt|]. split; [exact Hfa|].
  split; [exact restart_returns|].
  destruct (recovery_rearms_future_task quiet_host noon restart_world
              restarted_world "evening" evening_task 63839822400000000
              restart_world_keys Hin eq_refl Hlt Hfa restart_returns)
    as (Hs & _).
  exact Hs.
Defined.

Lemma shutdown_then_restart_rearms_witness :
  NoDup (Py.keys (store restart_world))
  /\ In ("evening", evening_task) (store restart_world)
  /\ fire_time quiet_host evening_task
     = Returned (Some (Aware 63839822400000000))
  /\ noon < 63839822400000000
  /\ or_default (finish_actions evening_task) [] <> []
  /\ async_restore_tasks quiet_host noon
       (new_coordinator (shut_down quiet_host restart_world))
     = (Returned tt, restarted_world)
  /\ async_shutdown quiet_host restart_world
     = (Returned tt, shut_down quiet_host restart_world)
  /\ In ("evening", evening_task) (store restarted_world).
Proof.
  assert (Hin : In ("evening", evening_task) (store restart_world))
    by (simpl; auto).
  assert (Hlt : noon < 63839822400000000) by (unfold noon; lia).
  assert (Hfa : or_default (finish_actions evening_task) [] <> [])
    by discriminate.
  assert (Hr : async_restore_tasks quiet_host noon
                 (new_coordinator (shut_down quiet_host restart_world))
               = (Returned tt, restarted_world))
    by (vm_compute; reflexivity).
  split; [exact restart_world_keys|]. split; [exact Hin|].
  split; [reflexivity|]. split; [exact Hlt|]. split; [exact Hfa|].
  split; [exact Hr|].
  destruct (shutdown_then_restart_rearms quiet_host noon restart_world
              restarted_world "evening" evening_task 63839822400000000
              restart_world_keys Hin eq_refl Hlt Hfa Hr)
    as (H1 & _ & H3 & _).
  split; [exact H1|exact H3].
Defined.

Lemma reschedule_supersedes_witness :
  Py.get "t1" (scheduled_tasks armed_world) = Some 0%nat
  /\ handles_fresh armed_world
  /\ compute_fire_time noon 5 UNIT_MINUTES None TIME_MODE_RELATIVE
     = inr (noon + timedelta_seconds 300, 300)
  /\ async_schedule_action quiet_host noon "t1" 5 UNIT_MINUTES
       [action_on "switch.turn_off" "switch.heater"] None
       false false false None None TIME_MODE_RELATIVE None armed_world
     = (Returned tt, rearmed_world)
  /\ timer_elapse quiet_host 0 rearmed_world = (Returned tt, rearmed_world)
  /\ Py.get "t1" (scheduled_tasks rearmed_world) = Some 1%nat.
Proof.
  assert (Hf : handles_fresh armed_world) by apply armed_world_steady.
  assert (Hs : async_schedule_action quiet_host noon "t1" 5 UNIT_MINUTES
                 [action_on "switch.turn_off" "switch.heater"] None
                 false false false None None TIME_MODE_RELATIVE None armed_world
               = (Returned tt, rearmed_world)) by (vm_compute; reflexivity).
  split; [reflexivity|]. split; [exact Hf|]. split; [reflexivity|].
  split; [exact Hs|].
  destruct (reschedule_supersedes quiet_host noon "t1" 5 UNIT_MINUTES
              [action_on "switch.turn_off" "switch.heater"] None
              false false false None None TIME_MODE_RELATIVE None
              armed_world rearmed_world 0%nat
              (noon + timedelta_seconds 300) 300 eq_refl Hf eq_refl Hs)
    as (H1 & H2 & _).
  split; [exact H1|exact H2].
Defined.

Lemma schedule_then_cancel_runs_nothing_witness :
  compute_fire_time noon 10 UNIT_SECONDS None TIME_MODE_RELATIVE
  = inr (noon + timedelta_seconds 10, 10)
  /\ async_schedule_action quiet_host noon "t1" 10 UNIT_SECONDS
       [action_on "light.turn_off" "light.kitchen"] None
       false false false None None TIME_MODE_RELATIVE None empty_world
     = (Returned tt, armed_world)
  /\ async_cancel_action quiet_host "t1" false "user_request" armed_world
     = (Returned true,
        snd (async_cancel_action quiet_host "t1" false "user_request" armed_world))
  /\ has_task "t1"
       (snd (async_cancel_action quiet_host "t1" false "user_request" armed_world))
     = false.
Proof.
  assert (Hs : async_schedule_action quiet_host noon "t1" 10 UNIT_SECONDS
                 [action_on "light.turn_off" "light.kitchen"] None
                 false false false None None TIME_MODE_RELATIVE None empty_world
               = (Returned tt, armed_world)) by (vm_compute; reflexivity).
  assert (Hc : async_cancel_action quiet_host "t1" false "user_request" armed_world
               = (Returned true,
                  snd (async_cancel_action quiet_host "t1" false "user_request"
                                           armed_world)))
    by (vm_compute; reflexivity).
  split; [reflexivity|]. split; [exact Hs|]. split; [exact Hc|].
  destruct (schedule_then_cancel_runs_nothing quiet_host noon "t1" 10 UNIT_SECONDS
              [action_on "light.turn_off" "light.kitchen"] None
              false false false None None TIME_MODE_RELATIVE None
              false "user_request" empty_world armed_world _
              (noon + timedelta_seconds 10) 10 true eq_refl Hs Hc)
    as (_ & H & _).
  exact H.
Defined.

Lemma start_actions_never_block_schedule_witness :
  async_cancel_action lock_jammed_host "t3" true "user_request" empty_world
  = (Returned false, empty_world)
  /\ compute_fire_time noon 10 UNIT_SECONDS None TIME_MODE_RELATIVE
     = inr (noon + timedelta_seconds 10, 10)
  /\ async_schedule_action lock_jammed_host noon "t3" 10 UNIT_SECONDS
       [action_on "light.turn_off" "light.kitchen"] (Some unlock_then_light)
       false false false None None TIME_MODE_RELATIVE None empty_world
     = (Returned tt, jammed_start_world)
  /\ calls jammed_start_world = batch_calls unlock_then_light
  /\ Py.get "t3" (scheduled_tasks jammed_start_world) = Some 0%nat.
Proof.
  assert (Hs : async_schedule_action lock_jammed_host noon "t3" 10 UNIT_SECONDS
                 [action_on "light.turn_off" "light.kitchen"]
                 (Some unlock_then_light)
                 false false false None None TIME_MODE_RELATIVE None empty_world
               = (Returned tt, jammed_start_world))
    by (vm_compute; reflexivity).
  split; [reflexivity|]. split; [reflexivity|]. split; [exact Hs|].
  destruct (start_actions_never_block_schedule lock_jammed_host noon "t3" 10
              UNIT_SECONDS [action_on "light.turn_off" "light.kitchen"]
              (Some unlock_then_light) false false false None None
              TIME_MODE_RELATIVE None empty_world empty_world
              jammed_start_world false
              (noon + timedelta_seconds 10) 10 eq_refl eq_refl Hs)
    as (_ & Hc & _ & _ & Hg & _).
  split; [exact Hc|exact Hg].
Defined.


Lemma run_action_rejects_incomplete_request_witness :
  (ra_finish_actions bare_request = None
   \/ ra_finish_actions bare_request = Some [])
  /\ ((truthy_opt (ra_action bare_request) = false
       /\ truthy_opt (ra_service bare_request) = false)
      \/ truthy_opt (ra_entity_id bare_request) = false)
  /\ handle_run_action quiet_host fixed_digest noon bare_request armed_world
     = (Returned tt, armed_world).
Proof.
  assert (H1 : ra_finish_actions bare_request = None
               \/ ra_finish_actions bare_request = Some [])
    by (left; reflexivity).
  assert (H2 : (truthy_opt (ra_action bare_request) = false
                /\ truthy_opt (ra_service bare_request) = false)
               \/ truthy_opt (ra_entity_id bare_request) = false)
    by (left; split; reflexivity).
  split; [exact H1|]. split; [exact H2|].
  exact (run_action_rejects_incomplete_request quiet_host fixed_digest noon
           bare_request armed_world H1 H2).
Defined.

Lemma cancel_action_finds_run_action_task_witness :
  (truthy_opt (ra_task_id legacy_request) = true
   \/ truthy_opt (ra_entity_id legacy_request) = true)
  /\ normalized_actions legacy_request
     = Some (None, [mkAction (Some (PStr "light.turn_on"))
                             (Some [("entity_id", "light.kitchen")]) (Some [])])
  /\ has_task "light.kitchen"
       (snd (handle_cancel_action quiet_host None (Some "light.kitchen")
               (snd (handle_run_action quiet_host fixed_digest noon
                                       legacy_request empty_world))))
     = false.
Proof.
  assert (Hid : truthy_opt (ra_task_id legacy_request) = true
                \/ truthy_opt (ra_entity_id legacy_request) = true)
    by (right; reflexivity).
  split; [exact Hid|]. split; [reflexivity|].
  destruct (cancel_action_finds_run_action_task quiet_host fixed_digest noon
              legacy_request empty_world
              (snd (handle_run_action quiet_host fixed_digest noon
                                      legacy_request empty_world))
              (snd (handle_cancel_action quiet_host None (Some "light.kitchen")
                      (snd (handle_run_action quiet_host fixed_digest noon
                                              legacy_request empty_world))))
              None
              [mkAction (Some (PStr "light.turn_on"))
                        (Some [("entity_id", "light.kitchen")]) (Some [])]
              (noon + timedelta_seconds 10) 10 Hid eq_refl eq_refl)
    as (_ & H & _).
  - vm_compute. reflexivity.
  - vm_compute. reflexivity.
  - exact H.
Defined.

Lemma legacy_mappings_agree_witness :
  String.prefix "set_hvac_mode_" "toggle" = false
  /\ fst (fst (_map_legacy_action "light.kitchen" "toggle"))
     = domain_of "light.kitchen"
  /\ legacy_finish_service "light.kitchen" (Some "toggle") None = "light.toggle".
Proof.
  split; [reflexivity|]. split; [reflexivity|].
  destruct (legacy_mappings_agree "light.kitchen" "toggle" eq_refl eq_refl)
    as [H _].
  exact H.
Defined.

Lemma dotless_legacy_service_is_skipped_witness :
  ra_service dotless_request = Some "turn_on"
  /\ Py.contains "." "turn_on" = false
  /\ ra_entity_id dotless_request = Some "light.kitchen"
  /\ exists a,
       normalized_actions dotless_request = Some (None, [a])
       /\ run_finish_actions quiet_host [a] (0, 0)%nat empty_world
          = (Returned (1, 0)%nat, empty_world).
Proof.
  split; [reflexivity|]. split; [reflexivity|]. split; [reflexivity|].
  destruct (dotless_legacy_service_is_skipped quiet_host dotless_request
              "light.kitchen" "turn_on" (or_introl eq_refl) eq_refl eq_refl
              eq_refl eq_refl eq_refl eq_refl)
    as (a & Hn & _ & _ & Hr & _).
  exists a. split; [exact Hn|apply Hr].
Defined.

Lemma parse_presets_all_or_nothing_witness :
  map Some (_parse_presets "5,10, 15 ,,20") = [Some 5; Some 10; Some 15; Some 20]
  /\ In "x" (preset_fields "5,x,7")
  /\ Py.int (str_strip "x") = None
  /\ _parse_presets "5,x,7" = [].
Proof.
  destruct (parse_presets_all_or_nothing "5,10, 15 ,,20") as [H1 _].
  destruct (parse_presets_all_or_nothing "5,x,7") as [_ H2].
  assert (Hx : In "x" (preset_fields "5,x,7")) by (simpl; auto).
  split.
  - rewrite H1; [reflexivity|].
    intros x Hin. simpl in Hin.
    destruct Hin as [<-|[<-|[<-|[<-|[]]]]]; discriminate.
  - split; [exact Hx|]. split; [reflexivity|].
    apply H2. exists "x". split; [exact Hx|reflexivity].
Defined.

Lemma register_frontend_keeps_one_resource_witness :
  existsb is_card [mkResource "a1" "module" "/local/other.js";
                   mkResource "b2" "module"
                     "/quick_timer_static/quick-timer-card.js?v=0.9.0&t=1"]
  = true
  /\ lovelace (async_register_frontend (Some "1.0.0") 42 "c3" dashboard)
     = Some [mkResource "a1" "module" "/local/other.js";
             mkResource "b2" "module" (card_url "1.0.0" 42)].
Proof.
  split; [reflexivity|].
  destruct (register_frontend_keeps_one_resource (Some "1.0.0") 42 "c3"
                                                 dashboard)
    as (_ & _ & H & _).
  destruct (H _ eq_refl) as (rs' & Hl & _).
  rewrite Hl. vm_compute in Hl. injection Hl as <-. vm_compute. reflexivity.
Defined.

Lemma unload_removes_card_resources_witness :
  lovelace dashboard
  = Some [mkResource "a1" "module" "/local/other.js";
          mkResource "b2" "module"
                     "/quick_timer_static/quick-timer-card.js?v=0.9.0&t=1"]
  /\ exists rs',
       async_unload_entry quiet_host true armed_world dashboard
       = (Returned true, shut_down quiet_host armed_world,
          mkFrontend (views dashboard) (Some rs'))
       /\ rs' = [mkResource "a1" "module" "/local/other.js"].
Proof.
  split; [reflexivity|].
  destruct (unload_removes_card_resources quiet_host armed_world dashboard _
                                          eq_refl)
    as ((rs' & Hu & _ & Hf) & _).
  exists rs'. split; [exact Hu|].
  rewrite Hf; [reflexivity|].
  simpl. repeat constructor; simpl; intuition discriminate.
Defined.

Lemma legacy_executor_is_safe_witness :
  truthy_opt (Some "unlock") = true
  /\ Py.contains "." "unlock" = false
  /\ _execute_action lock_jammed_host "entity_id" "lock.front" None
                     (Some "unlock") (Some [("entity_id", "lock.back")])
                     empty_world
     = (Returned tt,
        with_calls [ServiceCall "lock" "unlock"
                                (Some [("entity_id", "lock.front")]) None]
                   empty_world).
Proof.
  split; [reflexivity|]. split; [reflexivity|].
  destruct (legacy_executor_is_safe lock_jammed_host "entity_id" "lock.front"
              None (Some "unlock") (Some [("entity_id", "lock.back")])
              empty_world) as (l & H & _ & _ & Hs).
  destruct (Hs eq_refl) as (dom & name & cd & Hl & Hg & Hd).
  destruct (Hd eq_refl) as [Hdom Hname].
  rewrite H, Hl, Hdom, Hname. clear Hd.
  vm_compute in H. rewrite Hl in H. injection H as _ _ Hcd.
  rewrite <- Hcd. reflexivity.
Defined.

Lemma delay_seconds_bounds_witness :
  compute_fire_time (noon + 43190500000) 15 UNIT_MINUTES (Some "00:00")
                    TIME_MODE_ABSOLUTE
  = inr (noon + timedelta_seconds 43200, 9)
  /\ noon + 43190500000 < noon + timedelta_seconds 43200
  /\ 0 <= 9 <= 86400.
Proof.
  assert (H : compute_fire_time (noon + 43190500000) 15 UNIT_MINUTES
                                (Some "00:00") TIME_MODE_ABSOLUTE
              = inr (noon + timedelta_seconds 43200, 9)) by reflexivity.
  split; [exact H|].
  destruct (delay_seconds_bounds (noon + 43190500000) 15 UNIT_MINUTES
              (Some "00:00") TIME_MODE_ABSOLUTE
              (noon + timedelta_seconds 43200) 9 H) as [Ha _].
  destruct (Ha eq_refl eq_refl) as (H1 & H2 & _).
  split; [exact H1|exact H2].
Defined.
